(** * BackEndTradeBot: the wallet vault, the order path and the bot engine

    A shallow embedding of [app/core/wallet_service.py],
    [app/core/binance_client.py], [app/core/trading_service.py] and
    [app/core/bot_service.py], followed by the properties of the specification
    that were checked against it.

    Python floats are IEEE binary64 numbers: they are Rocq's primitive floats.
    Python dictionaries are finite maps with string keys.  The three services
    are module-level singletons that call each other, so they live in one
    [World]; every method is a computation in a state-and-exception monad over
    it, and (as in Python) what a method wrote before it raised stays written.
    Everything outside the process (the exchange, the clock, the symmetric
    cipher, Python's float parser and printer) is a parameter. *)

From Stdlib Require Import ZArith String Ascii List Bool Lia.
From Stdlib Require Import Floats.PrimFloat.
From stdpp Require Import base option gmap strings list pretty.

Local Open Scope string_scope.

(** ** Python values *)

Module Py.

(** The values that occur in the exchange's JSON answers and in the stored
    wallet records. *)
Inductive pyval : Type :=
| PNone
| PBool (b : bool)
| PInt (z : Z)
| PFloat (f : float)
| PStr (s : string).

Abbreviation dict := (gmap string pyval).

(** The exceptions that the modelled code can raise or meet. *)
Inductive Exc : Type :=
| ValueError (msg : string)
| KeyError (key : string)
| TypeError (msg : string)
| AttributeError (msg : string)
| ZeroDivisionError
| OverflowError (msg : string)
| ValidationError (field : string)          (* pydantic *)
| InvalidToken                              (* cryptography.fernet *)
| BinanceLibException (msg : string)        (* binance.exceptions *)
| BinanceAPIException (detail : string)     (* app.models.exceptions, HTTP 400 *)
| NotFoundException (detail : string)       (* app.models.exceptions, HTTP 404 *)
| OtherException (msg : string).            (* network failures and the like *)

Inductive result (A : Type) : Type :=
| Ok (a : A)
| Raise (e : Exc).
Arguments Ok {A} a.
Arguments Raise {A} e.

(** Truth value of a float: [bool(x)] is [x != 0.0], so both zeros are
    falsy and a NaN is truthy. *)
Definition float_truthy (x : float) : bool := negb (PrimFloat.eqb x 0%float).

Definition truthy (v : pyval) : bool :=
  match v with
  | PNone => false
  | PBool b => b
  | PInt z => negb (z =? 0)%Z
  | PFloat f => float_truthy f
  | PStr s => negb (String.eqb s "")
  end.

(** [x or d] for an [Optional[float]] [x]. *)
Definition float_or (x : option float) (d : float) : float :=
  match x with
  | Some v => if float_truthy v then v else d
  | None => d
  end.

(** [x or d] for an [Optional[str]] [x]. *)
Definition str_or (x : option string) (d : string) : string :=
  match x with
  | Some v => if String.eqb v "" then d else v
  | None => d
  end.

(** [a / b] on floats raises on a zero divisor; [-], [*] never raise. *)
Definition float_div (a b : float) : result float :=
  if PrimFloat.eqb b 0%float then Raise ZeroDivisionError
  else Ok (PrimFloat.div a b).

(** Library functions, which are not part of the repository: [float(s)] on
    a string ([None] is its [ValueError]), [float(n)] on an integer, [str(x)]
    on a float, [datetime.fromtimestamp(t / 1000).isoformat()], [str(e)]
    on a FastAPI [HTTPException] with the given status code and detail,
    [threading.Event.wait(timeout)] as far as it can fail (it raises
    [OverflowError] on a timeout above [threading.TIMEOUT_MAX]), and
    [s.upper()] on a text that has a character outside ASCII. *)
Class Builtins : Type := {
  float_of_str : string -> option float;
  float_of_int : Z -> float;
  str_of_float : float -> string;
  isoformat_of_ms : pyval -> result string;
  str_of_http_exception : Z -> string -> string;
  event_wait : Z -> result unit;
  upper_beyond_ascii : string -> string
}.

(** [str(e)]; the two exceptions of [app.models.exceptions] are
    [HTTPException]s with status 400 and 404. *)
Definition exc_str `{Builtins} (e : Exc) : string :=
  match e with
  | ValueError m | TypeError m | AttributeError m | OverflowError m
  | BinanceLibException m | OtherException m => m
  | KeyError k => "'" +:+ k +:+ "'"
  | ZeroDivisionError => "float division by zero"
  | ValidationError f => "validation error for " +:+ f
  | InvalidToken => ""
  | BinanceAPIException d => str_of_http_exception 400 d
  | NotFoundException d => str_of_http_exception 404 d
  end.

(** [float(v)]. *)
Definition py_float `{Builtins} (v : pyval) : result float :=
  match v with
  | PNone => Raise (TypeError "float() argument must be a string or a real number, not 'NoneType'")
  | PBool b => Ok (if b then 1%float else 0%float)
  | PInt z => Ok (float_of_int z)
  | PFloat f => Ok f
  | PStr s => match float_of_str s with
              | Some f => Ok f
              | None => Raise (ValueError ("could not convert string to float: " +:+ s))
              end
  end.

(** [str(v)]. *)
Definition py_str `{Builtins} (v : pyval) : string :=
  match v with
  | PNone => "None"
  | PBool b => if b then "True" else "False"
  | PInt z => pretty z
  | PFloat f => str_of_float f
  | PStr s => s
  end.

End Py.
Export Py.

(** ** Strings and Base64

    A Python [str] is modelled by the bytes of its UTF-8 form, so that
    [s.encode()] is the string itself; a character is a byte that is not a
    continuation byte, followed by its continuation bytes. *)

Module Text.

(** A continuation byte of UTF-8: [10xxxxxx]. *)
Definition is_continuation (c : ascii) : bool :=
  let n := nat_of_ascii c in (128 <=? n)%nat && (n <? 192)%nat.

(** The bytes of the last [n] characters, read from the reversed bytes:
    continuation bytes come before the byte that opens their character. *)
Fixpoint last_chars (n : nat) (reversed : list ascii) (acc : list ascii) : list ascii :=
  match reversed with
  | [] => acc
  | c :: r =>
      match n with
      | O => acc
      | S m => if is_continuation c then last_chars n r (c :: acc)
               else last_chars m r (c :: acc)
      end
  end.

(** The bytes of the first [n] characters. *)
Fixpoint first_chars (n : nat) (bytes : list ascii) : list ascii :=
  match bytes with
  | [] => []
  | c :: r =>
      if is_continuation c then c :: first_chars n r
      else match n with
           | O => []
           | S m => c :: first_chars m r
           end
  end.

(** [s[-n:]] for a positive [n]: the last [n] characters, the whole string
    when it is shorter. *)
Definition suffix (n : nat) (s : string) : string :=
  string_of_list_ascii (last_chars n (rev (list_ascii_of_string s)) []).

(** [s[:n]]. *)
Definition prefix (n : nat) (s : string) : string :=
  string_of_list_ascii (first_chars n (list_ascii_of_string s)).

Definition upper_ascii (c : ascii) : ascii :=
  let n := nat_of_ascii c in
  if (97 <=? n)%nat && (n <=? 122)%nat then ascii_of_nat (n - 32) else c.

Fixpoint upper_bytes (s : string) : string :=
  match s with
  | EmptyString => EmptyString
  | String c r => String (upper_ascii c) (upper_bytes r)
  end.

(** Every character is an ASCII character. *)
Fixpoint is_ascii (s : string) : bool :=
  match s with
  | EmptyString => true
  | String c r => (nat_of_ascii c <? 128)%nat && is_ascii r
  end.

(** [s.upper()]: on ASCII text the letters a to z are mapped, byte by byte;
    any other text is left to the library. *)
Definition upper `{Builtins} (s : string) : string :=
  if is_ascii s then upper_bytes s else upper_beyond_ascii s.

Definition b64_alphabet : string :=
  "ABCDEFGHIJKLMNOPQRSTUVWXYZabcdefghijklmnopqrstuvwxyz0123456789+/".

Definition b64_digit (n : N) : ascii :=
  match String.get (N.to_nat n) b64_alphabet with
  | Some c => c
  | None => "="%char
  end.

(** Standard Base64 with padding, three bytes to four digits. *)
Fixpoint b64encode (s : string) : string :=
  match s with
  | EmptyString => EmptyString
  | String a EmptyString =>
      let n := (N_of_ascii a * 65536)%N in
      String (b64_digit (n / 262144)) (String (b64_digit ((n / 4096) mod 64)) "==")
  | String a (String b EmptyString) =>
      let n := (N_of_ascii a * 65536 + N_of_ascii b * 256)%N in
      String (b64_digit (n / 262144))
        (String (b64_digit ((n / 4096) mod 64))
           (String (b64_digit ((n / 64) mod 64)) "="))
  | String a (String b (String c r)) =>
      let n := (N_of_ascii a * 65536 + N_of_ascii b * 256 + N_of_ascii c)%N in
      String (b64_digit (n / 262144))
        (String (b64_digit ((n / 4096) mod 64))
           (String (b64_digit ((n / 64) mod 64))
              (String (b64_digit (n mod 64)) (b64encode r))))
  end.

End Text.

(** ** The world of the three singleton services *)

Module State.

(** A reference to a dictionary object on the Python heap. *)
Abbreviation loc := positive.

Record Thread : Type := { alive : bool }.

Inductive BotStatus : Type := STOPPED | RUNNING | ERROR.

Inductive BotStrategy : Type := SIMPLE | GRID.

(** [app.models.bot.BotConfig]. *)
Record BotConfig : Type := {
  symbol : string;
  interval_seconds : Z;
  max_amount : float;
  wallet_id : string;
  strategy : BotStrategy;
  buy_threshold : option float;
  sell_threshold : option float
}.

(** One entry of [_state["price_history"]]. *)
Record PriceSample : Type := { price : float; timestamp : string }.

(** The texts written to [_state["last_operation"]], by the f-string that
    produces them; the floats are kept instead of their printed form. *)
Inductive Operation : Type :=
| OpStarted (sym : string)
    (* f"Bot iniciado para {config.symbol}" *)
| OpStopped
    (* "Bot parado pelo usuário" *)
| OpMonitoring (current : float)
    (* f"Monitorando preço: {current_price}" *)
| OpAnalysis (current change : float)
    (* f"Análise: Preço atual {current_price}, variação {price_change_percent:.2f}%" *)
| OpBuySignal (drop last current : float)
    (* f"Sinal de compra detectado: Preço caiu {abs(price_change_percent):.2f}% (de {last_price} para {current_price})" *)
| OpSellSignal (rise last current : float)
    (* f"Sinal de venda detectado: Preço subiu {price_change_percent:.2f}% (de {last_price} para {current_price})" *)
| OpGrid (current change : float)
    (* f"Análise grid trading: Preço atual {current_price}, mudança de {...:.2f}%" *)
| OpStrategyError (msg : string).
    (* f"Erro ao executar estratégia: {str(e)}" *)

(** [BotService]: its attributes, with the keys of [_state] as fields. *)
Record BotService : Type := {
  bot_thread : option Thread;
  stop_event : bool;
  status : BotStatus;
  config : option BotConfig;
  start_time : option string;
  last_price : option float;
  last_operation : option Operation;
  error_message : option string;
  state_wallet_id : option string;
  state_symbol : option string;
  price_history : list PriceSample
}.

(** [WalletService]: [_wallets] maps a wallet id to its record, a dictionary
    object; the cipher suite is determined by the key. *)
Record WalletService : Type := {
  encryption_key : string;
  wallets : gmap string loc
}.

(** The keyword arguments of one [client.client.create_order(...)] call. *)
Record OrderArgs : Type := {
  oa_symbol : string;
  oa_side : string;
  oa_type : string;
  oa_timeInForce : option string;
  oa_quantity : float;
  oa_price : option float
}.

Record World : Type := {
  heap : gmap loc dict;
  wallet_service : WalletService;
  trading_orders : gmap string dict;       (* TradingService._orders *)
  bot_service : BotService;
  submitted : list OrderArgs               (* orders sent to the exchange, newest first *)
}.

Definition set_heap (h : gmap loc dict) (w : World) : World :=
  {| heap := h; wallet_service := wallet_service w;
     trading_orders := trading_orders w; bot_service := bot_service w;
     submitted := submitted w |}.

Definition set_wallets (m : gmap string loc) (w : World) : World :=
  {| heap := heap w;
     wallet_service := {| encryption_key := encryption_key (wallet_service w);
                          wallets := m |};
     trading_orders := trading_orders w; bot_service := bot_service w;
     submitted := submitted w |}.

Definition set_trading_orders (m : gmap string dict) (w : World) : World :=
  {| heap := heap w; wallet_service := wallet_service w;
     trading_orders := m; bot_service := bot_service w;
     submitted := submitted w |}.

Definition set_bot (b : BotService) (w : World) : World :=
  {| heap := heap w; wallet_service := wallet_service w;
     trading_orders := trading_orders w; bot_service := b;
     submitted := submitted w |}.

Definition set_submitted (l : list OrderArgs) (w : World) : World :=
  {| heap := heap w; wallet_service := wallet_service w;
     trading_orders := trading_orders w; bot_service := bot_service w;
     submitted := l |}.

(** [BotService.__init__]. *)
Definition bot_init : BotService :=
  {| bot_thread := None; stop_event := false; status := STOPPED;
     config := None; start_time := None; last_price := None;
     last_operation := None; error_message := None;
     state_wallet_id := None; state_symbol := None; price_history := [] |}.

(** The process right after the three modules were imported. *)
Definition world_init (key : string) : World :=
  {| heap := ∅;
     wallet_service := {| encryption_key := key; wallets := ∅ |};
     trading_orders := ∅; bot_service := bot_init; submitted := [] |}.

End State.
Export State.

(** ** State and exceptions *)

Module Monad.

(** A method: it reads and writes the world and returns or raises. *)
Definition M (A : Type) : Type := World -> result A * World.

Definition ret {A} (a : A) : M A := fun w => (Ok a, w).

Definition bind {A B} (m : M A) (k : A -> M B) : M B :=
  fun w => match m w with
           | (Ok a, w') => k a w'
           | (Raise e, w') => (Raise e, w')
           end.

Definition raise {A} (e : Exc) : M A := fun w => (Raise e, w).

Definition lift {A} (r : result A) : M A := fun w => (r, w).

Definition get : M World := fun w => (Ok w, w).

Definition modify (f : World -> World) : M unit := fun w => (Ok tt, f w).

(** [try: m except Exception as e: h e]. *)
Definition try_except {A} (m : M A) (h : Exc -> M A) : M A :=
  fun w => match m w with
           | (Ok a, w') => (Ok a, w')
           | (Raise e, w') => h e w'
           end.

(** [try: m except BinanceLibException as e: h e]. *)
Definition try_except_lib {A} (m : M A) (h : string -> M A) : M A :=
  fun w => match m w with
           | (Raise (BinanceLibException msg), w') => h msg w'
           | r => r
           end.

#[global] Instance M_ret : MRet M := @ret.
#[global] Instance M_bind : MBind M := fun A B k m => bind m k.

(** [d[k]] on a dictionary value. *)
Definition dict_item (d : dict) (k : string) : M pyval :=
  match d !! k with
  | Some v => ret v
  | None => raise (KeyError k)
  end.

(** A new dictionary object. *)
Definition alloc (d : dict) : M loc :=
  fun w => let l := fresh (dom (heap w)) in
           (Ok l, set_heap (<[l := d]> (heap w)) w).

(** The dictionary behind a reference. *)
Definition deref (l : loc) : M dict :=
  fun w => match heap w !! l with
           | Some d => (Ok d, w)
           | None => (Raise (OtherException "dangling reference"), w)
           end.

(** [l.copy()]: a new object with the same items. *)
Definition dict_copy (l : loc) : M loc := d ← deref l; alloc d.

(** [l.pop(k)]: removes the item from the object itself. *)
Definition dict_pop (l : loc) (k : string) : M pyval :=
  d ← deref l;
  v ← dict_item d k;
  modify (fun w => set_heap (<[l := delete k d]> (heap w)) w);;
  ret v.

(** [l[k]] through a reference. *)
Definition ref_item (l : loc) (k : string) : M pyval :=
  d ← deref l; dict_item d k.

End Monad.
Export Monad.

(** ** The exchange and its client wrapper ([binance_client.py]) *)

Module Gateway.

Record Credentials : Type := {
  cred_api_key : string;
  cred_api_secret : string;
  cred_testnet : bool
}.

(** [app.core.config.settings]. *)
Record Settings : Type := {
  BINANCE_API_KEY : string;
  BINANCE_API_SECRET : string;
  BINANCE_TESTNET : bool
}.

(** What the exchange (through the python-binance client) answers at the
    time of a call. *)
Record Exchange : Type := {
  client_init : Credentials -> result unit;            (* Client(api_key=, api_secret=, testnet=) *)
  ping : Credentials -> result unit;
  get_symbol_ticker : Credentials -> string -> result dict;
  create_order : Credentials -> OrderArgs -> result dict;
  get_account_balances : Credentials -> result (list dict)  (* get_account()["balances"] *)
}.

(** What a method call finds outside the process. *)
Record Env : Type := {
  settings : Settings;
  exchange : Exchange;
  utcnow : string                                      (* datetime.utcnow().isoformat() *)
}.

(** [get_binance_client], that is [BinanceClientWrapper.__init__]. *)
Definition get_binance_client (env : Env) (api_key api_secret : string)
    (testnet : pyval) : M Credentials :=
  let c := {| cred_api_key := str_or (Some api_key) (BINANCE_API_KEY (settings env));
              cred_api_secret := str_or (Some api_secret) (BINANCE_API_SECRET (settings env));
              cred_testnet := match testnet with
                              | PNone => BINANCE_TESTNET (settings env)
                              | v => truthy v
                              end |} in
  if String.eqb (cred_api_key c) "" || String.eqb (cred_api_secret c) ""
  then raise (ValueError "API Key e API Secret são obrigatórios")
  else
    try_except_lib (lift (client_init (exchange env) c);; ret c)
      (fun msg => raise (BinanceAPIException msg)).

(** [BinanceClientWrapper.test_connection]. *)
Definition test_connection (env : Env) (c : Credentials) : M bool :=
  try_except_lib (lift (ping (exchange env) c);; ret true)
    (fun msg => raise (BinanceAPIException ("Erro ao conectar com a Binance: " +:+ msg))).

(** [BinanceClientWrapper.get_price]. *)
Definition get_price `{Builtins} (env : Env) (c : Credentials) (sym : string) : M float :=
  try_except_lib
    (ticker ← lift (get_symbol_ticker (exchange env) c sym);
     p ← dict_item ticker "price";
     lift (py_float p))
    (fun msg => raise (BinanceAPIException
                         ("Erro ao obter preço para " +:+ sym +:+ ": " +:+ msg))).

End Gateway.
Export Gateway.

(** ** The credential vault ([wallet_service.py]) *)

Module Wallet.

(** The symmetric cipher of [cryptography.fernet], by key: [fernet_decrypt]
    is [None] where the library raises [InvalidToken]. *)
Class Fernet : Type := {
  fernet_encrypt : string -> string -> string;
  fernet_decrypt : string -> string -> option string
}.

Section WalletService.
Context `{Fernet} `{Builtins}.

(** [WalletService._encrypt]. *)
Definition _encrypt (data : string) : M string :=
  w ← get;
  ret (fernet_encrypt (encryption_key (wallet_service w)) data).

(** [WalletService._decrypt]. *)
Definition _decrypt (encrypted_data : pyval) : M string :=
  match encrypted_data with
  | PStr s =>
      w ← get;
      match fernet_decrypt (encryption_key (wallet_service w)) s with
      | Some plain => ret plain
      | None => raise InvalidToken
      end
  | _ => raise (AttributeError "object has no attribute 'encode'")
  end.

(** The id under which [connect_wallet] stores a key. *)
Definition derive_wallet_id (api_key : string) : string :=
  Text.b64encode (Text.suffix 8 api_key).

(** [self._wallets[wallet_id]]. *)
Definition wallets_item (wallet_id : string) : M loc :=
  w ← get;
  match wallets (wallet_service w) !! wallet_id with
  | Some l => ret l
  | None => raise (KeyError wallet_id)
  end.

(** [WalletService.connect_wallet]. *)
Definition connect_wallet (env : Env) (api_key api_secret : string)
    (wallet_name : option string) (use_testnet : bool) : M bool :=
  try_except
    (client ← get_binance_client env api_key api_secret (PBool use_testnet);
     is_connected ← test_connection env client;
     if (is_connected : bool) then
       let wallet_id := derive_wallet_id api_key in
       encrypted_api_key ← _encrypt api_key;
       encrypted_api_secret ← _encrypt api_secret;
       l ← alloc (<["api_key" := PStr encrypted_api_key]>
                  (<["api_secret" := PStr encrypted_api_secret]>
                  (<["name" := PStr (str_or wallet_name
                                       ("Wallet-" +:+ Text.prefix 6 wallet_id))]>
                  (<["use_testnet" := PBool use_testnet]>
                  (<["connected_at" := PStr (utcnow env)]> ∅)))));
       modify (fun w => set_wallets (<[wallet_id := l]> (wallets (wallet_service w))) w);;
       ret true
     else ret false)
    (fun e => raise (BinanceAPIException ("Erro ao conectar à carteira: " +:+ exc_str e))).

(** [WalletService.get_wallet]: the projection is a new dictionary. *)
Definition get_wallet (wallet_id : string) : M (option loc) :=
  w ← get;
  match wallets (wallet_service w) !! wallet_id with
  | None => ret None
  | Some l =>
      wallet_info ← dict_copy l;
      dict_pop wallet_info "api_key";;
      dict_pop wallet_info "api_secret";;
      ret (Some wallet_info)
  end.

(** A wallet's decrypted credentials, as [get_wallet_balance], [start],
    [_execute_strategy] and [_get_binance_client_from_wallet] each read
    them: three subscripts into the stored record, two decryptions. *)
Definition resolve_credentials (wallet_id : string) : M (string * string * pyval) :=
  l ← wallets_item wallet_id;
  k ← ref_item l "api_key";
  api_key ← _decrypt k;
  l ← wallets_item wallet_id;
  s ← ref_item l "api_secret";
  api_secret ← _decrypt s;
  l ← wallets_item wallet_id;
  use_testnet ← ref_item l "use_testnet";
  ret (api_key, api_secret, use_testnet).

(** [app.models.wallet.AssetBalance]. *)
Record AssetBalance : Type := { asset : string; free : float; locked : float }.

(** The loop of [get_wallet_balance] over [account_info["balances"]]. *)
Fixpoint collect_balances (raw : list dict) : M (list AssetBalance) :=
  match raw with
  | [] => ret []
  | balance :: rest =>
      f ← dict_item balance "free";
      free ← lift (py_float f);
      l ← dict_item balance "locked";
      locked ← lift (py_float l);
      if PrimFloat.ltb 0 free || PrimFloat.ltb 0 locked then
        a ← dict_item balance "asset";
        match a with
        | PStr name =>
            tl ← collect_balances rest;
            ret ({| asset := name; free := free; locked := locked |} :: tl)
        | _ => raise (ValidationError "asset")
        end
      else collect_balances rest
  end.

(** [WalletService.get_wallet_balance]. *)
Definition get_wallet_balance (env : Env) (wallet_id : string) : M (list AssetBalance) :=
  w ← get;
  match wallets (wallet_service w) !! wallet_id with
  | None => raise (ValueError "Carteira não encontrada ou não conectada")
  | Some _ =>
      try_except
        (creds ← resolve_credentials wallet_id;
         let '(api_key, api_secret, use_testnet) := creds in
         client ← get_binance_client env api_key api_secret use_testnet;
         raw ← lift (get_account_balances (exchange env) client);
         collect_balances raw)
        (fun e => raise (BinanceAPIException
                           ("Erro ao obter saldo da carteira: " +:+ exc_str e)))
  end.

End WalletService.
End Wallet.
Export Wallet.

(** ** The order path ([trading_service.py]) *)

Module Trading.

Inductive OrderSide : Type := BUY | SELL.

Inductive OrderType : Type := MARKET | LIMIT.

Inductive OrderStatus : Type :=
  NEW | PARTIALLY_FILLED | FILLED | CANCELED | REJECTED | EXPIRED.

(** [app.models.trading.OrderResponse]. *)
Record OrderResponse : Type := {
  order_id : string;
  or_symbol : string;
  or_side : OrderSide;
  or_type : OrderType;
  or_status : OrderStatus;
  or_quantity : float;
  or_price : option float;
  executed_quantity : float;
  cumulative_quote_quantity : float;
  created_at : string;
  updated_at : option string
}.

#[global] Instance result_ret : MRet result := @Ok.
#[global] Instance result_bind : MBind result :=
  fun A B k r => match r with Ok a => k a | Raise e => Raise e end.

(** [d.get(k)] and [d.get(k, v)]. *)
Definition dict_get (d : dict) (k : string) : pyval := default PNone (d !! k).
Definition dict_get_or (d : dict) (k : string) (v : pyval) : pyval := default v (d !! k).

(** The enumeration constructors [OrderSide(v)], [OrderType(v)],
    [OrderStatus(v)]: a [ValueError] on anything that is not a member. *)
Definition OrderSide_of (v : pyval) : result OrderSide :=
  match v with
  | PStr s => if String.eqb s "BUY" then Ok BUY
              else if String.eqb s "SELL" then Ok SELL
              else Raise (ValueError (s +:+ " is not a valid OrderSide"))
  | _ => Raise (ValueError "not a valid OrderSide")
  end.

Definition OrderType_of (v : pyval) : result OrderType :=
  match v with
  | PStr s => if String.eqb s "MARKET" then Ok MARKET
              else if String.eqb s "LIMIT" then Ok LIMIT
              else Raise (ValueError (s +:+ " is not a valid OrderType"))
  | _ => Raise (ValueError "not a valid OrderType")
  end.

Definition OrderStatus_of (v : pyval) : result OrderStatus :=
  match v with
  | PStr s => if String.eqb s "NEW" then Ok NEW
              else if String.eqb s "PARTIALLY_FILLED" then Ok PARTIALLY_FILLED
              else if String.eqb s "FILLED" then Ok FILLED
              else if String.eqb s "CANCELED" then Ok CANCELED
              else if String.eqb s "REJECTED" then Ok REJECTED
              else if String.eqb s "EXPIRED" then Ok EXPIRED
              else Raise (ValueError (s +:+ " is not a valid OrderStatus"))
  | _ => Raise (ValueError "not a valid OrderStatus")
  end.

(** The model's validation of a [str] field: only a string passes. *)
Definition str_field (name : string) (v : pyval) : result string :=
  match v with
  | PStr s => Ok s
  | _ => Raise (ValidationError name)
  end.

Section TradingService.
Context `{Fernet} `{Builtins}.

(** The [try] block of [_create_order_response]. *)
Definition decode_order (env : Env) (order_data : dict) : result OrderResponse :=
  let order_id := py_str (dict_get order_data "orderId") in
  side ← OrderSide_of (dict_get order_data "side");
  type ← OrderType_of (dict_get order_data "type");
  status ← OrderStatus_of (dict_get order_data "status");
  quantity ← py_float (dict_get order_data "origQty");
  price ← (if truthy (dict_get order_data "price")
           then p ← py_float (dict_get_or order_data "price" (PInt 0)); Ok (Some p)
           else Ok None);
  executed ← py_float (dict_get_or order_data "executedQty" (PInt 0));
  cumulative ← py_float (dict_get_or order_data "cummulativeQuoteQty" (PInt 0));
  created ← (if truthy (dict_get order_data "time")
             then isoformat_of_ms (dict_get_or order_data "time" (PInt 0))
             else Ok (utcnow env));
  updated ← (if truthy (dict_get order_data "updateTime")
             then u ← isoformat_of_ms (dict_get_or order_data "updateTime" (PInt 0)); Ok (Some u)
             else Ok None);
  sym ← str_field "symbol" (dict_get order_data "symbol");
  Ok {| order_id := order_id; or_symbol := sym; or_side := side; or_type := type;
        or_status := status; or_quantity := quantity; or_price := price;
        executed_quantity := executed; cumulative_quote_quantity := cumulative;
        created_at := created; updated_at := updated |}.

(** The [except] block of [_create_order_response]: the basic answer. *)
Definition basic_order (env : Env) (order_data : dict) : result OrderResponse :=
  let order_id := py_str (dict_get_or order_data "orderId" (PStr "unknown")) in
  quantity ← py_float (dict_get_or order_data "origQty" (PInt 0));
  sym ← str_field "symbol" (dict_get_or order_data "symbol" (PStr "unknown"));
  Ok {| order_id := order_id; or_symbol := sym; or_side := BUY; or_type := MARKET;
        or_status := NEW; or_quantity := quantity; or_price := None;
        executed_quantity := 0%float; cumulative_quote_quantity := 0%float;
        created_at := utcnow env; updated_at := None |}.

(** [TradingService._create_order_response]. *)
Definition _create_order_response (env : Env) (order_data : dict) : result OrderResponse :=
  match decode_order env order_data with
  | Ok r => Ok r
  | Raise _ => basic_order env order_data
  end.

(** Truth value of what [get_wallet] returned: [None] and the empty
    dictionary are falsy. *)
Definition wallet_info_truthy (wallet_info : option loc) : M bool :=
  match wallet_info with
  | None => ret false
  | Some l => d ← deref l; ret (negb (bool_decide (dom d = ∅)))
  end.

(** [TradingService._get_binance_client_from_wallet]. *)
Definition _get_binance_client_from_wallet (env : Env) (wallet_id : string) : M Credentials :=
  wallet_info ← get_wallet wallet_id;
  found ← wallet_info_truthy wallet_info;
  if (found : bool) then
    creds ← resolve_credentials wallet_id;
    let '(api_key, api_secret, use_testnet) := creds in
    get_binance_client env api_key api_secret use_testnet
  else raise (NotFoundException ("Carteira com ID " +:+ wallet_id +:+ " não encontrada")).

(** The keyword arguments that [place_buy_order] and [place_sell_order]
    pass to [create_order]. *)
Definition order_args (side sym : string) (quantity : float) (price : option float) : OrderArgs :=
  match price with
  | Some p => {| oa_symbol := sym; oa_side := side; oa_type := "LIMIT";
                 oa_timeInForce := Some "GTC"; oa_quantity := quantity;
                 oa_price := Some p |}
  | None => {| oa_symbol := sym; oa_side := side; oa_type := "MARKET";
               oa_timeInForce := None; oa_quantity := quantity;
               oa_price := None |}
  end.

(** [client.client.create_order] with these arguments: the call reaches the
    exchange. *)
Definition send_order (env : Env) (client : Credentials) (args : OrderArgs) : M dict :=
  modify (fun w => set_submitted (args :: submitted w) w);;
  lift (create_order (exchange env) client args).

(** The common body of the two placement methods. *)
Definition place_order (env : Env) (side failure sym : string) (quantity : float)
    (wallet_id : string) (price : option float) : M OrderResponse :=
  try_except
    (client ← _get_binance_client_from_wallet env wallet_id;
     order_result ← send_order env client (order_args side sym quantity price);
     oid ← dict_item order_result "orderId";
     modify (fun w => set_trading_orders
                        (<[py_str oid := order_result]> (trading_orders w)) w);;
     lift (_create_order_response env order_result))
    (fun e => raise (BinanceAPIException (failure +:+ exc_str e))).

(** [TradingService.place_buy_order]. *)
Definition place_buy_order (env : Env) (sym : string) (quantity : float)
    (wallet_id : string) (price : option float) : M OrderResponse :=
  place_order env "BUY" "Erro ao executar ordem de compra: " sym quantity wallet_id price.

(** [TradingService.place_sell_order]. *)
Definition place_sell_order (env : Env) (sym : string) (quantity : float)
    (wallet_id : string) (price : option float) : M OrderResponse :=
  place_order env "SELL" "Erro ao executar ordem de venda: " sym quantity wallet_id price.

End TradingService.
End Trading.
Export Trading.

(** ** The bot engine ([bot_service.py]) *)

Module Bot.

(** The validators of [BotConfig]. *)
Definition validate_config `{Builtins} (c : BotConfig) : result BotConfig :=
  if (interval_seconds c <? 5)%Z
  then Raise (ValueError "O intervalo deve ser de pelo menos 5 segundos")
  else if PrimFloat.leb (max_amount c) 0
  then Raise (ValueError "O valor máximo deve ser maior que zero")
  else Ok {| symbol := Text.upper (symbol c); interval_seconds := interval_seconds c;
             max_amount := max_amount c; wallet_id := wallet_id c;
             strategy := strategy c; buy_threshold := buy_threshold c;
             sell_threshold := sell_threshold c |}.

(** Assignments to one attribute of the service. *)
Definition set_bot_thread (v : option Thread) (b : BotService) : BotService :=
  {| bot_thread := v; stop_event := stop_event b; status := status b;
     config := config b; start_time := start_time b; last_price := last_price b;
     last_operation := last_operation b; error_message := error_message b;
     state_wallet_id := state_wallet_id b; state_symbol := state_symbol b;
     price_history := price_history b |}.

Definition set_stop_event (v : bool) (b : BotService) : BotService :=
  {| bot_thread := bot_thread b; stop_event := v; status := status b;
     config := config b; start_time := start_time b; last_price := last_price b;
     last_operation := last_operation b; error_message := error_message b;
     state_wallet_id := state_wallet_id b; state_symbol := state_symbol b;
     price_history := price_history b |}.

Definition set_status (v : BotStatus) (b : BotService) : BotService :=
  {| bot_thread := bot_thread b; stop_event := stop_event b; status := v;
     config := config b; start_time := start_time b; last_price := last_price b;
     last_operation := last_operation b; error_message := error_message b;
     state_wallet_id := state_wallet_id b; state_symbol := state_symbol b;
     price_history := price_history b |}.

Definition set_config (v : option BotConfig) (b : BotService) : BotService :=
  {| bot_thread := bot_thread b; stop_event := stop_event b; status := status b;
     config := v; start_time := start_time b; last_price := last_price b;
     last_operation := last_operation b; error_message := error_message b;
     state_wallet_id := state_wallet_id b; state_symbol := state_symbol b;
     price_history := price_history b |}.

Definition set_start_time (v : option string) (b : BotService) : BotService :=
  {| bot_thread := bot_thread b; stop_event := stop_event b; status := status b;
     config := config b; start_time := v; last_price := last_price b;
     last_operation := last_operation b; error_message := error_message b;
     state_wallet_id := state_wallet_id b; state_symbol := state_symbol b;
     price_history := price_history b |}.

Definition set_last_price (v : option float) (b : BotService) : BotService :=
  {| bot_thread := bot_thread b; stop_event := stop_event b; status := status b;
     config := config b; start_time := start_time b; last_price := v;
     last_operation := last_operation b; error_message := error_message b;
     state_wallet_id := state_wallet_id b; state_symbol := state_symbol b;
     price_history := price_history b |}.

Definition set_last_operation (v : option Operation) (b : BotService) : BotService :=
  {| bot_thread := bot_thread b; stop_event := stop_event b; status := status b;
     config := config b; start_time := start_time b; last_price := last_price b;
     last_operation := v; error_message := error_message b;
     state_wallet_id := state_wallet_id b; state_symbol := state_symbol b;
     price_history := price_history b |}.

Definition set_error_message (v : option string) (b : BotService) : BotService :=
  {| bot_thread := bot_thread b; stop_event := stop_event b; status := status b;
     config := config b; start_time := start_time b; last_price := last_price b;
     last_operation := last_operation b; error_message := v;
     state_wallet_id := state_wallet_id b; state_symbol := state_symbol b;
     price_history := price_history b |}.

Definition set_state_wallet_id (v : option string) (b : BotService) : BotService :=
  {| bot_thread := bot_thread b; stop_event := stop_event b; status := status b;
     config := config b; start_time := start_time b; last_price := last_price b;
     last_operation := last_operation b; error_message := error_message b;
     state_wallet_id := v; state_symbol := state_symbol b;
     price_history := price_history b |}.

Definition set_state_symbol (v : option string) (b : BotService) : BotService :=
  {| bot_thread := bot_thread b; stop_event := stop_event b; status := status b;
     config := config b; start_time := start_time b; last_price := last_price b;
     last_operation := last_operation b; error_message := error_message b;
     state_wallet_id := state_wallet_id b; state_symbol := v;
     price_history := price_history b |}.

Definition set_price_history (v : list PriceSample) (b : BotService) : BotService :=
  {| bot_thread := bot_thread b; stop_event := stop_event b; status := status b;
     config := config b; start_time := start_time b; last_price := last_price b;
     last_operation := last_operation b; error_message := error_message b;
     state_wallet_id := state_wallet_id b; state_symbol := state_symbol b;
     price_history := v |}.

(** [t and t.is_alive()] for [t = self._bot_thread]. *)
Definition thread_is_alive (t : option Thread) : bool :=
  match t with
  | Some th => alive th
  | None => false
  end.

(** The appending of one sample in [_execute_strategy]: [append], then
    [pop(0)] when more than 100 samples are held. *)
Definition push_history (x : PriceSample) (h : list PriceSample) : list PriceSample :=
  let h' := (h ++ [x])%list in
  if (100 <? length h')%nat then tail h' else h'.

(** [not last_price] for the [Optional[float]] in [_state["last_price"]]. *)
Definition no_last_price (p : option float) : bool :=
  match p with
  | None => true
  | Some x => negb (float_truthy x)
  end.

(** The signal that a [last_operation] text announces. *)
Inductive Signal : Type := SigNONE | SigBUY | SigSELL.

Definition signal_of (op : option Operation) : Signal :=
  match op with
  | Some (OpBuySignal _ _ _) => SigBUY
  | Some (OpSellSignal _ _ _) => SigSELL
  | _ => SigNONE
  end.

(** What [get_status] returns, without the time of the query. *)
Record StatusView : Type := {
  sv_status : BotStatus;
  sv_symbol : option string;
  sv_wallet_id : option string;
  sv_start_time : option string;
  sv_last_operation : option Operation;
  sv_error_message : option string;
  sv_config : option BotConfig
}.

Section BotService.
Context `{Fernet} `{Builtins}.

Definition get_bot : M BotService := w ← get; ret (bot_service w).

Definition update_bot (f : BotService -> BotService) : M unit :=
  modify (fun w => set_bot (f (bot_service w)) w).

(** The [try] block of [start]: the credentials and the price probe. *)
Definition start_probe (env : Env) (cfg : BotConfig) : M float :=
  creds ← resolve_credentials (wallet_id cfg);
  let '(api_key, api_secret, use_testnet) := creds in
  client ← get_binance_client env api_key api_secret use_testnet;
  get_price env client (symbol cfg).

(** The assignments of [start] after the probe: the configuration, the
    state, the event, the thread, the status. *)
Definition start_commit (env : Env) (cfg : BotConfig) (probe : float) : M bool :=
  update_bot (set_config (Some cfg));;
  update_bot (set_start_time (Some (utcnow env)));;
  update_bot (set_last_price (Some probe));;
  update_bot (set_state_wallet_id (Some (wallet_id cfg)));;
  update_bot (set_state_symbol (Some (symbol cfg)));;
  update_bot (set_price_history []);;
  update_bot (set_error_message None);;
  update_bot (set_last_operation (Some (OpStarted (symbol cfg))));;
  update_bot (set_stop_event false);;
  update_bot (set_bot_thread (Some {| alive := true |}));;
  update_bot (set_status RUNNING);;
  ret true.

(** [BotService.start]. *)
Definition start (env : Env) (cfg : BotConfig) : M bool :=
  b ← get_bot;
  if thread_is_alive (bot_thread b)
  then raise (ValueError "O bot já está em execução")
  else
    wallet_info ← get_wallet (wallet_id cfg);
    found ← wallet_info_truthy wallet_info;
    if negb found
    then raise (ValueError ("Carteira com ID " +:+ wallet_id cfg +:+ " não encontrada"))
    else
      probe ← try_except (start_probe env cfg)
                (fun e => raise (ValueError
                                   ("Símbolo inválido ou erro de conexão: " +:+ exc_str e)));
      start_commit env cfg probe.

(** [BotService.get_status]. *)
Definition get_status : M StatusView :=
  b ← get_bot;
  ret {| sv_status := status b; sv_symbol := state_symbol b;
         sv_wallet_id := state_wallet_id b; sv_start_time := start_time b;
         sv_last_operation := last_operation b;
         sv_error_message := error_message b; sv_config := config b |}.

(** [BotService._execute_simple_strategy]. *)
Definition _execute_simple_strategy (last current : float) : M unit :=
  b ← get_bot;
  match config b with
  | None => raise (AttributeError "'NoneType' object has no attribute 'buy_threshold'")
  | Some cfg =>
      let buy := float_or (buy_threshold cfg) 0.5 in
      let sell := float_or (sell_threshold cfg) 1.0 in
      q ← lift (float_div (current - last) last);
      let price_change_percent := (q * 100)%float in
      update_bot (set_last_operation (Some (OpAnalysis current price_change_percent)));;
      if PrimFloat.leb price_change_percent (- buy) then
        update_bot (set_last_operation
                      (Some (OpBuySignal (abs price_change_percent) last current)))
      else if PrimFloat.leb sell price_change_percent then
        update_bot (set_last_operation
                      (Some (OpSellSignal price_change_percent last current)))
      else ret tt
  end.

(** [BotService._execute_grid_strategy]. *)
Definition _execute_grid_strategy (last current : float) : M unit :=
  q ← lift (float_div (current - last) last);
  update_bot (set_last_operation (Some (OpGrid current (q * 100)%float))).

(** The [try] block of [_execute_strategy] once the price is known: the
    history, the last price, and the choice between the first-observation
    note and the strategies.  The test is [not last_price]; the strategies
    receive the float that passed it. *)
Definition record_price (env : Env) (cfg : BotConfig) (current_price : float) : M unit :=
  update_bot (fun b => set_price_history
                         (push_history {| price := current_price; timestamp := utcnow env |}
                            (price_history b)) b);;
  b ← get_bot;
  let last := last_price b in
  update_bot (set_last_price (Some current_price));;
  match last with
  | Some last_value =>
      if no_last_price last then
        update_bot (set_last_operation (Some (OpMonitoring current_price)))
      else
        match strategy cfg with
        | SIMPLE => _execute_simple_strategy last_value current_price
        | GRID => _execute_grid_strategy last_value current_price
        end
  | None => update_bot (set_last_operation (Some (OpMonitoring current_price)))
  end.

(** The [try] block of [_execute_strategy]. *)
Definition strategy_body (env : Env) (cfg : BotConfig) : M unit :=
  creds ← resolve_credentials (wallet_id cfg);
  let '(api_key, api_secret, use_testnet) := creds in
  client ← get_binance_client env api_key api_secret use_testnet;
  current_price ← get_price env client (symbol cfg);
  record_price env cfg current_price.

(** [BotService._execute_strategy]. *)
Definition _execute_strategy (env : Env) : M unit :=
  b ← get_bot;
  match config b with
  | None => ret tt
  | Some cfg =>
      try_except (strategy_body env cfg)
        (fun e => update_bot (set_last_operation (Some (OpStrategyError (exc_str e)))))
  end.

(** The [try] block of the [while] loop of [_run_bot_loop] with its two
    handlers: the configuration test, the iteration and the wait; [false] when
    the loop is left. *)
Definition turn_body (env : Env) : M bool :=
  try_except
    (b ← get_bot;
     match config b with
     | None =>
         update_bot (set_error_message (Some "Configuração do bot não definida"));;
         update_bot (set_status ERROR);;
         ret false
     | Some _ =>
         _execute_strategy env;;
         b ← get_bot;
         match config b with
         | None => raise (AttributeError
                            "'NoneType' object has no attribute 'interval_seconds'")
         | Some cfg => lift (event_wait (interval_seconds cfg))
         end;;
         ret true
     end)
    (fun e =>
       match e with
       | BinanceAPIException _ =>
           update_bot (set_error_message
                         (Some ("Erro na API da Binance: " +:+ exc_str e)));;
           update_bot (set_status ERROR);;
           ret false
       | _ =>
           update_bot (set_error_message
                         (Some ("Erro durante a execução do bot: " +:+ exc_str e)));;
           update_bot (set_status ERROR);;
           ret false
       end).

(** One turn of the [while] loop of [_run_bot_loop], from its test to the
    end of the wait; [false] when the loop is left. *)
Definition loop_turn (env : Env) : M bool :=
  b ← get_bot;
  if stop_event b then ret false else turn_body env.

(** The [while] loop over the turns the thread gets; [true] when it was
    left, [false] when the thread is still in its wait after the last one. *)
Fixpoint loop_turns (envs : list Env) : M bool :=
  match envs with
  | [] => ret false
  | env :: rest =>
      go_on ← loop_turn env;
      if (go_on : bool) then loop_turns rest else ret true
  end.

(** The loop taken up inside a turn while the stop event is set: the turn
    ends in the first environment, its wait returns at once, and the loop is
    left, by the test or by a handler; without an environment the turn is
    still in flight. *)
Definition late_turn (envs : list Env) : M bool :=
  match envs with
  | [] => ret false
  | env :: _ => turn_body env;; ret true
  end.

(** The target of the thread around its loop: the outer handler, and
    [finally], after which the thread is dead. *)
Definition thread_target (loop : M bool) : M bool :=
  left ← try_except loop
           (fun e =>
              update_bot (set_error_message
                            (Some ("Erro fatal no loop do bot: " +:+ exc_str e)));;
              update_bot (set_status ERROR);;
              ret true);
  if (left : bool) then
    update_bot (fun b => match status b with
                         | STOPPED => b
                         | _ => set_status ERROR b
                         end);;
    update_bot (set_bot_thread (Some {| alive := false |}));;
    ret true
  else ret false.

(** [BotService._run_bot_loop], from the first test of the loop. *)
Definition _run_bot_loop (envs : list Env) : M bool :=
  thread_target (loop_turns envs).

(** The thread runs only while it is alive.  A live thread that finds the
    stop event set is one on which the [join] of [stop] timed out: a waiting
    thread leaves at once when the event is set, so it was inside a turn, and
    that turn ends, with its writes, before the loop is tested again. *)
Definition thread_runs (envs : list Env) : M bool :=
  b ← get_bot;
  if thread_is_alive (bot_thread b) then
    if stop_event b then thread_target (late_turn envs)
    else _run_bot_loop envs
  else ret true.

(** [BotService.stop]; [joined] tells whether the thread, woken by the
    event, ended within the 30 seconds of [join]. *)
Definition stop (env : Env) (joined : bool) : M bool :=
  b ← get_bot;
  if negb (thread_is_alive (bot_thread b)) then ret false
  else
    update_bot (set_stop_event true);;
    (if joined then _run_bot_loop [env] else ret false);;
    update_bot (set_status STOPPED);;
    update_bot (set_last_operation (Some OpStopped));;
    ret true.

(** What can happen to the process. *)
Inductive Event : Type :=
| CallConnect (env : Env) (api_key api_secret : string)
    (wallet_name : option string) (use_testnet : bool)
| CallGetWallet (wallet_id : string)
| CallBalance (env : Env) (wallet_id : string)
| CallBuy (env : Env) (sym : string) (quantity : float) (wallet_id : string)
    (price : option float)
| CallSell (env : Env) (sym : string) (quantity : float) (wallet_id : string)
    (price : option float)
| CallStart (env : Env) (cfg : BotConfig)
| CallStop (env : Env) (joined : bool)
| CallStatus
| ThreadRuns (envs : list Env).

Definition run_event (e : Event) (w : World) : World :=
  match e with
  | CallConnect env k s n t => snd (connect_wallet env k s n t w)
  | CallGetWallet i => snd (get_wallet i w)
  | CallBalance env i => snd (get_wallet_balance env i w)
  | CallBuy env sym q i p => snd (place_buy_order env sym q i p w)
  | CallSell env sym q i p => snd (place_sell_order env sym q i p w)
  | CallStart env cfg => snd (start env cfg w)
  | CallStop env j => snd (stop env j w)
  | CallStatus => snd (get_status w)
  | ThreadRuns envs => snd (thread_runs envs w)
  end.

Definition run_events (es : list Event) (w : World) : World :=
  fold_left (fun w e => run_event e w) es w.

(** The states the process can be in. *)
Definition reachable (w : World) : Prop :=
  exists key es, w = run_events es (world_init key).

End BotService.
End Bot.
Export Bot.

(** ** Concrete parameters for the examples *)

Module Sample.

(** A stand-in for Fernet: a token names the key it was made with, and only
    that key opens it. *)
Definition toy_encrypt (key data : string) : string := key +:+ ":" +:+ data.

Fixpoint strip_prefix (p s : string) : option string :=
  match p, s with
  | EmptyString, _ => Some s
  | String a p', String b s' => if Ascii.eqb a b then strip_prefix p' s' else None
  | String _ _, EmptyString => None
  end.

Definition toy_decrypt (key token : string) : option string :=
  strip_prefix (key +:+ ":") token.

#[global] Instance toy_fernet : Fernet :=
  {| fernet_encrypt := toy_encrypt; fernet_decrypt := toy_decrypt |}.

Fixpoint float_of_pos (p : positive) : float :=
  match p with
  | xH => 1%float
  | xO q => (2 * float_of_pos q)%float
  | xI q => (2 * float_of_pos q + 1)%float
  end.

(** Exact below 2^53. *)
Definition float_of_Z (z : Z) : float :=
  match z with
  | Z0 => 0%float
  | Zpos p => float_of_pos p
  | Zneg p => (- float_of_pos p)%float
  end.

Definition digit_of (c : ascii) : option Z :=
  let n := nat_of_ascii c in
  if (48 <=? n)%nat && (n <=? 57)%nat then Some (Z.of_nat (n - 48)) else None.

Fixpoint digits_value (s : string) (acc : Z) : option Z :=
  match s with
  | EmptyString => Some acc
  | String c r => match digit_of c with
                  | Some d => digits_value r (10 * acc + d)%Z
                  | None => None
                  end
  end.

Fixpoint split_dot (s : string) : string * string :=
  match s with
  | EmptyString => (EmptyString, EmptyString)
  | String c r =>
      if Ascii.eqb c "."%char then (EmptyString, r)
      else let '(a, b) := split_dot r in (String c a, b)
  end.

(** [float(s)] on the plain decimal literals of the exchange, such as
    ["100.30000000"]: the quotient of two exactly represented integers is
    the correctly rounded value, as long as the digits stay below 2^53 and
    there are at most 22 decimals.  Other texts are refused. *)
Definition decimal_float (s : string) : option float :=
  let '(neg, body) := match s with
                      | String "-"%char r => (true, r)
                      | _ => (false, s)
                      end in
  let '(ip, fp) := split_dot body in
  if String.eqb (ip +:+ fp) "" then None
  else
    match digits_value (ip +:+ fp) 0 with
    | Some n =>
        if (n <? 2 ^ 53)%Z && (String.length fp <=? 22)%nat then
          let q := (float_of_Z n / float_of_Z (10 ^ Z.of_nat (String.length fp)))%float in
          Some (if neg then (- q)%float else q)
        else None
    | None => None
    end.

#[global] Instance sample_builtins : Builtins :=
  {| float_of_str := decimal_float;
     float_of_int := float_of_Z;
     str_of_float := fun _ => "<float>";
     isoformat_of_ms := fun v => match v with
                                 | PInt z => Ok ("epoch-ms:" +:+ pretty z)
                                 | _ => Raise (TypeError "unsupported operand type(s) for /")
                                 end;
     str_of_http_exception := fun code detail => pretty code +:+ ": " +:+ detail;
     event_wait := fun timeout =>
       if (9223372036 <? timeout)%Z
       then Raise (OverflowError "timeout value is too large")
       else Ok tt;
     upper_beyond_ascii := fun s => s |}.

Definition sample_settings : Settings :=
  {| BINANCE_API_KEY := ""; BINANCE_API_SECRET := ""; BINANCE_TESTNET := true |}.

(** An exchange that accepts every client, quotes [quote] for every symbol
    and answers every order with [answer]. *)
Definition exchange_with (quote : result dict) (answer : OrderArgs -> result dict) : Exchange :=
  {| client_init := fun _ => Ok tt;
     ping := fun _ => Ok tt;
     get_symbol_ticker := fun _ _ => quote;
     create_order := fun _ args => answer args;
     get_account_balances := fun _ => Ok [] |}.

Definition ticker (sym price : string) : dict :=
  <["symbol" := PStr sym]> (<["price" := PStr price]> ∅).

Definition no_orders : OrderArgs -> result dict :=
  fun _ => Raise (BinanceLibException "APIError(code=-2010): insufficient balance").

(** The exchange quotes [price] at time [now]. *)
Definition env_quote (now price : string) : Env :=
  {| settings := sample_settings;
     exchange := exchange_with (Ok (ticker "BTCUSDT" price)) no_orders;
     utcnow := now |}.

(** The price request fails at time [now]. *)
Definition env_down (now : string) : Env :=
  {| settings := sample_settings;
     exchange := exchange_with
                   (Raise (BinanceLibException "APIError(code=-1003): Too many requests"))
                   no_orders;
     utcnow := now |}.

Definition sample_key : string := "vmxq7AbCdEfGhIjKlMnOpQrStUvWxYz0123456789abcd".
Definition sample_secret : string := "s3cr3tS3cr3tS3cr3tS3cr3t".

(** The id of [sample_key]: the Base64 form of ["6789abcd"]. *)
Definition sample_id : string := derive_wallet_id sample_key.

Definition sample_config : BotConfig :=
  {| symbol := "BTCUSDT"; interval_seconds := 60; max_amount := 100%float;
     wallet_id := sample_id; strategy := SIMPLE;
     buy_threshold := None; sell_threshold := None |}.

(** The process after [sample_key] was connected. *)
Definition world_connected : World :=
  run_events [CallConnect (env_quote "2024-01-01T00:00:00" "100.00") sample_key
                sample_secret None true]
    (world_init "k1").

(** ... and after the bot was started on it. *)
Definition world_started : World :=
  run_events [CallStart (env_quote "2024-01-01T00:01:00" "100.00") sample_config]
    world_connected.



(** The world after the [get_wallet] with which [start] and the order
    methods begin. *)
Definition world_looked_up : World := snd (get_wallet sample_id world_connected).

Definition sample_client : Credentials :=
  {| cred_api_key := sample_key; cred_api_secret := sample_secret; cred_testnet := true |}.

(** A configuration whose buy threshold is set, to zero. *)
Definition zero_threshold_config : BotConfig :=
  {| symbol := "BTCUSDT"; interval_seconds := 60; max_amount := 100%float;
     wallet_id := sample_id; strategy := SIMPLE;
     buy_threshold := Some 0%float; sell_threshold := None |}.

Definition world_zero_threshold : World :=
  run_events [CallStart (env_quote "2024-01-01T00:01:00" "100.00") zero_threshold_config]
    world_connected.

(** The exchange's full answer to an order, with the given status; as the
    exchange does, it echoes the side and the type, and quotes the price of a
    market order as zero. *)
Definition order_answer (order_status : string) (args : OrderArgs) : result dict :=
  Ok (<["symbol" := PStr (oa_symbol args)]>
     (<["orderId" := PInt 28]>
     (<["transactTime" := PInt 1507725176595]>
     (<["price" := PStr (match oa_price args with
                         | Some _ => "50000.00000000"
                         | None => "0.00000000"
                         end)]>
     (<["origQty" := PStr "0.50000000"]>
     (<["executedQty" := PStr "0.00000000"]>
     (<["cummulativeQuoteQty" := PStr "0.00000000"]>
     (<["status" := PStr order_status]>
     (<["type" := PStr (oa_type args)]>
     (<["side" := PStr (oa_side args)]> ∅)))))))))).

Definition env_orders (now order_status : string) : Env :=
  {| settings := sample_settings;
     exchange := exchange_with (Ok (ticker "BTCUSDT" "50000.00"))
                   (order_answer order_status);
     utcnow := now |}.

(** Another key that ends like [sample_key]. *)
Definition other_key : string := "ZZZZZZZZZZZZZZZZZZZZZZZZZZZZZZZZZZZZZ6789abcd".

End Sample.

(** ** What the specification says, in the terms of the model *)

Module Spec.

(** A computation keeps a property of the world, whether it returns or
    raises. *)
Definition preserves {A} (P : World -> Prop) (m : M A) : Prop :=
  forall w, P w -> P (snd (m w)).

(** The SIMPLE rule in the specification's words: the change in percent,
    thresholds that default when they are unset, BUY at a drop of at least
    the buy threshold, SELL at a rise of at least the sell threshold. *)
Definition spec_change_pct (last current : float) : float :=
  ((current - last) / last * 100)%float.

Definition spec_threshold (configured : option float) (by_default : float) : float :=
  match configured with
  | Some t => t
  | None => by_default
  end.

Definition spec_simple_signal (cfg : BotConfig) (last current : float) : Signal :=
  let change := spec_change_pct last current in
  if PrimFloat.leb change (- spec_threshold (buy_threshold cfg) 0.5) then SigBUY
  else if PrimFloat.leb (spec_threshold (sell_threshold cfg) 1.0) change then SigSELL
  else SigNONE.

(** A threshold on which the code and the specification's default agree:
    unset, or set to a value that is not zero. *)
Definition plain_threshold (t : option float) : bool :=
  match t with
  | Some v => float_truthy v
  | None => true
  end.


(** The record that [connect_wallet] stores has its five items. *)
Definition wallet_record (d : dict) : Prop :=
  exists k s name t at_,
    d = <["api_key" := PStr k]> (<["api_secret" := PStr s]> (<["name" := PStr name]>
        (<["use_testnet" := PBool t]> (<["connected_at" := PStr at_]> ∅)))).

(** Every stored wallet refers to such a record. *)
Definition vault_ok (w : World) : Prop :=
  forall id l, wallets (wallet_service w) !! id = Some l ->
               exists d, heap w !! l = Some d /\ wallet_record d.


(** The vault of [w'] is that of [w]: same key, same ids, and the records
    they refer to are the same objects with the same items. *)
Definition same_vault (w w' : World) : Prop :=
  wallet_service w' = wallet_service w /\
  forall id l, wallets (wallet_service w) !! id = Some l -> heap w' !! l = heap w !! l.

(** The record that [connect_wallet] builds under the key [key]. *)
Definition new_record `{Fernet} (key : string) (env : Env) (api_key api_secret : string)
    (wallet_name : option string) (use_testnet : bool) : dict :=
  <["api_key" := PStr (fernet_encrypt key api_key)]>
  (<["api_secret" := PStr (fernet_encrypt key api_secret)]>
  (<["name" := PStr (str_or wallet_name
                       ("Wallet-" +:+ Text.prefix 6 (derive_wallet_id api_key)))]>
  (<["use_testnet" := PBool use_testnet]>
  (<["connected_at" := PStr (utcnow env)]> ∅)))).

(** The world after [connect_wallet] stored a wallet. *)
Definition stored_world `{Fernet} (env : Env) (api_key api_secret : string)
    (wallet_name : option string) (use_testnet : bool) (w : World) : World :=
  let l := fresh (dom (heap w)) in
  set_wallets (<[derive_wallet_id api_key := l]> (wallets (wallet_service w)))
    (set_heap (<[l := new_record (encryption_key (wallet_service w)) env api_key
                        api_secret wallet_name use_testnet]> (heap w)) w).

(** What [resolve_credentials] returns, as a function of the vault: the
    world is only read. *)
Definition item_of (d : dict) (k : string) : result pyval :=
  match d !! k with
  | Some v => Ok v
  | None => Raise (KeyError k)
  end.

Definition decrypted `{Fernet} (key : string) (v : pyval) : result string :=
  match v with
  | PStr s => match fernet_decrypt key s with
              | Some plain => Ok plain
              | None => Raise InvalidToken
              end
  | _ => Raise (AttributeError "object has no attribute 'encode'")
  end.

Definition resolved `{Fernet} (ws : WalletService) (h : gmap loc dict) (id : string)
    : result (string * string * pyval) :=
  match wallets ws !! id with
  | None => Raise (KeyError id)
  | Some l =>
      match h !! l with
      | None => Raise (OtherException "dangling reference")
      | Some d =>
          vk ← item_of d "api_key";
          k ← decrypted (encryption_key ws) vk;
          vs ← item_of d "api_secret";
          s ← decrypted (encryption_key ws) vs;
          t ← item_of d "use_testnet";
          Ok (k, s, t)
      end
  end.

(** The bot right after a successful [start] whose probe returned [probe]. *)
Definition started_bot (env : Env) (cfg : BotConfig) (probe : float) : BotService :=
  {| bot_thread := Some {| alive := true |}; stop_event := false;
     status := RUNNING; config := Some cfg;
     start_time := Some (utcnow env); last_price := Some probe;
     last_operation := Some (OpStarted (symbol cfg)); error_message := None;
     state_wallet_id := Some (wallet_id cfg);
     state_symbol := Some (symbol cfg); price_history := [] |}.

(** The bound of the price history. *)
Definition history_bounded (b : BotService) : Prop :=
  (length (price_history b) <= 100)%nat.

Definition is_start (e : Event) : bool :=
  match e with
  | CallStart _ _ => true
  | _ => false
  end.

(** [n] calls of [get_wallet], for the ids of the list. *)
Fixpoint get_wallets `{Fernet} `{Builtins} (ids : list string) : M unit :=
  match ids with
  | [] => ret tt
  | i :: rest => get_wallet i;; get_wallets rest
  end.

End Spec.
Export Spec.

(** ** Invariants of the bot *)

Module BotFacts.

(** The bot after the price [current] was recorded at time [now]. *)
Definition recorded (now : string) (current : float) (b : BotService) : BotService :=
  set_last_price (Some current)
    (set_price_history
       (push_history {| price := current; timestamp := now |} (price_history b)) b).

(** The message that the handlers of the loop leave for an exception out
    of a turn. *)
Definition loop_error `{Builtins} (e : Exc) : string :=
  match e with
  | BinanceAPIException _ => "Erro na API da Binance: " +:+ exc_str e
  | _ => "Erro durante a execução do bot: " +:+ exc_str e
  end.

(** The bot after the loop was left on the exception [e]. *)
Definition wait_failed `{Builtins} (b : BotService) : Prop :=
  exists cfg e,
    config b = Some cfg /\
    event_wait (interval_seconds cfg) = Raise e /\
    error_message b = Some (loop_error e) /\
    status b = ERROR /\ thread_is_alive (bot_thread b) = false.

(** The state of the bot agrees with its configuration and its history. *)
Definition bot_shape (b : BotService) : Prop :=
  match config b with
  | None => b = bot_init
  | Some cfg =>
      bot_thread b <> None /\
      state_symbol b = Some (symbol cfg) /\
      state_wallet_id b = Some (wallet_id cfg) /\
      start_time b <> None /\ last_price b <> None
  end /\
  match last (price_history b) with
  | Some s => last_price b = Some (price s)
  | None => True
  end.

(** What holds of the bot between two events. *)
Definition bot_ok `{Builtins} (b : BotService) : Prop :=
  (error_message b = None \/ wait_failed b) /\ bot_shape b.

(** A bot with the configuration [cfg] inside its loop: no error so far. *)
Definition live (cfg : BotConfig) (w : World) : Prop :=
  bot_shape (bot_service w) /\ config (bot_service w) = Some cfg /\
  error_message (bot_service w) = None.

(** ... and after a turn whose wait raised. *)
Definition failed `{Builtins} (cfg : BotConfig) (w : World) : Prop :=
  bot_shape (bot_service w) /\ config (bot_service w) = Some cfg /\
  exists e, event_wait (interval_seconds cfg) = Raise e /\
            error_message (bot_service w) = Some (loop_error e) /\
            status (bot_service w) = ERROR.

(** The bot after [stop] found the thread alive: the event is set, the
    thread is dead if it was joined in time, the status and the note are
    those of a stop. *)
Definition stopped_bot (joined : bool) (b : BotService) : BotService :=
  set_last_operation (Some OpStopped)
    (set_status STOPPED
       (if joined then set_bot_thread (Some {| alive := false |}) (set_stop_event true b)
        else set_stop_event true b)).

End BotFacts.
Export BotFacts.

(** ** The rest of the vault ([wallet_service.py]) *)

Module WalletListing.

(** The dictionary that [list_wallets] builds for one stored wallet. *)
Definition wallet_entry (wallet_id : string) (l : loc) : M dict :=
  name ← ref_item l "name";
  use_testnet ← ref_item l "use_testnet";
  connected_at ← ref_item l "connected_at";
  ret (<["id" := PStr wallet_id]>
      (<["name" := name]>
      (<["use_testnet" := use_testnet]>
      (<["connected_at" := connected_at]> (∅ : dict))))).

(** [WalletService.list_wallets]: the loop over [self._wallets.items()],
    given in the order in which the dictionary yields them. *)
Fixpoint list_wallets (items : list (string * loc)) : M (list dict) :=
  match items with
  | [] => ret []
  | (wallet_id, wallet_info) :: rest =>
      wallet_data ← wallet_entry wallet_id wallet_info;
      result ← list_wallets rest;
      ret (wallet_data :: result)
  end.

(** An entry of the listing for the stored record [d] under [wallet_id]. *)
Definition lists (wallet_id : string) (d : dict) (entry : dict) : Prop :=
  entry !! "id" = Some (PStr wallet_id) /\
  entry !! "name" = d !! "name" /\
  entry !! "use_testnet" = d !! "use_testnet" /\
  entry !! "connected_at" = d !! "connected_at" /\
  entry !! "api_key" = None /\ entry !! "api_secret" = None.

(** A balance that [get_wallet_balance] keeps. *)
Definition has_funds (b : AssetBalance) : bool :=
  PrimFloat.ltb 0 (free b) || PrimFloat.ltb 0 (locked b).

End WalletListing.
Export WalletListing.

(** ** Order queries ([trading_service.py]) *)

Module Queries.

(** What the exchange answers to the three order queries at the time of a
    call. *)
Record OrderBook : Type := {
  client_get_order : Credentials -> string -> Z -> result dict;      (* get_order(symbol=, orderId=) *)
  client_cancel_order : Credentials -> string -> Z -> result dict;   (* cancel_order(symbol=, orderId=) *)
  client_get_all_orders : Credentials -> string -> result (list dict) (* get_all_orders(symbol=) *)
}.

(** Library functions of the queries: [int(s)] on a string, and [sorted]
    with [reverse=True] on keys that are not all integers. *)
Class QueryBuiltins : Type := {
  int_of_str : string -> result Z;
  sorted_mixed : list dict -> result (list dict)
}.

(** The sort key [lambda x: x.get('time', 0)]. *)
Definition time_key (x : dict) : pyval := dict_get_or x "time" (PInt 0).

Definition int_time (x : dict) : option Z :=
  match time_key x with
  | PInt z => Some z
  | _ => None
  end.

(** [x] goes before the first entry whose time is not greater than its own:
    entries with equal times keep their order. *)
Fixpoint insert_by_time (x : dict) (k : Z) (l : list dict) : list dict :=
  match l with
  | [] => [x]
  | y :: r =>
      match int_time y with
      | Some k' => if (k <? k')%Z then y :: insert_by_time x k r else x :: l
      | None => x :: l
      end
  end.

(** [sorted(orders, key=lambda x: x.get('time', 0), reverse=True)] on
    integer times: the stable sort, newest first. *)
Fixpoint sort_by_time (orders : list dict) : list dict :=
  match orders with
  | [] => []
  | x :: rest =>
      match int_time x with
      | Some k => insert_by_time x k (sort_by_time rest)
      | None => x :: sort_by_time rest
      end
  end.

Definition sorted_by_time `{QueryBuiltins} (orders : list dict) : result (list dict) :=
  if forallb (fun x => bool_decide (is_Some (int_time x))) orders
  then Ok (sort_by_time orders)
  else sorted_mixed orders.

(** [x] is not older than [y]. *)
Definition not_older (x y : dict) : Prop :=
  exists k k', int_time x = Some k /\ int_time y = Some k' /\ (k' <= k)%Z.

(** Times in descending order. *)
Fixpoint newest_first (orders : list dict) : Prop :=
  match orders with
  | [] => True
  | x :: rest => Forall (not_older x) rest /\ newest_first rest
  end.

(** An answer that the decoder can turn into a record and the ledger can
    file: an [orderId], a string symbol, a quantity that converts. *)
Definition filed `{Builtins} (d : dict) : Prop :=
  (exists oid, d !! "orderId" = Some oid) /\
  (exists s, d !! "symbol" = Some (PStr s)) /\
  (exists v q, d !! "origQty" = Some v /\ py_float v = Ok q).

Section TradingQueries.
Context `{Fernet} `{Builtins} `{QueryBuiltins}.

(** The common body of [get_order] and [cancel_order]. *)
Definition order_call (env : Env) (call : Credentials -> string -> Z -> result dict)
    (failure order_id wallet_id sym : string) : M OrderResponse :=
  try_except
    (client ← _get_binance_client_from_wallet env wallet_id;
     n ← lift (int_of_str order_id);
     order_info ← lift (call client sym n);
     modify (fun w => set_trading_orders
                        (<[order_id := order_info]> (trading_orders w)) w);;
     lift (_create_order_response env order_info))
    (fun e => raise (BinanceAPIException (failure +:+ exc_str e))).

(** [TradingService.get_order]. *)
Definition get_order (env : Env) (book : OrderBook) (order_id wallet_id sym : string)
    : M OrderResponse :=
  order_call env (client_get_order book) "Erro ao obter informações da ordem: "
    order_id wallet_id sym.

(** [TradingService.cancel_order]. *)
Definition cancel_order (env : Env) (book : OrderBook) (order_id wallet_id sym : string)
    : M OrderResponse :=
  order_call env (client_cancel_order book) "Erro ao cancelar ordem: "
    order_id wallet_id sym.

(** The loop of [get_orders] over the common symbols: a symbol whose query
    fails is skipped. *)
Fixpoint gather_orders (book : OrderBook) (client : Credentials) (symbols : list string)
    : list dict :=
  match symbols with
  | [] => []
  | s :: rest =>
      match client_get_all_orders book client s with
      | Ok symbol_orders => (symbol_orders ++ gather_orders book client rest)%list
      | Raise _ => gather_orders book client rest
      end
  end.

(** The loop of [get_orders] that updates the ledger. *)
Fixpoint store_orders (orders : list dict) : M unit :=
  match orders with
  | [] => ret tt
  | order :: rest =>
      oid ← dict_item order "orderId";
      modify (fun w => set_trading_orders
                         (<[py_str oid := order]> (trading_orders w)) w);;
      store_orders rest
  end.

(** The list comprehension of [get_orders]. *)
Fixpoint order_responses (env : Env) (orders : list dict) : result (list OrderResponse) :=
  match orders with
  | [] => Ok []
  | order :: rest =>
      r ← _create_order_response env order;
      rs ← order_responses env rest;
      Ok (r :: rs)
  end.

(** [TradingService.get_orders]. *)
Definition get_orders (env : Env) (book : OrderBook) (wallet_id : string)
    (sym : option string) : M (list OrderResponse) :=
  try_except
    (client ← _get_binance_client_from_wallet env wallet_id;
     orders ← match sym with
              | Some s =>
                  if String.eqb s ""
                  then ret (gather_orders book client ["BTCUSDT"; "ETHUSDT"; "BNBUSDT"])
                  else lift (client_get_all_orders book client s)
              | None => ret (gather_orders book client ["BTCUSDT"; "ETHUSDT"; "BNBUSDT"])
              end;
     orders ← lift (sorted_by_time orders);
     store_orders orders;;
     lift (order_responses env orders))
    (fun e => raise (BinanceAPIException ("Erro ao obter ordens: " +:+ exc_str e))).

End TradingQueries.
End Queries.
Export Queries.

(** ** The HTTP layer ([app/api]) *)

Module Http.

(** What a route answers: the body of a successful response, or the status
    code and detail of the [HTTPException] that left the handler. *)
Inductive Response (A : Type) : Type :=
| Reply (body : A)
| HttpError (status_code : Z) (detail : string).
Arguments Reply {A} body.
Arguments HttpError {A} status_code detail.

Definition Endpoint (A : Type) : Type := World -> Response A * World.

(** [try: body] followed by [except] clauses that each raise an
    [HTTPException]; [handlers] gives its status code and detail. *)
Definition endpoint {A} (body : M A) (handlers : Exc -> Z * string) : Endpoint A :=
  fun w => match body w with
           | (Ok a, w') => (Reply a, w')
           | (Raise e, w') => (HttpError (fst (handlers e)) (snd (handlers e)), w')
           end.

(** A plain [HTTPException] raised inside a [try] block: it is neither a
    [ValueError] nor one of the exceptions of [app.models.exceptions], so of
    the clauses of the handlers only [except Exception] catches it, and its
    [str] is the library's. *)
Definition http_exception `{Builtins} (status_code : Z) (detail : string) : Exc :=
  OtherException (str_of_http_exception status_code detail).

(** The status code of an answer, 0 for a successful one. *)
Definition error_code {A} (r : Response A) : Z :=
  match r with
  | Reply _ => 0
  | HttpError c _ => c
  end.

(** A route whose every error answer has status 400 and, as detail, the
    text of an [HTTPException] of that status. *)
Definition fails_with_400 `{Builtins} {A} (route : Endpoint A) : Prop :=
  forall w code detail,
    fst (route w) = HttpError code detail ->
    code = 400%Z /\ exists d, detail = str_of_http_exception 400 d.

(** The model's validation of an [Optional[str]] field. *)
Definition optional_str_field (name : string) (v : pyval) : result (option string) :=
  match v with
  | PStr s => Ok (Some s)
  | PNone => Ok None
  | _ => Raise (ValidationError name)
  end.

End Http.
Export Http.

(** [app/api/wallet.py]. *)
Module WalletApi.

(** [app.models.wallet.WalletConnectionStatus]. *)
Record WalletConnectionStatus : Type := {
  is_connected : bool;
  wallet_name : option string;
  connection_timestamp : string
}.

(** [app.models.wallet.WalletBalance]. *)
Record WalletBalance : Type := {
  balances : list AssetBalance;
  balance_timestamp : string
}.

Section Routes.
Context `{Fernet} `{Builtins}.

(** [POST /connect]. *)
Definition connect_wallet (env : Env) (api_key api_secret : string) (use_testnet : bool)
    (name : option string) : Endpoint WalletConnectionStatus :=
  endpoint
    (is_connected ← Wallet.connect_wallet env api_key api_secret name use_testnet;
     let wallet_id := Text.b64encode (Text.suffix 8 api_key) in
     if (is_connected : bool) then
       wallet_info ← get_wallet wallet_id;
       v ← match wallet_info with
           | Some l => ref_item l "name"
           | None => raise (TypeError "'NoneType' object is not subscriptable")
           end;
       stored_name ← lift (optional_str_field "wallet_name" v);
       ret {| is_connected := true; wallet_name := stored_name;
              connection_timestamp := utcnow env |}
     else raise (http_exception 400
                   "Não foi possível conectar à carteira com as credenciais fornecidas"))
    (fun e => match e with
              | BinanceAPIException _ => (400%Z, exc_str e)
              | _ => (500%Z, "Erro ao conectar à carteira: " +:+ exc_str e)
              end).

(** [GET /{wallet_id}/balance]. *)
Definition get_wallet_balance (env : Env) (wallet_id : string) : Endpoint WalletBalance :=
  endpoint
    (wallet_info ← get_wallet wallet_id;
     match wallet_info with
     | None => raise (http_exception 404
                        ("Carteira com ID " +:+ wallet_id +:+ " não encontrada"))
     | Some _ =>
         found ← Wallet.get_wallet_balance env wallet_id;
         ret {| balances := found; balance_timestamp := utcnow env |}
     end)
    (fun e => match e with
              | ValueError _ | ValidationError _ => (404%Z, exc_str e)
              | BinanceAPIException _ => (400%Z, exc_str e)
              | _ => (500%Z, "Erro ao obter saldo da carteira: " +:+ exc_str e)
              end).

End Routes.
End WalletApi.

(** [app/api/bot.py]. *)
Module BotApi.

(** The answer of [POST /start]. *)
Record Started : Type := {
  started_config : BotConfig;
  started_start_time : option string;
  started_symbol : string;
  started_wallet_id : string;
  started_timestamp : string
}.


Section Routes.
Context `{Fernet} `{Builtins}.

(** [POST /start]. *)
Definition start_bot (env : Env) (config : BotConfig) : Endpoint Started :=
  endpoint
    (is_started ← start env config;
     if (is_started : bool) then
       bot_status ← get_status;
       ret {| started_config := config; started_start_time := sv_start_time bot_status;
              started_symbol := symbol config; started_wallet_id := wallet_id config;
              started_timestamp := utcnow env |}
     else raise (http_exception 500 "Falha ao iniciar o bot"))
    (fun e => match e with
              | ValueError _ | ValidationError _ => (400%Z, exc_str e)
              | BinanceAPIException _ => (400%Z, exc_str e)
              | _ => (500%Z, "Erro ao iniciar o bot: " +:+ exc_str e)
              end).



End Routes.
End BotApi.

(** [app/api/trading.py]. *)
Module TradingApi.

(** [app.models.trading.OrderRequest], after validation. *)
Record OrderRequest : Type := {
  req_symbol : string;
  req_quantity : float;
  req_price : option float;
  req_wallet_id : string
}.

(** [app.models.trading.OrderList]. *)
Record OrderList : Type := {
  orders : list OrderResponse;
  order_count : nat;
  orders_timestamp : string
}.

Section Routes.
Context `{Fernet} `{Builtins} `{QueryBuiltins}.

(** The [except] clauses shared by the five routes. *)
Definition handlers (failure : string) (e : Exc) : Z * string :=
  match e with
  | NotFoundException _ => (404%Z, exc_str e)
  | BinanceAPIException _ => (400%Z, exc_str e)
  | _ => (500%Z, failure +:+ exc_str e)
  end.

(** [POST /buy]. *)
Definition place_buy_order (env : Env) (order : OrderRequest) : Endpoint OrderResponse :=
  endpoint
    (Trading.place_buy_order env (req_symbol order) (req_quantity order)
       (req_wallet_id order) (req_price order))
    (handlers "Erro ao executar ordem de compra: ").

(** [POST /sell]. *)
Definition place_sell_order (env : Env) (order : OrderRequest) : Endpoint OrderResponse :=
  endpoint
    (Trading.place_sell_order env (req_symbol order) (req_quantity order)
       (req_wallet_id order) (req_price order))
    (handlers "Erro ao executar ordem de venda: ").

(** [GET /orders]. *)
Definition get_orders (env : Env) (book : OrderBook) (wallet_id : string)
    (sym : option string) : Endpoint OrderList :=
  endpoint
    (found ← Queries.get_orders env book wallet_id sym;
     ret {| orders := found; order_count := length found;
            orders_timestamp := utcnow env |})
    (handlers "Erro ao listar ordens: ").

(** [GET /order/{order_id}]. *)
Definition get_order (env : Env) (book : OrderBook) (order_id wallet_id sym : string)
    : Endpoint OrderResponse :=
  endpoint (Queries.get_order env book order_id wallet_id sym)
    (handlers "Erro ao obter ordem: ").

(** [DELETE /order/{order_id}]. *)
Definition cancel_order (env : Env) (book : OrderBook) (order_id wallet_id sym : string)
    : Endpoint OrderResponse :=
  endpoint (Queries.cancel_order env book order_id wallet_id sym)
    (handlers "Erro ao cancelar ordem: ").

End Routes.
End TradingApi.

(** [app/api/binance.py]. *)
Module BinanceApi.

(** The answer of [POST /test-connection]. *)
Record ConnectionTest : Type := {
  test_is_connected : bool;
  test_timestamp : string
}.

(** [app.models.binance.PriceResponse]. *)
Record PriceResponse : Type := {
  price_symbol : string;
  price_value : float;
  price_timestamp : string
}.

Section Routes.
Context `{Builtins}.

(** [POST /test-connection]. *)
Definition test_connection (env : Env) (api_key api_secret : string) (use_testnet : bool)
    : Endpoint ConnectionTest :=
  endpoint
    (client ← get_binance_client env api_key api_secret (PBool use_testnet);
     is_connected ← Gateway.test_connection env client;
     ret {| test_is_connected := is_connected; test_timestamp := utcnow env |})
    (fun e => (500%Z, "Erro ao testar conexão: " +:+ exc_str e)).

(** [GET /price/{symbol}]. *)
Definition get_price (env : Env) (sym api_key api_secret : string) (use_testnet : bool)
    : Endpoint PriceResponse :=
  endpoint
    (client ← get_binance_client env api_key api_secret (PBool use_testnet);
     found ← Gateway.get_price env client sym;
     ret {| price_symbol := sym; price_value := found; price_timestamp := utcnow env |})
    (fun e => match e with
              | BinanceAPIException _ => (400%Z, exc_str e)
              | _ => (500%Z, "Erro ao obter preço: " +:+ exc_str e)
              end).

End Routes.
End BinanceApi.

(** ** More concrete parameters *)

Module Fixtures.
Import Sample.

(** [int(s)] on plain decimal digits; [sorted] refuses keys that are not
    all integers. *)
#[global] Instance sample_query_builtins : QueryBuiltins :=
  {| int_of_str := fun s =>
       match (if String.eqb s "" then None else digits_value s 0) with
       | Some n => Ok n
       | None => Raise (ValueError ("invalid literal for int() with base 10: '" +:+ s +:+ "'"))
       end;
     sorted_mixed := fun _ =>
       Raise (TypeError "'<' not supported between instances of 'str' and 'int'") |}.

(** An order as the exchange lists it. *)
Definition listed_order (sym : string) (id time : Z) : dict :=
  <["symbol" := PStr sym]>
  (<["orderId" := PInt id]>
  (<["time" := PInt time]>
  (<["price" := PStr "50000.00000000"]>
  (<["origQty" := PStr "0.50000000"]>
  (<["executedQty" := PStr "0.50000000"]>
  (<["cummulativeQuoteQty" := PStr "25000.00000000"]>
  (<["status" := PStr "FILLED"]>
  (<["type" := PStr "LIMIT"]>
  (<["side" := PStr "BUY"]> ∅))))))))).

(** An exchange that lists two orders on BTCUSDT, refuses the query on
    ETHUSDT and lists one order on BNBUSDT; it knows order 28 and cancels
    nothing. *)
Definition sample_book : OrderBook :=
  {| client_get_order := fun _ sym id =>
       if (id =? 28)%Z then Ok (listed_order sym 28 1507725176595)
       else Raise (BinanceLibException "APIError(code=-2013): Order does not exist.");
     client_cancel_order := fun _ _ _ =>
       Raise (BinanceLibException "APIError(code=-2011): Unknown order sent.");
     client_get_all_orders := fun _ sym =>
       if String.eqb sym "BTCUSDT"
       then Ok [listed_order "BTCUSDT" 28 1507725176595;
                listed_order "BTCUSDT" 31 1507725179000]
       else if String.eqb sym "BNBUSDT"
       then Ok [listed_order "BNBUSDT" 30 1507725178000]
       else Raise (BinanceLibException "APIError(code=-1121): Invalid symbol.") |}.

(** A GRID configuration on the sample wallet, and the process after the
    bot was started with it. *)
Definition grid_config : BotConfig :=
  {| symbol := "BTCUSDT"; interval_seconds := 60; max_amount := 100%float;
     wallet_id := sample_id; strategy := GRID;
     buy_threshold := None; sell_threshold := None |}.

Definition world_grid : World :=
  run_events [CallStart (env_quote "2024-01-01T00:01:00" "100.00") grid_config]
    world_connected.

(** The process after one turn of the loop that met the price 99. *)
Definition world_one_turn : World :=
  run_events [ThreadRuns [env_quote "t1" "99.00"]] world_started.

(** A configuration that the validators accept and on whose interval the
    wait raises, and the process after the bot was started with it and the
    thread got its first turn. *)
Definition overflow_config : BotConfig :=
  {| symbol := "BTCUSDT"; interval_seconds := 10000000000; max_amount := 100%float;
     wallet_id := sample_id; strategy := SIMPLE;
     buy_threshold := None; sell_threshold := None |}.

Definition world_overflow : World :=
  run_events [CallStart (env_quote "2024-01-01T00:01:00" "100.00") overflow_config;
              ThreadRuns [env_quote "t1" "99.00"]]
    world_connected.


End Fixtures.

(** * Properties *)

(** ** Running computations *)

Section Run.

Lemma bind_run {A B} (m : M A) (k : A -> M B) (w : World) :
  (m ≫= k) w = match m w with
               | (Ok a, w') => k a w'
               | (Raise e, w') => (Raise e, w')
               end.
Proof. reflexivity. Qed.

Variable P : World -> Prop.

Lemma preserves_ret {A} (a : A) : preserves P (mret a : M A).
Proof. intros w Hw. exact Hw. Qed.

Lemma preserves_raise {A} (e : Exc) : preserves P (raise e : M A).
Proof. intros w Hw. exact Hw. Qed.

Lemma preserves_lift {A} (r : result A) : preserves P (lift r).
Proof. intros w Hw. exact Hw. Qed.

Lemma preserves_get : preserves P get.
Proof. intros w Hw. exact Hw. Qed.

Lemma preserves_modify (f : World -> World) :
  (forall w, P w -> P (f w)) -> preserves P (modify f).
Proof. intros Hf w Hw. apply Hf, Hw. Qed.

Lemma preserves_bind {A B} (m : M A) (k : A -> M B) :
  preserves P m -> (forall a, preserves P (k a)) -> preserves P (m ≫= k).
Proof.
  intros Hm Hk w Hw. rewrite bind_run.
  specialize (Hm w Hw). destruct (m w) as [[a|e] w']; simpl in *.
  - apply Hk, Hm.
  - exact Hm.
Qed.

Lemma preserves_try_except {A} (m : M A) (h : Exc -> M A) :
  preserves P m -> (forall e, preserves P (h e)) -> preserves P (try_except m h).
Proof.
  intros Hm Hh w Hw. unfold try_except.
  specialize (Hm w Hw). destruct (m w) as [[a|e] w']; simpl in *.
  - exact Hm.
  - apply Hh, Hm.
Qed.

Lemma preserves_try_except_lib {A} (m : M A) (h : string -> M A) :
  preserves P m -> (forall msg, preserves P (h msg)) -> preserves P (try_except_lib m h).
Proof.
  intros Hm Hh w Hw. unfold try_except_lib.
  specialize (Hm w Hw). destruct (m w) as [[a|e] w']; simpl in *.
  - exact Hm.
  - destruct e; try exact Hm. apply Hh, Hm.
Qed.

End Run.

(** One structural step of a [preserves] goal. *)
Ltac preserves_step :=
  lazymatch goal with
  | |- preserves _ (mbind _ _) => apply preserves_bind; [| intros ?]
  | |- preserves _ (mret _) => apply preserves_ret
  | |- preserves _ (ret _) => apply preserves_ret
  | |- preserves _ (raise _) => apply preserves_raise
  | |- preserves _ (lift _) => apply preserves_lift
  | |- preserves _ get => apply preserves_get
  | |- preserves _ (try_except _ _) => apply preserves_try_except; [| intros ?]
  | |- preserves _ (try_except_lib _ _) => apply preserves_try_except_lib; [| intros ?]
  | |- preserves _ (modify _) => apply preserves_modify; intros ? ?
  | |- preserves _ (match ?x with _ => _ end) => destruct x
  end.

Create HintDb frame discriminated.

Ltac preserves_auto := repeat (first [ solve [eauto with frame] | preserves_step ]).

(** ** The wallet and order paths do not touch the bot *)

Section BotFrame.
Context `{Fernet} `{Builtins}.
Variable Q : BotService -> Prop.

Let P : World -> Prop := fun w => Q (bot_service w).

Lemma frame_dict_item d k : preserves P (dict_item d k).
Proof. unfold dict_item. preserves_auto. Qed.

Lemma frame_alloc d : preserves P (alloc d).
Proof. intros w Hw. exact Hw. Qed.

Lemma frame_deref l : preserves P (deref l).
Proof. intros w Hw. unfold deref. destruct (heap w !! l); exact Hw. Qed.

Hint Resolve frame_dict_item frame_alloc frame_deref : frame.

Lemma frame_dict_copy l : preserves P (dict_copy l).
Proof. unfold dict_copy. preserves_auto. Qed.

Lemma frame_dict_pop l k : preserves P (dict_pop l k).
Proof. unfold dict_pop. preserves_auto. Qed.

Lemma frame_ref_item l k : preserves P (ref_item l k).
Proof. unfold ref_item. preserves_auto. Qed.

Hint Resolve frame_dict_copy frame_dict_pop frame_ref_item : frame.

Lemma frame_get_binance_client env k s t : preserves P (get_binance_client env k s t).
Proof. unfold get_binance_client. preserves_auto. Qed.

Lemma frame_test_connection env c : preserves P (test_connection env c).
Proof. unfold test_connection. preserves_auto. Qed.

Lemma frame_get_price env c sym : preserves P (get_price env c sym).
Proof. unfold get_price. preserves_auto. Qed.

Lemma frame_encrypt data : preserves P (_encrypt data).
Proof. unfold _encrypt. preserves_auto. Qed.

Lemma frame_decrypt v : preserves P (_decrypt v).
Proof. unfold _decrypt. preserves_auto. Qed.

Lemma frame_wallets_item id : preserves P (wallets_item id).
Proof. unfold wallets_item. preserves_auto. Qed.

Hint Resolve frame_get_binance_client frame_test_connection frame_get_price
  frame_encrypt frame_decrypt frame_wallets_item : frame.

Lemma frame_resolve_credentials id : preserves P (resolve_credentials id).
Proof. unfold resolve_credentials. preserves_auto. Qed.

Lemma frame_get_wallet id : preserves P (get_wallet id).
Proof. unfold get_wallet. preserves_auto. Qed.

Lemma frame_connect_wallet env k s n t : preserves P (connect_wallet env k s n t).
Proof. unfold connect_wallet. preserves_auto. Qed.

Lemma frame_collect_balances raw : preserves P (collect_balances raw).
Proof. induction raw as [|b raw IH]; simpl; preserves_auto. Qed.

Hint Resolve frame_resolve_credentials frame_get_wallet frame_connect_wallet
  frame_collect_balances : frame.

Lemma frame_get_wallet_balance env id : preserves P (get_wallet_balance env id).
Proof. unfold get_wallet_balance. preserves_auto. Qed.

Lemma frame_wallet_info_truthy o : preserves P (wallet_info_truthy o).
Proof. unfold wallet_info_truthy. preserves_auto. Qed.

Hint Resolve frame_get_wallet_balance frame_wallet_info_truthy : frame.

Lemma frame_client_from_wallet env id : preserves P (_get_binance_client_from_wallet env id).
Proof. unfold _get_binance_client_from_wallet. preserves_auto. Qed.

Lemma frame_send_order env c args : preserves P (send_order env c args).
Proof. unfold send_order. preserves_auto. Qed.

Hint Resolve frame_client_from_wallet frame_send_order : frame.

Lemma frame_place_order env side failure sym q id price :
  preserves P (place_order env side failure sym q id price).
Proof. unfold place_order. preserves_auto. Qed.

Lemma frame_start_probe env cfg : preserves P (start_probe env cfg).
Proof. unfold start_probe. preserves_auto. Qed.

End BotFrame.

(** ** What the loop and [stop] keep *)

Section LoopFrame.
Context `{Fernet} `{Builtins}.
Variable Q : BotService -> Prop.

Let P : World -> Prop := fun w => Q (bot_service w).

Hypothesis Q_bot_thread : forall v b, Q b -> Q (set_bot_thread v b).
Hypothesis Q_stop_event : forall v b, Q b -> Q (set_stop_event v b).
Hypothesis Q_status : forall v b, Q b -> Q (set_status v b).
Hypothesis Q_last_price : forall v b, Q b -> Q (set_last_price v b).
Hypothesis Q_last_operation : forall v b, Q b -> Q (set_last_operation v b).
Hypothesis Q_error_message : forall v b, Q b -> Q (set_error_message v b).
Hypothesis Q_push : forall x b, Q b -> Q (set_price_history (push_history x (price_history b)) b).

Lemma keep_update_bot (f : BotService -> BotService) :
  (forall b, Q b -> Q (f b)) -> preserves P (update_bot f).
Proof. intros Hf w Hw. apply Hf, Hw. Qed.

Lemma keep_get_bot : preserves P get_bot.
Proof. intros w Hw. exact Hw. Qed.

Hint Resolve keep_get_bot : frame.
Hint Resolve frame_get_wallet frame_wallet_info_truthy frame_resolve_credentials
  frame_get_binance_client frame_get_price : frame.

Ltac keep := repeat first
  [ solve [eauto with frame]
  | apply keep_update_bot; solve [eauto]
  | preserves_step ].

Lemma keep_simple_strategy last current : preserves P (_execute_simple_strategy last current).
Proof. unfold _execute_simple_strategy. keep. Qed.

Lemma keep_grid_strategy last current : preserves P (_execute_grid_strategy last current).
Proof. unfold _execute_grid_strategy. keep. Qed.

Hint Resolve keep_simple_strategy keep_grid_strategy : frame.

Lemma keep_record_price env cfg current : preserves P (record_price env cfg current).
Proof. unfold record_price. keep. Qed.

Hint Resolve keep_record_price : frame.

Lemma keep_strategy_body env cfg : preserves P (strategy_body env cfg).
Proof. unfold strategy_body. keep. Qed.

Hint Resolve keep_strategy_body : frame.

Lemma keep_execute_strategy env : preserves P (_execute_strategy env).
Proof. unfold _execute_strategy. keep. Qed.

Hint Resolve keep_execute_strategy : frame.

Lemma keep_turn_body env : preserves P (turn_body env).
Proof. unfold turn_body. keep. Qed.

Hint Resolve keep_turn_body : frame.

Lemma keep_loop_turn env : preserves P (loop_turn env).
Proof. unfold loop_turn. keep. Qed.

Hint Resolve keep_loop_turn : frame.

Lemma keep_loop_turns envs : preserves P (loop_turns envs).
Proof. induction envs as [|env envs IH]; simpl; keep. Qed.

Hint Resolve keep_loop_turns : frame.

Lemma keep_late_turn envs : preserves P (late_turn envs).
Proof. destruct envs as [|env envs]; simpl; keep. Qed.

Lemma keep_thread_target loop : preserves P loop -> preserves P (thread_target loop).
Proof.
  intros Hl. unfold thread_target. keep.
  apply keep_update_bot. intros b Hb. destruct (status b); auto.
Qed.

Lemma keep_run_bot_loop envs : preserves P (_run_bot_loop envs).
Proof. apply keep_thread_target, keep_loop_turns. Qed.

Hint Resolve keep_run_bot_loop : frame.

Lemma keep_thread_runs envs : preserves P (thread_runs envs).
Proof.
  unfold thread_runs. apply preserves_bind; [apply keep_get_bot|]. intros b.
  destruct (thread_is_alive (bot_thread b)); [|apply preserves_ret].
  destruct (stop_event b).
  - apply keep_thread_target, keep_late_turn.
  - apply keep_run_bot_loop.
Qed.

Lemma keep_stop env joined : preserves P (stop env joined).
Proof. unfold stop. keep. Qed.

Lemma keep_get_status : preserves P get_status.
Proof. unfold get_status. keep. Qed.

(** Every event but a [start] keeps the property. *)
Lemma keep_event e : is_start e = false -> forall w, P w -> P (run_event e w).
Proof.
  intros He w Hw. destruct e; simpl in *; try discriminate.
  - apply (frame_connect_wallet Q); exact Hw.
  - apply (frame_get_wallet Q); exact Hw.
  - apply (frame_get_wallet_balance Q); exact Hw.
  - apply (frame_place_order Q); exact Hw.
  - apply (frame_place_order Q); exact Hw.
  - apply keep_stop; exact Hw.
  - apply keep_get_status; exact Hw.
  - apply keep_thread_runs; exact Hw.
Qed.

End LoopFrame.

(** ** The bounded price history *)

Section History.
Context `{Fernet} `{Builtins}.

Lemma push_history_length x h :
  (length h <= 100)%nat -> (length (push_history x h) <= 100)%nat.
Proof.
  intros Hh. unfold push_history.
  destruct (Nat.ltb_spec 100 (length (h ++ [x])%list)) as [Hlt|Hge].
  - destruct h as [|o r]; simpl in *; [lia|].
    rewrite length_app in *. simpl in *. lia.
  - exact Hge.
Qed.

Lemma push_history_full x o r :
  length (o :: r) = 100%nat -> push_history x (o :: r) = (r ++ [x])%list.
Proof.
  intros Hh. unfold push_history.
  destruct (Nat.ltb_spec 100 (length ((o :: r) ++ [x])%list)) as [Hlt|Hge].
  - reflexivity.
  - rewrite length_app in Hge. simpl in *. lia.
Qed.

Lemma start_bounded env cfg :
  preserves (fun w => history_bounded (bot_service w)) (start env cfg).
Proof.
  unfold start.
  repeat first
    [ solve [eauto using frame_get_wallet, frame_wallet_info_truthy,
               frame_resolve_credentials, frame_get_binance_client, frame_get_price]
    | apply keep_update_bot; intros b Hb; unfold history_bounded in *; simpl; lia
    | apply keep_get_bot
    | progress unfold start_probe, start_commit
    | preserves_step ].
Qed.

Lemma event_bounded e w :
  history_bounded (bot_service w) -> history_bounded (bot_service (run_event e w)).
Proof.
  intros Hw. destruct (is_start e) eqn:He.
  - destruct e; try discriminate. simpl. apply start_bounded; exact Hw.
  - apply (keep_event history_bounded); try exact He; try exact Hw;
      try (intros v b Hb; exact Hb).
    intros x b Hb. unfold history_bounded in *. simpl.
    apply push_history_length, Hb.
Qed.

Lemma run_events_invariant (I : World -> Prop) :
  (forall e w, I w -> I (run_event e w)) ->
  forall es w, I w -> I (run_events es w).
Proof.
  intros Hstep es. unfold run_events.
  induction es as [|e es IH]; intros w Hw; simpl.
  - exact Hw.
  - apply IH, Hstep, Hw.
Qed.

(** What [record_price] does to the history is one [push_history]. *)
Lemma record_price_history env cfg current w :
  price_history (bot_service (snd (record_price env cfg current w))) =
  push_history {| price := current; timestamp := utcnow env |}
    (price_history (bot_service w)).
Proof.
  set (w1 := snd (update_bot
                    (fun b => set_price_history
                       (push_history {| price := current; timestamp := utcnow env |}
                          (price_history b)) b) w)).
  assert (K : preserves (fun w' => price_history (bot_service w') =
                                   price_history (bot_service w1))
                (b ← get_bot;
                 let last := last_price b in
                 update_bot (set_last_price (Some current));;
                 match last with
                 | Some last_value =>
                     if no_last_price last then
                       update_bot (set_last_operation (Some (OpMonitoring current)))
                     else
                       match strategy cfg with
                       | SIMPLE => _execute_simple_strategy last_value current
                       | GRID => _execute_grid_strategy last_value current
                       end
                 | None => update_bot (set_last_operation (Some (OpMonitoring current)))
                 end)).
  { unfold _execute_simple_strategy, _execute_grid_strategy.
    set (Q := fun b : BotService => price_history b = price_history (bot_service w1)).
    repeat first
      [ apply (keep_get_bot Q)
      | apply (keep_update_bot Q); intros b Hb; exact Hb
      | preserves_step ]. }
  exact (K w1 eq_refl).
Qed.

(** C5: in every state the process can reach the price history holds at
    most 100 samples; the push of the loop is [push_history]; and pushing
    onto a history of 100 samples drops exactly the oldest one and leaves the
    new sample at the end. *)
Theorem price_history_fifo_100 :
  (forall w, reachable w -> (length (price_history (bot_service w)) <= 100)%nat) /\
  (forall env cfg current w,
     price_history (bot_service (snd (record_price env cfg current w))) =
     push_history {| price := current; timestamp := utcnow env |}
       (price_history (bot_service w))) /\
  (forall x oldest rest,
     length (oldest :: rest) = 100%nat ->
     push_history x (oldest :: rest) = (rest ++ [x])%list).
Proof.
  split; [|split].
  - intros w (key & es & ->).
    apply (run_events_invariant (fun w => history_bounded (bot_service w))).
    + intros e w0. apply event_bounded.
    + unfold history_bounded. simpl. lia.
  - apply record_price_history.
  - apply push_history_full.
Qed.

End History.

(** ** Starting the bot *)

(** Runs the monadic glue of a computation, in a hypothesis or in the goal;
    the methods themselves stay folded. *)
Ltac run_in E :=
  cbv beta iota delta [mbind M_bind bind mret M_ret ret update_bot modify raise
                         get_bot get lift try_except] in E.

Ltac run :=
  cbv beta iota delta [mbind M_bind bind mret M_ret ret update_bot modify raise
                         get_bot get lift try_except].

Section Start.
Context `{Fernet} `{Builtins}.

Lemma start_commit_run env cfg probe w :
  start_commit env cfg probe w = (Ok true, set_bot (started_bot env cfg probe) w).
Proof. reflexivity. Qed.

Lemma start_alive env cfg w :
  thread_is_alive (bot_thread (bot_service w)) = true ->
  start env cfg w = (Raise (ValueError "O bot já está em execução"), w).
Proof. intros Ha. unfold start. run. rewrite Ha. reflexivity. Qed.

Lemma start_ok_inv env cfg w r w1 :
  start env cfg w = (Ok r, w1) ->
  exists probe,
    thread_is_alive (bot_thread (bot_service w)) = false /\
    bot_service w1 = started_bot env cfg probe.
Proof.
  unfold start. intros E. run_in E.
  destruct (thread_is_alive (bot_thread (bot_service w))) eqn:Ha; [discriminate|].
  destruct (get_wallet (wallet_id cfg) w) as [[o|e] wa]; [|discriminate].
  destruct (wallet_info_truthy o wa) as [[found|e] wb]; [|discriminate].
  destruct found; [|discriminate]. cbn [negb] in E.
  destruct (start_probe env cfg wb) as [[probe|e] wc]; [|discriminate].
  rewrite start_commit_run in E.
  injection E as _ <-. exists probe. split; reflexivity.
Qed.

(** A [start] that raises has written nothing to the bot. *)
Lemma start_raise_frame env cfg w e w' :
  start env cfg w = (Raise e, w') -> bot_service w' = bot_service w.
Proof.
  unfold start. intros E. run_in E.
  destruct (thread_is_alive (bot_thread (bot_service w))).
  { injection E as _ <-. reflexivity. }
  pose proof (frame_get_wallet (fun b => b = bot_service w) (wallet_id cfg) w eq_refl) as F1.
  destruct (get_wallet (wallet_id cfg) w) as [[o|e1] wa]; simpl in F1.
  2: { injection E as _ <-. exact F1. }
  pose proof (frame_wallet_info_truthy (fun b => b = bot_service w) o wa F1) as F2.
  destruct (wallet_info_truthy o wa) as [[found|e2] wb]; simpl in F2.
  2: { injection E as _ <-. exact F2. }
  destruct found; cbn [negb] in E.
  2: { injection E as _ <-. exact F2. }
  pose proof (frame_start_probe (fun b => b = bot_service w) env cfg wb F2) as F3.
  destruct (start_probe env cfg wb) as [[probe|e3] wc]; simpl in F3.
  - rewrite start_commit_run in E. discriminate.
  - injection E as _ <-. exact F3.
Qed.

Lemma start_time_kept e w :
  is_start e = false ->
  start_time (bot_service (run_event e w)) = start_time (bot_service w).
Proof.
  intros He.
  apply (keep_event (fun b => start_time b = start_time (bot_service w)));
    try exact He; try reflexivity; intros ? b Hb; exact Hb.
Qed.

Lemma start_time_kept_events es w :
  forallb (fun e => negb (is_start e)) es = true ->
  start_time (bot_service (run_events es w)) = start_time (bot_service w).
Proof.
  unfold run_events. revert w.
  induction es as [|e es IH]; intros w Hes; simpl in *.
  - reflexivity.
  - apply andb_prop in Hes as [He Hes].
    rewrite IH by exact Hes. apply start_time_kept.
    destruct (is_start e); [discriminate|reflexivity].
Qed.

(** C3: after a successful [start], and whatever happens next short of
    another [start], a [start] that finds the launched loop alive raises the
    already-running error and changes nothing; the start time is still the
    one of the first call. *)
Theorem second_start_rejected env cfg w w1 :
  start env cfg w = (Ok true, w1) ->
  forall es,
    forallb (fun e => negb (is_start e)) es = true ->
    thread_is_alive (bot_thread (bot_service (run_events es w1))) = true ->
    forall env2 cfg2,
      start env2 cfg2 (run_events es w1) =
        (Raise (ValueError "O bot já está em execução"), run_events es w1) /\
      start_time (bot_service (run_events es w1)) = start_time (bot_service w1) /\
      start_time (bot_service w1) = Some (utcnow env).
Proof.
  intros E es Hes Ha env2 cfg2.
  destruct (start_ok_inv _ _ _ _ _ E) as (probe & _ & Hb).
  split; [|split].
  - apply start_alive, Ha.
  - apply start_time_kept_events, Hes.
  - rewrite Hb. reflexivity.
Qed.

(** C4: when the wallet is found and its credentials resolve but the price
    probe fails, [start] raises the invalid-symbol [ValueError] and the bot
    is, field for field, what it was; and no [start] that raises has written
    to the bot. *)
Theorem rejected_start_writes_nothing env cfg :
  (forall w o wa wb k s t wc client wd e we,
     thread_is_alive (bot_thread (bot_service w)) = false ->
     get_wallet (wallet_id cfg) w = (Ok o, wa) ->
     wallet_info_truthy o wa = (Ok true, wb) ->
     resolve_credentials (wallet_id cfg) wb = (Ok (k, s, t), wc) ->
     get_binance_client env k s t wc = (Ok client, wd) ->
     get_price env client (symbol cfg) wd = (Raise e, we) ->
     start env cfg w =
       (Raise (ValueError ("Símbolo inválido ou erro de conexão: " +:+ exc_str e)), we) /\
     bot_service we = bot_service w) /\
  (forall w e w', start env cfg w = (Raise e, w') -> bot_service w' = bot_service w).
Proof.
  split; [|intros w e w'; apply start_raise_frame].
  intros w o wa wb k s t wc client wd e we Ha E1 E2 E3 E4 E5.
  assert (E : start env cfg w =
              (Raise (ValueError ("Símbolo inválido ou erro de conexão: " +:+ exc_str e)), we)).
  { unfold start, start_probe. run. rewrite Ha, E1, E2. cbn [negb].
    rewrite E3, E4, E5. reflexivity. }
  split; [exact E|]. eapply start_raise_frame, E.
Qed.

End Start.

(** ** The strategies and the loop *)

Section Strategy.
Context `{Fernet} `{Builtins}.

Lemma float_div_truthy a b :
  float_truthy b = true -> float_div a b = Ok (a / b)%float.
Proof.
  unfold float_truthy, float_div. intros Hb.
  destruct (PrimFloat.eqb b 0); [discriminate|reflexivity].
Qed.

Lemma no_last_price_spec p :
  no_last_price p = true <->
  p = None \/ exists x, p = Some x /\ PrimFloat.eqb x 0 = true.
Proof.
  unfold no_last_price, float_truthy. split.
  - destruct p as [x|]; [|auto]. intros Hx. right. exists x.
    destruct (PrimFloat.eqb x 0); [auto|discriminate].
  - intros [->|(x & -> & ->)]; reflexivity.
Qed.

Lemma float_or_plain t d : plain_threshold t = true -> float_or t d = spec_threshold t d.
Proof. destruct t as [v|]; simpl; [intros ->|]; reflexivity. Qed.

(** With a previous price that is not zero the SIMPLE strategy returns, and
    the text it leaves announces the signal of the code's thresholds. *)
Lemma simple_strategy_run cfg last current w :
  config (bot_service w) = Some cfg ->
  float_truthy last = true ->
  exists op,
    _execute_simple_strategy last current w =
      (Ok tt, set_bot (set_last_operation (Some op) (bot_service w)) w) /\
    signal_of (Some op) =
      let change := spec_change_pct last current in
      if PrimFloat.leb change (- float_or (buy_threshold cfg) 0.5) then SigBUY
      else if PrimFloat.leb (float_or (sell_threshold cfg) 1.0) change then SigSELL
      else SigNONE.
Proof.
  intros Hc Hl. unfold _execute_simple_strategy. run. rewrite Hc.
  rewrite (float_div_truthy _ _ Hl). cbv beta iota zeta. unfold spec_change_pct.
  destruct (PrimFloat.leb _ (- _)).
  - eexists. split; reflexivity.
  - destruct (PrimFloat.leb (float_or _ _) _); eexists; split; reflexivity.
Qed.

Lemma grid_strategy_run last current w :
  float_truthy last = true ->
  _execute_grid_strategy last current w =
    (Ok tt, set_bot (set_last_operation
                       (Some (OpGrid current (spec_change_pct last current)))
                       (bot_service w)) w).
Proof.
  intros Hl. unfold _execute_grid_strategy. run.
  rewrite (float_div_truthy _ _ Hl). reflexivity.
Qed.

(** Where the thresholds are unset or not zero, the code's signal is the
    specification's. *)
Lemma simple_strategy_agrees cfg last current w :
  config (bot_service w) = Some cfg ->
  float_truthy last = true ->
  plain_threshold (buy_threshold cfg) = true ->
  plain_threshold (sell_threshold cfg) = true ->
  exists w',
    _execute_simple_strategy last current w = (Ok tt, w') /\
    signal_of (last_operation (bot_service w')) = spec_simple_signal cfg last current.
Proof.
  intros Hc Hl Hb Hs.
  destruct (simple_strategy_run cfg last current w Hc Hl) as (op & E & S).
  eexists. split; [exact E|]. cbn [bot_service set_bot last_operation set_last_operation].
  rewrite S. unfold spec_simple_signal.
  rewrite (float_or_plain _ _ Hb), (float_or_plain _ _ Hs). reflexivity.
Qed.

(** C9: with no previous price, or a previous price equal to zero, the
    iteration records the price, leaves the first-observation note and runs
    no strategy; a strategy runs only on a previous price that is not zero,
    for which the division of the percent change is defined; and the part of
    the iteration that follows the price request never raises. *)
Theorem previous_price_guards_division env cfg current w :
  config (bot_service w) = Some cfg ->
  let recorded :=
    set_bot (set_last_price (Some current)
               (set_price_history
                  (push_history {| price := current; timestamp := utcnow env |}
                     (price_history (bot_service w)))
                  (bot_service w))) w in
  (last_price (bot_service w) = None \/
   (exists x, last_price (bot_service w) = Some x /\ PrimFloat.eqb x 0 = true) ->
   record_price env cfg current w =
     (Ok tt,
      set_bot (set_last_operation (Some (OpMonitoring current))
                 (bot_service recorded)) recorded)) /\
  (forall last,
     last_price (bot_service w) = Some last -> PrimFloat.eqb last 0 = false ->
     record_price env cfg current w =
       match strategy cfg with
       | SIMPLE => _execute_simple_strategy last current recorded
       | GRID => _execute_grid_strategy last current recorded
       end /\
     float_div (current - last) last = Ok ((current - last) / last)%float) /\
  fst (record_price env cfg current w) = Ok tt.
Proof.
  intros Hc recorded. split; [|split].
  - intros Hz. apply no_last_price_spec in Hz.
    unfold record_price. run.
    cbn [bot_service set_bot last_price set_price_history].
    destruct (last_price (bot_service w)) as [x|]; [|reflexivity].
    rewrite Hz. reflexivity.
  - intros last Hl Hnz. split.
    + unfold record_price. run.
      cbn [bot_service set_bot last_price set_price_history].
      rewrite Hl. unfold no_last_price, float_truthy. rewrite Hnz.
      cbn [negb]. destruct (strategy cfg); reflexivity.
    + apply float_div_truthy. unfold float_truthy. rewrite Hnz. reflexivity.
  - unfold record_price. run.
    cbn [bot_service set_bot last_price set_price_history].
    destruct (last_price (bot_service w)) as [x|] eqn:Hl; [|reflexivity].
    unfold no_last_price. destruct (float_truthy x) eqn:Hx; [|reflexivity].
    cbn [negb]. destruct (strategy cfg).
    + edestruct (simple_strategy_run cfg x current) as (op & E & _);
        [|exact Hx|rewrite E; reflexivity]. exact Hc.
    + rewrite grid_strategy_run by exact Hx. reflexivity.
Qed.

End Strategy.

(** ** Computations that leave the world as it is *)

Section Pure.
Context `{Fernet} `{Builtins}.
Variable w0 : World.
Let P : World -> Prop := fun w => w = w0.

Lemma pure_dict_item d k : preserves P (dict_item d k).
Proof. unfold dict_item. preserves_auto. Qed.
Lemma pure_deref l : preserves P (deref l).
Proof. intros w Hw. unfold deref. destruct (heap w !! l); exact Hw. Qed.
Hint Resolve pure_dict_item pure_deref : frame.
Lemma pure_ref_item l k : preserves P (ref_item l k).
Proof. unfold ref_item. preserves_auto. Qed.
Lemma pure_get_binance_client env k s t : preserves P (get_binance_client env k s t).
Proof. unfold get_binance_client. preserves_auto. Qed.
Lemma pure_test_connection env c : preserves P (test_connection env c).
Proof. unfold test_connection. preserves_auto. Qed.
Lemma pure_get_price env c sym : preserves P (get_price env c sym).
Proof. unfold get_price. preserves_auto. Qed.
Lemma pure_encrypt data : preserves P (_encrypt data).
Proof. unfold _encrypt. preserves_auto. Qed.
Lemma pure_decrypt v : preserves P (_decrypt v).
Proof. unfold _decrypt. preserves_auto. Qed.
Lemma pure_wallets_item id : preserves P (wallets_item id).
Proof. unfold wallets_item. preserves_auto. Qed.
Hint Resolve pure_ref_item pure_get_binance_client pure_test_connection pure_get_price
  pure_encrypt pure_decrypt pure_wallets_item : frame.
Lemma pure_resolve_credentials id : preserves P (resolve_credentials id).
Proof. unfold resolve_credentials. preserves_auto. Qed.
Lemma pure_collect_balances raw : preserves P (collect_balances raw).
Proof. induction raw as [|b raw IH]; simpl; preserves_auto. Qed.
Lemma pure_wallet_info_truthy o : preserves P (wallet_info_truthy o).
Proof. unfold wallet_info_truthy. preserves_auto. Qed.
Hint Resolve pure_resolve_credentials pure_collect_balances pure_wallet_info_truthy : frame.
Lemma pure_start_probe env cfg : preserves P (start_probe env cfg).
Proof. unfold start_probe. preserves_auto. Qed.
End Pure.

(** ** The vault *)

Section Vault.
Context `{Fernet} `{Builtins}.

Lemma pure_run {A} (m : M A) w :
  (forall w0, preserves (fun w => w = w0) m) -> m w = (fst (m w), w).
Proof. intros Hm. specialize (Hm w w eq_refl). destruct (m w) as [r w']. simpl in *. congruence. Qed.

Lemma fresh_heap (w : World) : heap w !! fresh (dom (heap w)) = None.
Proof. apply not_elem_of_dom, is_fresh. Qed.

Lemma fresh_ne (w : World) l d : heap w !! l = Some d -> fresh (dom (heap w)) <> l.
Proof. intros Hl E. rewrite <- E, fresh_heap in Hl. discriminate. Qed.

Lemma get_wallet_found w id l d k s :
  wallets (wallet_service w) !! id = Some l ->
  heap w !! l = Some d ->
  d !! "api_key" = Some k -> d !! "api_secret" = Some s ->
  get_wallet id w =
    (Ok (Some (fresh (dom (heap w)))),
     set_heap (<[fresh (dom (heap w)) := delete "api_secret" (delete "api_key" d)]> (heap w)) w).
Proof.
  intros Hi Hl Hk Hs. unfold get_wallet, dict_copy, dict_pop, deref, dict_item, alloc. run.
  rewrite Hi. cbv beta iota. rewrite Hl.
  cbn [heap set_heap]. rewrite lookup_insert_eq. rewrite Hk. cbv beta iota.
  cbn [heap set_heap]. rewrite lookup_insert_eq.
  rewrite lookup_delete_ne by discriminate. rewrite Hs. cbv beta iota.
  cbn [heap set_heap]. rewrite !insert_insert_eq. reflexivity.
Qed.

Lemma wallet_record_items d :
  wallet_record d ->
  exists k s t, d !! "api_key" = Some (PStr k) /\ d !! "api_secret" = Some (PStr s) /\
                d !! "use_testnet" = Some (PBool t).
Proof.
  intros (k & s & name & t & at_ & ->). exists k, s, t.
  split; [|split]; reflexivity.
Qed.

Lemma same_vault_refl w : same_vault w w.
Proof. split; auto. Qed.

Lemma get_wallet_vault id w :
  vault_ok w ->
  same_vault w (snd (get_wallet id w)) /\ vault_ok (snd (get_wallet id w)) /\
  exists o, fst (get_wallet id w) = Ok o.
Proof.
  intros Hv. destruct (wallets (wallet_service w) !! id) as [l|] eqn:Hi.
  - destruct (Hv id l Hi) as (d & Hl & Hd).
    destruct (wallet_record_items d Hd) as (k & s & t & Hk & Hs & _).
    rewrite (get_wallet_found w id l d _ _ Hi Hl Hk Hs). cbn [fst snd].
    assert (S : same_vault w (set_heap (<[fresh (dom (heap w)) :=
                 delete "api_secret" (delete "api_key" d)]> (heap w)) w)).
    { split; [reflexivity|]. intros id' l' Hi'.
      destruct (Hv id' l' Hi') as (d' & Hl' & _). cbn [heap set_heap].
      apply lookup_insert_ne. eapply fresh_ne, Hl'. }
    split; [exact S|]. split; [|eauto].
    intros id' l' Hi'. destruct (Hv id' l' Hi') as (d' & Hl' & Hd').
    exists d'. split; [|exact Hd']. destruct S as [_ S]. rewrite (S id' l' Hi'). exact Hl'.
  - assert (E : get_wallet id w = (Ok None, w)).
    { unfold get_wallet. run. rewrite Hi. reflexivity. }
    rewrite E. cbn [fst snd]. split; [apply same_vault_refl|]. split; [exact Hv|eauto].
Qed.
Lemma pure_preserves {A} (P : World -> Prop) (m : M A) :
  (forall w0, preserves (fun w => w = w0) m) -> preserves P m.
Proof. intros Hm w Hw. rewrite (Hm w w eq_refl). exact Hw. Qed.

Lemma connect_wallet_cases env k s n t w :
  (exists r, connect_wallet env k s n t w = (r, w)) \/
  connect_wallet env k s n t w = (Ok true, stored_world env k s n t w).
Proof.
  unfold connect_wallet, _encrypt, alloc. run.
  rewrite (pure_run (get_binance_client env k s (PBool t)) w)
    by (intros; apply pure_get_binance_client).
  destruct (fst (get_binance_client env k s (PBool t) w)) as [c|e]; [|eauto].
  rewrite (pure_run (test_connection env c) w) by (intros; apply pure_test_connection).
  destruct (fst (test_connection env c w)) as [[|]|e]; eauto.
Qed.

Lemma stored_world_vault env k s n t w : vault_ok w -> vault_ok (stored_world env k s n t w).
Proof.
  intros Hv id l. unfold stored_world. cbn [wallets wallet_service set_wallets set_heap heap].
  destruct (decide (derive_wallet_id k = id)) as [->|Hne].
  - rewrite lookup_insert_eq. intros [= <-]. rewrite lookup_insert_eq.
    eexists. split; [reflexivity|]. unfold wallet_record, new_record. eauto 10.
  - rewrite lookup_insert_ne by exact Hne. intros Hi.
    destruct (Hv id l Hi) as (d & Hl & Hd). exists d. split; [|exact Hd].
    rewrite lookup_insert_ne; [exact Hl|]. eapply fresh_ne, Hl.
Qed.

Lemma vault_connect_wallet env k s n t : preserves vault_ok (connect_wallet env k s n t).
Proof.
  intros w Hv. destruct (connect_wallet_cases env k s n t w) as [[r E]|E]; rewrite E.
  - exact Hv.
  - apply stored_world_vault, Hv.
Qed.

Lemma vault_get_wallet id : preserves vault_ok (get_wallet id).
Proof. intros w Hv. apply get_wallet_vault, Hv. Qed.

Ltac vault_keep := repeat first
  [ apply vault_get_wallet
  | apply pure_preserves; intros;
    solve [eauto using pure_resolve_credentials, pure_get_binance_client, pure_get_price,
             pure_collect_balances, pure_wallet_info_truthy, pure_start_probe,
             pure_dict_item]
  | apply preserves_modify; intros ? Hv; exact Hv
  | preserves_step ].

Lemma vault_get_wallet_balance env id : preserves vault_ok (get_wallet_balance env id).
Proof. unfold get_wallet_balance. vault_keep. Qed.

Lemma vault_place_order env side failure sym q id price :
  preserves vault_ok (place_order env side failure sym q id price).
Proof. unfold place_order, _get_binance_client_from_wallet, send_order. vault_keep. Qed.

Lemma vault_start env cfg : preserves vault_ok (start env cfg).
Proof. unfold start, start_commit, get_bot, update_bot. vault_keep. Qed.

Lemma vault_execute_strategy env : preserves vault_ok (_execute_strategy env).
Proof.
  unfold _execute_strategy, strategy_body, record_price, _execute_simple_strategy,
    _execute_grid_strategy, get_bot, update_bot. vault_keep.
Qed.

Lemma vault_turn_body env : preserves vault_ok (turn_body env).
Proof.
  unfold turn_body, get_bot, update_bot.
  repeat first [ apply vault_execute_strategy | vault_keep ].
Qed.

Lemma vault_loop_turn env : preserves vault_ok (loop_turn env).
Proof.
  unfold loop_turn, get_bot.
  repeat first [ apply vault_turn_body | vault_keep ].
Qed.

Lemma vault_loop_turns envs : preserves vault_ok (loop_turns envs).
Proof.
  induction envs as [|env envs IH]; simpl; repeat first [ apply vault_loop_turn | exact IH | vault_keep ].
Qed.

Lemma vault_late_turn envs : preserves vault_ok (late_turn envs).
Proof.
  destruct envs as [|env envs]; simpl; repeat first [ apply vault_turn_body | vault_keep ].
Qed.

Lemma vault_thread_target loop :
  preserves vault_ok loop -> preserves vault_ok (thread_target loop).
Proof.
  intros Hl. unfold thread_target, get_bot, update_bot.
  repeat first [ exact Hl | vault_keep ].
Qed.

Lemma vault_run_bot_loop envs : preserves vault_ok (_run_bot_loop envs).
Proof. apply vault_thread_target, vault_loop_turns. Qed.

Lemma vault_event e w : vault_ok w -> vault_ok (run_event e w).
Proof.
  intros Hv. destruct e; simpl.
  - apply vault_connect_wallet, Hv.
  - apply vault_get_wallet, Hv.
  - apply vault_get_wallet_balance, Hv.
  - apply vault_place_order, Hv.
  - apply vault_place_order, Hv.
  - apply vault_start, Hv.
  - revert w Hv. change (preserves vault_ok (stop env joined)).
    unfold stop, get_bot, update_bot. repeat first [ apply vault_run_bot_loop | vault_keep ].
  - exact Hv.
  - revert w Hv. change (preserves vault_ok (thread_runs envs)).
    unfold thread_runs, get_bot.
    repeat first [ apply vault_run_bot_loop
                 | apply vault_thread_target, vault_late_turn | vault_keep ].
Qed.

Lemma reachable_vault_ok w : reachable w -> vault_ok w.
Proof.
  intros (key & es & ->). apply (run_events_invariant vault_ok).
  - apply vault_event.
  - intros id l. simpl. rewrite lookup_empty. discriminate.
Qed.
End Vault.

(** ** Reading the vault *)

Section VaultReads.
Context `{Fernet} `{Builtins}.

Lemma same_vault_trans w w1 w2 :
  same_vault w w1 -> same_vault w1 w2 -> same_vault w w2.
Proof.
  intros [A1 B1] [A2 B2]. split; [congruence|].
  intros id l Hi. rewrite <- (B1 id l Hi). apply (B2 id l). rewrite A1. exact Hi.
Qed.

Lemma wallets_item_run id w :
  wallets_item id w =
  (match wallets (wallet_service w) !! id with
   | Some l => Ok l
   | None => Raise (KeyError id)
   end, w).
Proof. unfold wallets_item. run. destruct (wallets (wallet_service w) !! id); reflexivity. Qed.

Lemma ref_item_run l k w :
  ref_item l k w =
  (match heap w !! l with
   | Some d => item_of d k
   | None => Raise (OtherException "dangling reference")
   end, w).
Proof.
  unfold ref_item, deref, dict_item, item_of. run.
  destruct (heap w !! l) as [d|]; [|reflexivity]. destruct (d !! k); reflexivity.
Qed.

Lemma decrypt_run v w :
  _decrypt v w = (decrypted (encryption_key (wallet_service w)) v, w).
Proof.
  unfold _decrypt, decrypted. destruct v; try reflexivity. run.
  destruct (fernet_decrypt _ s); reflexivity.
Qed.

Lemma result_bind_ok {A B} (a : A) (k : A -> result B) : (Ok a ≫= k) = k a.
Proof. reflexivity. Qed.

Lemma resolve_credentials_run id w :
  resolve_credentials id w = (resolved (wallet_service w) (heap w) id, w).
Proof.
  unfold resolve_credentials, resolved.
  rewrite bind_run, wallets_item_run.
  destruct (wallets (wallet_service w) !! id) as [l|] eqn:Hi; [|reflexivity].
  rewrite bind_run, ref_item_run.
  destruct (heap w !! l) as [d|] eqn:Hl; [|reflexivity].
  cbv beta iota. destruct (item_of d "api_key") as [vk|e]; [rewrite result_bind_ok; cbv beta iota|reflexivity].
  rewrite bind_run, decrypt_run.
  destruct (decrypted _ vk) as [k|e]; [rewrite result_bind_ok; cbv beta iota|reflexivity].
  rewrite bind_run, wallets_item_run, Hi. cbv beta iota.
  rewrite bind_run, ref_item_run, Hl. cbv beta iota.
  destruct (item_of d "api_secret") as [vs|e]; [rewrite result_bind_ok; cbv beta iota|reflexivity].
  rewrite bind_run, decrypt_run.
  destruct (decrypted _ vs) as [s|e]; [rewrite result_bind_ok; cbv beta iota|reflexivity].
  rewrite bind_run, wallets_item_run, Hi. cbv beta iota.
  rewrite bind_run, ref_item_run, Hl. cbv beta iota.
  destruct (item_of d "use_testnet") as [t|e]; reflexivity.
Qed.

Lemma resolve_credentials_same_vault w w' id :
  same_vault w w' ->
  fst (resolve_credentials id w') = fst (resolve_credentials id w).
Proof.
  intros [Sw Sh]. rewrite !resolve_credentials_run. cbn [fst].
  unfold resolved. rewrite Sw.
  destruct (wallets (wallet_service w) !! id) as [l|] eqn:Hi; [|reflexivity].
  rewrite (Sh id l Hi). reflexivity.
Qed.

Lemma get_wallets_vault ids w :
  vault_ok w ->
  fst (get_wallets ids w) = Ok tt /\
  same_vault w (snd (get_wallets ids w)) /\ vault_ok (snd (get_wallets ids w)).
Proof.
  revert w. induction ids as [|i ids IH]; intros w Hv.
  - simpl. split; [reflexivity|]. split; [apply same_vault_refl|exact Hv].
  - cbn [get_wallets]. rewrite bind_run.
    destruct (get_wallet_vault i w Hv) as (S1 & V1 & o & E1).
    destruct (get_wallet i w) as [r w1]. cbn [fst snd] in *. subst r.
    destruct (IH w1 V1) as (E2 & S2 & V2).
    split; [exact E2|]. split; [|exact V2].
    eapply same_vault_trans; [exact S1|exact S2].
Qed.

(** C10: any number of [get_wallet] calls return, leave the vault as it is,
    every stored record still with its two encrypted secrets, and credential
    resolution gives afterwards what it gave before. *)
Theorem get_wallet_leaves_vault w ids :
  reachable w ->
  fst (get_wallets ids w) = Ok tt /\
  same_vault w (snd (get_wallets ids w)) /\
  (forall id l,
     wallets (wallet_service w) !! id = Some l ->
     exists d k s,
       heap (snd (get_wallets ids w)) !! l = Some d /\ heap w !! l = Some d /\
       d !! "api_key" = Some (PStr k) /\ d !! "api_secret" = Some (PStr s)) /\
  (forall id,
     fst (resolve_credentials id (snd (get_wallets ids w))) =
     fst (resolve_credentials id w)).
Proof.
  intros Hr. pose proof (reachable_vault_ok w Hr) as Hv.
  destruct (get_wallets_vault ids w Hv) as (E & S & V).
  split; [exact E|]. split; [exact S|]. split.
  - intros id l Hi. destruct (Hv id l Hi) as (d & Hl & Hd).
    destruct (wallet_record_items d Hd) as (k & s & t & Hk & Hs & _).
    exists d, k, s. destruct S as [_ S]. rewrite (S id l Hi). auto.
  - intros id. apply resolve_credentials_same_vault, S.
Qed.

End VaultReads.

(** ** Credentials that do not decrypt *)

Section Cred.
Context `{Fernet} `{Builtins} `{QueryBuiltins}.





End Cred.

(** ** Connecting a wallet *)

Section Connect.
Context `{Fernet} `{Builtins}.

Lemma connect_wallet_inv env k s n t w w1 :
  connect_wallet env k s n t w = (Ok true, w1) -> w1 = stored_world env k s n t w.
Proof.
  unfold connect_wallet, _encrypt, alloc. intros E. run_in E.
  rewrite (pure_run (get_binance_client env k s (PBool t)) w) in E
    by (intros; apply pure_get_binance_client).
  destruct (fst (get_binance_client env k s (PBool t) w)) as [c|e]; [|discriminate].
  rewrite (pure_run (test_connection env c) w) in E by (intros; apply pure_test_connection).
  destruct (fst (test_connection env c w)) as [[|]|e]; try discriminate.
  injection E as <-. reflexivity.
Qed.

Lemma connect_wallet_accepted env k s n t w c :
  get_binance_client env k s (PBool t) w = (Ok c, w) ->
  test_connection env c w = (Ok true, w) ->
  connect_wallet env k s n t w = (Ok true, stored_world env k s n t w).
Proof.
  intros E1 E2. unfold connect_wallet, _encrypt, alloc. run.
  rewrite E1. cbv beta iota. rewrite E2. reflexivity.
Qed.

(** C8: the id is the Base64 form of the last eight characters of the key,
    so two keys that end alike get the same id; when both connections are
    accepted the second call returns [True] as well, the id then refers to
    the record of the second call, and the set of stored ids is the one left
    by the first call. *)
Theorem same_fragment_overwrites env1 env2 k1 s1 n1 t1 k2 s2 n2 t2 w w1 c2 :
  Text.suffix 8 k1 = Text.suffix 8 k2 ->
  connect_wallet env1 k1 s1 n1 t1 w = (Ok true, w1) ->
  get_binance_client env2 k2 s2 (PBool t2) w1 = (Ok c2, w1) ->
  test_connection env2 c2 w1 = (Ok true, w1) ->
  derive_wallet_id k1 = Text.b64encode (Text.suffix 8 k1) /\
  derive_wallet_id k2 = derive_wallet_id k1 /\
  exists l1 l2 w2,
    wallets (wallet_service w1) =
      <[derive_wallet_id k1 := l1]> (wallets (wallet_service w)) /\
    connect_wallet env2 k2 s2 n2 t2 w1 = (Ok true, w2) /\
    wallets (wallet_service w2) =
      <[derive_wallet_id k1 := l2]> (wallets (wallet_service w)) /\
    heap w2 !! l2 =
      Some (new_record (encryption_key (wallet_service w)) env2 k2 s2 n2 t2) /\
    dom (wallets (wallet_service w2)) = dom (wallets (wallet_service w1)).
Proof.
  intros Hsuf E1 Ec Et.
  assert (Hid : derive_wallet_id k2 = derive_wallet_id k1)
    by (unfold derive_wallet_id; rewrite Hsuf; reflexivity).
  split; [reflexivity|]. split; [exact Hid|].
  apply connect_wallet_inv in E1. subst w1.
  exists (fresh (dom (heap w))),
         (fresh (dom (heap (stored_world env1 k1 s1 n1 t1 w)))),
         (stored_world env2 k2 s2 n2 t2 (stored_world env1 k1 s1 n1 t1 w)).
  split; [reflexivity|]. split; [apply (connect_wallet_accepted _ _ _ _ _ _ c2); assumption|].
  assert (W2 : wallets (wallet_service (stored_world env2 k2 s2 n2 t2
                          (stored_world env1 k1 s1 n1 t1 w))) =
               <[derive_wallet_id k1 := fresh (dom (heap (stored_world env1 k1 s1 n1 t1 w)))]>
                 (wallets (wallet_service w))).
  { unfold stored_world at 1. cbn [wallets wallet_service set_wallets set_heap].
    rewrite Hid. unfold stored_world at 2.
    cbn [wallets wallet_service set_wallets set_heap]. apply insert_insert_eq. }
  split; [exact W2|]. split.
  - unfold stored_world at 1. cbn [heap set_wallets set_heap]. apply lookup_insert_eq.
  - rewrite W2. unfold stored_world. cbn [wallets wallet_service set_wallets set_heap].
    rewrite !dom_insert_L. reflexivity.
Qed.

End Connect.

(** ** Placing an order *)

Section Orders.
Context `{Fernet} `{Builtins}.

Lemma decode_order_price env d r :
  decode_order env d = Ok r ->
  (or_price r = None <-> truthy (dict_get d "price") = false).
Proof.
  unfold decode_order. intros E.
  destruct (OrderSide_of _) as [side|]; [|discriminate].
  destruct (OrderType_of _) as [type|]; [|discriminate].
  destruct (OrderStatus_of _) as [status|]; [|discriminate].
  destruct (py_float (dict_get d "origQty")) as [quantity|]; [|discriminate].
  rewrite !result_bind_ok in E.
  destruct (truthy (dict_get d "price")) eqn:Hp.
  - destruct (py_float (dict_get_or d "price" (PInt 0))) as [p|]; [|discriminate].
    rewrite !result_bind_ok in E.
    destruct (py_float (dict_get_or d "executedQty" (PInt 0))) as [ex|]; [|discriminate].
    destruct (py_float (dict_get_or d "cummulativeQuoteQty" (PInt 0))) as [cu|]; [|discriminate].
    rewrite !result_bind_ok in E.
    destruct (if truthy (dict_get d "time") then _ else _) as [cr|]; [|discriminate].
    rewrite result_bind_ok in E.
    destruct (if truthy (dict_get d "updateTime") then _ else _) as [up|]; [|discriminate].
    rewrite result_bind_ok in E.
    destruct (str_field "symbol" _) as [sym|]; [|discriminate].
    rewrite result_bind_ok in E. injection E as <-. simpl. split; discriminate.
  - rewrite !result_bind_ok in E.
    destruct (py_float (dict_get_or d "executedQty" (PInt 0))) as [ex|]; [|discriminate].
    destruct (py_float (dict_get_or d "cummulativeQuoteQty" (PInt 0))) as [cu|]; [|discriminate].
    rewrite !result_bind_ok in E.
    destruct (if truthy (dict_get d "time") then _ else _) as [cr|]; [|discriminate].
    rewrite result_bind_ok in E.
    destruct (if truthy (dict_get d "updateTime") then _ else _) as [up|]; [|discriminate].
    rewrite result_bind_ok in E.
    destruct (str_field "symbol" _) as [sym|]; [|discriminate].
    rewrite result_bind_ok in E. injection E as <-. simpl. split; reflexivity.
Qed.

Lemma basic_order_shape env d r :
  basic_order env d = Ok r ->
  or_price r = None /\ or_type r = MARKET /\ or_side r = BUY /\ or_status r = NEW.
Proof.
  unfold basic_order. intros E.
  destruct (py_float _) as [quantity|]; [|discriminate]. rewrite result_bind_ok in E.
  destruct (str_field _ _) as [sym|]; [|discriminate]. rewrite result_bind_ok in E.
  injection E as <-. auto.
Qed.

Lemma create_order_response_price env d r :
  _create_order_response env d = Ok r ->
  (or_price r = None <->
   truthy (dict_get d "price") = false \/ exists e, decode_order env d = Raise e).
Proof.
  unfold _create_order_response. intros E.
  destruct (decode_order env d) as [r0|e] eqn:D.
  - injection E as <-. rewrite (decode_order_price env d r0 D).
    split; [auto|]. intros [Hp|[e He]]; [exact Hp|discriminate].
  - split; [eauto|]. intros _. apply (basic_order_shape env d r E).
Qed.

Lemma client_from_wallet_sends_nothing env id (sent : list OrderArgs) :
  preserves (fun w => submitted w = sent) (_get_binance_client_from_wallet env id).
Proof.
  unfold _get_binance_client_from_wallet, get_wallet, dict_copy, dict_pop, alloc.
  repeat first
    [ apply pure_preserves; intros;
      solve [eauto using pure_resolve_credentials, pure_get_binance_client,
               pure_wallet_info_truthy, pure_dict_item, pure_deref]
    | apply preserves_modify; intros ? Hs; exact Hs
    | intros w Hs; exact Hs
    | preserves_step ].
Qed.

Lemma place_order_submitted env side failure sym q id price w :
  submitted (snd (place_order env side failure sym q id price w)) = submitted w \/
  submitted (snd (place_order env side failure sym q id price w)) =
    order_args side sym q price :: submitted w.
Proof.
  unfold place_order, send_order, dict_item. run.
  pose proof (client_from_wallet_sends_nothing env id (submitted w) w eq_refl) as F.
  destruct (_get_binance_client_from_wallet env id w) as [[c|e] w1]; cbn [snd] in F.
  - right. rewrite <- F.
    destruct (create_order (exchange env) c _) as [d|e]; [|reflexivity].
    destruct (d !! "orderId"); [|reflexivity].
    cbv beta iota. destruct (_create_order_response env d); reflexivity.
  - left. exact F.
Qed.

Lemma place_order_ok_inv env side failure sym q id price w r w' :
  place_order env side failure sym q id price w = (Ok r, w') ->
  exists client d,
    submitted w' = order_args side sym q price :: submitted w /\
    create_order (exchange env) client (order_args side sym q price) = Ok d /\
    _create_order_response env d = Ok r.
Proof.
  unfold place_order, send_order, dict_item. intros E. run_in E.
  pose proof (client_from_wallet_sends_nothing env id (submitted w) w eq_refl) as F.
  destruct (_get_binance_client_from_wallet env id w) as [[c|e] w1]; cbn [snd] in F;
    [|discriminate].
  destruct (create_order (exchange env) c _) as [d|e] eqn:C; [|discriminate].
  destruct (d !! "orderId"); [|discriminate].
  cbv beta iota in E. destruct (_create_order_response env d) as [r0|e] eqn:D; [|discriminate].
  injection E as <- <-. exists c, d. rewrite <- F. auto.
Qed.

(** C7, as the code has it: without a price the request is a MARKET order
    with neither price nor time in force, with a price it is a LIMIT order,
    good till cancelled, at that price; a placement sends at most this one
    request; and the record that a placement returns is decoded from the
    exchange's answer, so its price is [None] exactly when the answer has no
    truthy price or could not be decoded, in which case the basic record
    (side BUY, type MARKET, status NEW, no price) is returned whatever was
    sent. *)
Theorem order_request_and_record env side failure sym q id price w :
  (oa_type (order_args side sym q None) = "MARKET" /\
   oa_timeInForce (order_args side sym q None) = None /\
   oa_price (order_args side sym q None) = None) /\
  (forall p,
     oa_type (order_args side sym q (Some p)) = "LIMIT" /\
     oa_timeInForce (order_args side sym q (Some p)) = Some "GTC" /\
     oa_price (order_args side sym q (Some p)) = Some p) /\
  (submitted (snd (place_order env side failure sym q id price w)) = submitted w \/
   submitted (snd (place_order env side failure sym q id price w)) =
     order_args side sym q price :: submitted w) /\
  (forall r w',
     place_order env side failure sym q id price w = (Ok r, w') ->
     exists client d,
       submitted w' = order_args side sym q price :: submitted w /\
       create_order (exchange env) client (order_args side sym q price) = Ok d /\
       _create_order_response env d = Ok r /\
       (or_price r = None <->
        truthy (dict_get d "price") = false \/ exists e, decode_order env d = Raise e) /\
       ((exists e, decode_order env d = Raise e) ->
        or_side r = BUY /\ or_type r = MARKET /\ or_status r = NEW /\
        or_price r = None)).
Proof.
  split; [auto|]. split; [auto|]. split; [apply place_order_submitted|].
  intros r w' E.
  destruct (place_order_ok_inv _ _ _ _ _ _ _ _ _ _ E) as (c & d & S & C & D).
  exists c, d. split; [exact S|]. split; [exact C|]. split; [exact D|]. split.
  - apply create_order_response_price, D.
  - intros [e De]. unfold _create_order_response in D. rewrite De in D.
    destruct (basic_order_shape env d r D) as (Hp & Ht & Hsd & Hst). auto.
Qed.

End Orders.

(** ** A failure inside an iteration *)

Section Loop.
Context `{Fernet} `{Builtins}.

(** What [_execute_strategy] does with a failure of its body: it leaves a
    note and returns. *)
Lemma execute_strategy_swallows env cfg e w w' :
  config (bot_service w) = Some cfg ->
  strategy_body env cfg w = (Raise e, w') ->
  _execute_strategy env w =
    (Ok tt, set_bot (set_last_operation (Some (OpStrategyError (exc_str e)))
                       (bot_service w')) w').
Proof.
  intros Hc E. unfold _execute_strategy. run. rewrite Hc. cbv beta iota.
  rewrite E. reflexivity.
Qed.

(** So the loop never sees it: the turn ends in the wait, and when the wait
    returns the status and the error message are what they were and the loop
    goes on. *)
Lemma loop_turn_goes_on env cfg e w w' :
  stop_event (bot_service w) = false ->
  config (bot_service w) = Some cfg ->
  event_wait (interval_seconds cfg) = Ok tt ->
  strategy_body env cfg w = (Raise e, w') ->
  exists w'',
    loop_turn env w = (Ok true, w'') /\
    status (bot_service w'') = status (bot_service w) /\
    error_message (bot_service w'') = error_message (bot_service w) /\
    bot_thread (bot_service w'') = bot_thread (bot_service w) /\
    last_operation (bot_service w'') = Some (OpStrategyError (exc_str e)).
Proof.
  intros Hs Hc Hw E.
  pose proof (execute_strategy_swallows env cfg e w w' Hc E) as X.
  assert (K : status (bot_service w') = status (bot_service w) /\
              error_message (bot_service w') = error_message (bot_service w) /\
              bot_thread (bot_service w') = bot_thread (bot_service w) /\
              config (bot_service w') = config (bot_service w)).
  { pose proof (keep_strategy_body
                  (fun b => status b = status (bot_service w) /\
                            error_message b = error_message (bot_service w) /\
                            bot_thread b = bot_thread (bot_service w) /\
                            config b = config (bot_service w))) as F.
    specialize (F (fun _ b Hb => Hb) (fun _ b Hb => Hb) (fun _ b Hb => Hb) env cfg w).
    rewrite E in F. apply F. auto. }
  destruct K as (K1 & K2 & K3 & K4).
  eexists. split.
  - unfold loop_turn, turn_body. run. rewrite Hs. cbv beta iota. rewrite Hc.
    cbv beta iota. rewrite X. cbv beta iota.
    cbn [bot_service set_bot config set_last_operation]. rewrite K4, Hc.
    cbv beta iota. rewrite Hw. reflexivity.
  - cbn [bot_service set_bot status error_message bot_thread last_operation
           set_last_operation]. tauto.
Qed.
End Loop.

(** * Further properties *)

(** ** What one iteration does *)

Section Turn.
Context `{Fernet} `{Builtins}.

(** Once the price is known, the rest of the iteration returns: it records
    the price and leaves one note. *)
Lemma record_price_run env cfg current w :
  config (bot_service w) = Some cfg ->
  exists op,
    record_price env cfg current w =
      (Ok tt, set_bot (set_last_operation (Some op)
                         (recorded (utcnow env) current (bot_service w))) w) /\
    (strategy cfg = GRID -> signal_of (Some op) = SigNONE).
Proof.
  intros Hc. unfold record_price. run.
  cbn [bot_service set_bot last_price set_price_history].
  destruct (last_price (bot_service w)) as [x|] eqn:Hl.
  2: { eexists. split; [reflexivity|]. reflexivity. }
  unfold no_last_price. destruct (float_truthy x) eqn:Hx; cbn [negb].
  2: { eexists. split; [reflexivity|]. reflexivity. }
  destruct (strategy cfg).
  - edestruct (simple_strategy_run cfg x current) as (op & E & _);
      [|exact Hx|rewrite E]; [exact Hc|].
    exists op. split; [reflexivity|]. discriminate.
  - rewrite grid_strategy_run by exact Hx. eexists. split; reflexivity.
Qed.

(** The part of the body before the price is recorded only reads. *)
Lemma strategy_body_cases env cfg w :
  config (bot_service w) = Some cfg ->
  (exists e, strategy_body env cfg w = (Raise e, w)) \/
  (exists current op,
     strategy_body env cfg w =
       (Ok tt, set_bot (set_last_operation (Some op)
                          (recorded (utcnow env) current (bot_service w))) w) /\
     (strategy cfg = GRID -> signal_of (Some op) = SigNONE)).
Proof.
  intros Hc. unfold strategy_body. run.
  rewrite (pure_run (resolve_credentials (wallet_id cfg)) w)
    by (intros; apply pure_resolve_credentials).
  destruct (fst (resolve_credentials (wallet_id cfg) w)) as [[[k s] t]|e]; [|eauto].
  rewrite (pure_run (get_binance_client env k s t) w)
    by (intros; apply pure_get_binance_client).
  destruct (fst (get_binance_client env k s t w)) as [c|e]; [|eauto].
  rewrite (pure_run (get_price env c (symbol cfg)) w) by (intros; apply pure_get_price).
  destruct (fst (get_price env c (symbol cfg) w)) as [current|e]; [|eauto].
  right. destruct (record_price_run env cfg current w Hc) as (op & E & G).
  exists current, op. split; [exact E|exact G].
Qed.

Lemma execute_strategy_cases env w :
  (config (bot_service w) = None -> _execute_strategy env w = (Ok tt, w)) /\
  (forall cfg,
     config (bot_service w) = Some cfg ->
     (exists e,
        _execute_strategy env w =
          (Ok tt, set_bot (set_last_operation (Some (OpStrategyError (exc_str e)))
                             (bot_service w)) w)) \/
     (exists current op,
        _execute_strategy env w =
          (Ok tt, set_bot (set_last_operation (Some op)
                             (recorded (utcnow env) current (bot_service w))) w))).
Proof.
  split.
  - intros Hc. unfold _execute_strategy. run. rewrite Hc. reflexivity.
  - intros cfg Hc. unfold _execute_strategy. run. rewrite Hc. cbv beta iota.
    destruct (strategy_body_cases env cfg w Hc) as [[e E]|(c & op & E & _)]; rewrite E.
    + left. exists e. reflexivity.
    + right. exists c, op. reflexivity.
Qed.

(** X1: [_execute_strategy] never raises.  With a configuration it does one
    of two things: it leaves the note of a failure and nothing else, or it
    records the price (history, last price) and leaves one note; without a
    configuration it does nothing. *)
Theorem execute_strategy_never_raises env w :
  (config (bot_service w) = None -> _execute_strategy env w = (Ok tt, w)) /\
  (forall cfg,
     config (bot_service w) = Some cfg ->
     (exists e,
        _execute_strategy env w =
          (Ok tt, set_bot (set_last_operation (Some (OpStrategyError (exc_str e)))
                             (bot_service w)) w)) \/
     (exists current op,
        _execute_strategy env w =
          (Ok tt, set_bot (set_last_operation (Some op)
                             (recorded (utcnow env) current (bot_service w))) w))).
Proof. apply execute_strategy_cases. Qed.
End Turn.

(** ** What holds of the bot in every state *)

Section BotInvariant.
Context `{Fernet} `{Builtins}.

Lemma last_push_history x h : last (push_history x h) = Some x.
Proof.
  unfold push_history.
  destruct (Nat.ltb_spec 100 (length (h ++ [x])%list)) as [Hlt|_].
  - destruct h as [|o r]; [simpl in Hlt; lia|]. cbn [app tail]. apply last_snoc.
  - apply last_snoc.
Qed.

Ltac bot_fields :=
  cbn [error_message config last_price price_history bot_thread state_symbol
         state_wallet_id start_time status stop_event last_operation
         set_last_operation set_last_price set_price_history set_status
         set_stop_event set_bot_thread set_error_message set_config] in *.

Lemma shape_note v cfg b :
  bot_shape b -> config b = Some cfg -> bot_shape (set_last_operation v b).
Proof.
  intros (Hc & Hl) Hcfg. unfold bot_shape. bot_fields. rewrite Hcfg in *. auto.
Qed.

Lemma shape_status v cfg b :
  bot_shape b -> config b = Some cfg -> bot_shape (set_status v b).
Proof.
  intros (Hc & Hl) Hcfg. unfold bot_shape. bot_fields. rewrite Hcfg in *. auto.
Qed.

Lemma shape_stop_event v cfg b :
  bot_shape b -> config b = Some cfg -> bot_shape (set_stop_event v b).
Proof.
  intros (Hc & Hl) Hcfg. unfold bot_shape. bot_fields. rewrite Hcfg in *. auto.
Qed.

Lemma shape_error v cfg b :
  bot_shape b -> config b = Some cfg -> bot_shape (set_error_message v b).
Proof.
  intros (Hc & Hl) Hcfg. unfold bot_shape. bot_fields. rewrite Hcfg in *. auto.
Qed.

Lemma shape_thread t cfg b :
  bot_shape b -> config b = Some cfg -> bot_shape (set_bot_thread (Some t) b).
Proof.
  intros (Hc & Hl) Hcfg. unfold bot_shape. bot_fields. rewrite Hcfg in *.
  destruct Hc as (_ & Hc). repeat split; try tauto. discriminate.
Qed.

Lemma shape_recorded now current op cfg b :
  bot_shape b -> config b = Some cfg ->
  bot_shape (set_last_operation op (recorded now current b)).
Proof.
  intros (Hc & Hl) Hcfg. unfold bot_shape, recorded. bot_fields.
  rewrite Hcfg in *. split.
  - destruct Hc as (A & B & C & D & _). repeat split; try assumption. discriminate.
  - rewrite last_push_history. reflexivity.
Qed.

Lemma bot_ok_alive b :
  bot_ok b -> thread_is_alive (bot_thread b) = true ->
  exists cfg, config b = Some cfg /\ error_message b = None.
Proof.
  intros ([He|(cfg & e & _ & _ & _ & _ & Hd)] & Hc & _) Ha; [|congruence].
  destruct (config b) as [cfg|]; [eauto|]. rewrite Hc in Ha. discriminate.
Qed.

(** An iteration keeps a live bot live. *)
Lemma execute_strategy_live env cfg w :
  live cfg w ->
  exists w', _execute_strategy env w = (Ok tt, w') /\ live cfg w' /\
             status (bot_service w') = status (bot_service w) /\
             stop_event (bot_service w') = stop_event (bot_service w) /\
             bot_thread (bot_service w') = bot_thread (bot_service w).
Proof.
  intros (Hs & Hc & He). destruct (execute_strategy_cases env w) as [_ X].
  destruct (X cfg Hc) as [(e & E)|(c & op & E)]; rewrite E; eexists;
    (split; [reflexivity|]); unfold live; cbn [bot_service set_bot].
  - split; [|auto]. split; [eapply shape_note; eassumption|auto].
  - split; [|auto]. split; [eapply shape_recorded; eassumption|auto].
Qed.

(** The turn after its iteration: it ends in the wait, and goes on or is
    left as the wait returns or raises. *)
Lemma turn_body_run env cfg w w1 :
  config (bot_service w) = Some cfg ->
  _execute_strategy env w = (Ok tt, w1) ->
  config (bot_service w1) = Some cfg ->
  turn_body env w =
    match event_wait (interval_seconds cfg) with
    | Ok _ => (Ok true, w1)
    | Raise e =>
        (Ok false,
         set_bot (set_status ERROR (set_error_message (Some (loop_error e))
                                      (bot_service w1))) w1)
    end.
Proof.
  intros Hc E Hc1. unfold turn_body. run. rewrite Hc. cbv beta iota.
  rewrite E. cbv beta iota. rewrite Hc1. cbv beta iota.
  destruct (event_wait (interval_seconds cfg)) as [[]|e]; [reflexivity|].
  destruct e; reflexivity.
Qed.

Lemma turn_body_cases env cfg w :
  live cfg w ->
  exists go_on w',
    turn_body env w = (Ok go_on, w') /\
    (if go_on then live cfg w' else failed cfg w').
Proof.
  intros Hw. destruct (execute_strategy_live env cfg w Hw)
    as (w1 & E & (Hs1 & Hc1 & He1) & _).
  rewrite (turn_body_run env cfg w w1 (proj1 (proj2 Hw)) E Hc1).
  destruct (event_wait (interval_seconds cfg)) as [[]|e] eqn:Ew.
  - exists true, w1. split; [reflexivity|]. split; [exact Hs1|split; assumption].
  - eexists false, _. split; [reflexivity|]. unfold failed. cbn [bot_service set_bot].
    split; [eapply shape_status; [eapply shape_error; eassumption|exact Hc1]|].
    split; [exact Hc1|]. exists e. auto.
Qed.

Lemma loop_turn_cases env cfg w :
  live cfg w ->
  exists go_on w',
    loop_turn env w = (Ok go_on, w') /\
    (if go_on then live cfg w' else live cfg w' \/ failed cfg w').
Proof.
  intros Hw. unfold loop_turn. run.
  destruct (stop_event (bot_service w)).
  - exists false, w. split; [reflexivity|left; exact Hw].
  - destruct (turn_body_cases env cfg w Hw) as ([|] & w' & E & Hw'); rewrite E.
    + exists true, w'. split; [reflexivity|exact Hw'].
    + exists false, w'. split; [reflexivity|right; exact Hw'].
Qed.

Lemma loop_turns_cases envs cfg w :
  live cfg w ->
  exists left w',
    loop_turns envs w = (Ok left, w') /\
    (if left then live cfg w' \/ failed cfg w' else live cfg w').
Proof.
  revert w. induction envs as [|env envs IH]; intros w Hw.
  - exists false, w. split; [reflexivity|exact Hw].
  - cbn [loop_turns]. rewrite bind_run.
    destruct (loop_turn_cases env cfg w Hw) as ([|] & w1 & E & Hw1); rewrite E.
    + apply IH, Hw1.
    + exists true, w1. split; [reflexivity|exact Hw1].
Qed.

Lemma late_turn_cases envs cfg w :
  live cfg w ->
  exists left w',
    late_turn envs w = (Ok left, w') /\
    (if left then live cfg w' \/ failed cfg w' else live cfg w').
Proof.
  intros Hw. destruct envs as [|env envs].
  - exists false, w. split; [reflexivity|exact Hw].
  - cbn [late_turn]. rewrite bind_run.
    destruct (turn_body_cases env cfg w Hw) as ([|] & w1 & E & Hw1); rewrite E.
    + exists true, w1. split; [reflexivity|left; exact Hw1].
    + exists true, w1. split; [reflexivity|right; exact Hw1].
Qed.

(** The end of the thread: the status is ERROR unless it was STOPPED, and
    the thread is dead. *)
Lemma thread_target_ok (loop : M bool) cfg w (out : bool) w1 :
  loop w = (Ok out, w1) ->
  (if out then live cfg w1 \/ failed cfg w1 else live cfg w1) ->
  exists w', thread_target loop w = (Ok out, w') /\ bot_ok (bot_service w').
Proof.
  intros E Hw1. unfold thread_target. run. rewrite E.
  destruct out.
  2: { exists w1. split; [reflexivity|]. destruct Hw1 as (Hs & _ & He).
       split; [left; exact He|exact Hs]. }
  eexists. split; [reflexivity|]. cbn [bot_service set_bot].
  destruct Hw1 as [(Hs & Hc & He)|(Hs & Hc & e & Ew & He & Hst)].
  - split.
    + left. destruct (status (bot_service w1)); exact He.
    + eapply shape_thread; [|destruct (status (bot_service w1)); exact Hc].
      destruct (status (bot_service w1)); try exact Hs; eapply shape_status; eassumption.
  - rewrite Hst. split.
    + right. exists cfg, e. bot_fields. auto.
    + eapply shape_thread; [eapply shape_status; eassumption|exact Hc].
Qed.

Lemma thread_runs_ok envs w :
  bot_ok (bot_service w) ->
  exists left w', thread_runs envs w = (Ok left, w') /\ bot_ok (bot_service w').
Proof.
  intros Hb. unfold thread_runs. run.
  destruct (thread_is_alive (bot_thread (bot_service w))) eqn:Ha; [|eauto].
  destruct (bot_ok_alive _ Hb Ha) as (cfg & Hc & He).
  assert (Hw : live cfg w) by (split; [exact (proj2 Hb)|auto]).
  destruct (stop_event (bot_service w)).
  - destruct (late_turn_cases envs cfg w Hw) as (left & w1 & E & Hw1).
    destruct (thread_target_ok _ cfg w left w1 E Hw1) as (w' & E' & Hb'). eauto.
  - destruct (loop_turns_cases envs cfg w Hw) as (left & w1 & E & Hw1).
    destruct (thread_target_ok _ cfg w left w1 E Hw1) as (w' & E' & Hb').
    exists left, w'. split; [exact E'|exact Hb'].
Qed.

Lemma stop_alive env joined w :
  thread_is_alive (bot_thread (bot_service w)) = true ->
  stop env joined w = (Ok true, set_bot (stopped_bot joined (bot_service w)) w).
Proof.
  intros Ha. unfold stop, _run_bot_loop, thread_target, loop_turns, loop_turn. run.
  rewrite Ha. cbn [negb]. cbv beta iota. destruct joined; [|reflexivity].
  cbn [bot_service set_bot stop_event set_stop_event]. cbv beta iota.
  cbn [bot_service set_bot status set_stop_event].
  destruct (status (bot_service w)); reflexivity.
Qed.

(** [stop], on a bot that is in order. *)
Lemma stop_ok env joined w :
  bot_ok (bot_service w) ->
  exists r w', stop env joined w = (Ok r, w') /\ bot_ok (bot_service w').
Proof.
  intros Hb. destruct (thread_is_alive (bot_thread (bot_service w))) eqn:Ha.
  - rewrite (stop_alive env joined w Ha). eexists _, _. split; [reflexivity|].
    destruct (bot_ok_alive _ Hb Ha) as (cfg & Hc & He). destruct Hb as [_ Hs].
    cbn [bot_service set_bot]. unfold stopped_bot. split.
    + left. destruct joined; exact He.
    + eapply shape_note; [eapply shape_status|]; destruct joined; bot_fields;
        try exact Hc;
        try (eapply shape_thread; [|exact Hc]);
        eapply shape_stop_event; eassumption.
  - exists false, w. split; [|exact Hb]. unfold stop. run. rewrite Ha. reflexivity.
Qed.

Lemma started_bot_ok env cfg probe : bot_ok (started_bot env cfg probe).
Proof.
  split; [left; reflexivity|]. unfold bot_shape, started_bot. simpl.
  repeat split; discriminate.
Qed.

Lemma event_bot_ok e w : bot_ok (bot_service w) -> bot_ok (bot_service (run_event e w)).
Proof.
  intros Hb. destruct e; cbn [run_event].
  - apply (frame_connect_wallet bot_ok); exact Hb.
  - apply (frame_get_wallet bot_ok); exact Hb.
  - apply (frame_get_wallet_balance bot_ok); exact Hb.
  - apply (frame_place_order bot_ok); exact Hb.
  - apply (frame_place_order bot_ok); exact Hb.
  - destruct (start env cfg w) as [[r|e] w'] eqn:E; cbn [snd].
    + destruct (start_ok_inv _ _ _ _ _ E) as (probe & _ & ->). apply started_bot_ok.
    + rewrite (start_raise_frame _ _ _ _ _ E). exact Hb.
  - destruct (stop_ok env joined w Hb) as (r & w' & E & Hb'). rewrite E. exact Hb'.
  - exact Hb.
  - destruct (thread_runs_ok envs w Hb) as (r & w' & E & Hb'). rewrite E. exact Hb'.
Qed.

Lemma reachable_bot_ok w : reachable w -> bot_ok (bot_service w).
Proof.
  intros (key & es & ->).
  apply (run_events_invariant (fun w => bot_ok (bot_service w))).
  - apply event_bot_ok.
  - split; [left; reflexivity|]. unfold bot_shape. simpl. auto.
Qed.

(** X2: the error message is set in one way only.  In every state the
    process can reach, either [error_message] is [None], or the wait that ends
    a turn raised on the configured interval (as [Event.wait] does on an
    interval above [threading.TIMEOUT_MAX], which the validators accept): then
    the message is that of the loop's handler for this exception, the status
    is ERROR and the thread is dead.  So with an interval on which the wait
    returns the message is never set; and a bot whose thread was launched has
    a configuration.  The other branches of the loop that would set the
    message (no configuration, an exception out of the iteration, the outer
    handler) are never taken. *)
Theorem error_message_only_from_wait w :
  reachable w ->
  (error_message (bot_service w) = None \/
   exists cfg e,
     config (bot_service w) = Some cfg /\
     event_wait (interval_seconds cfg) = Raise e /\
     error_message (bot_service w) = Some (loop_error e) /\
     status (bot_service w) = ERROR /\
     thread_is_alive (bot_thread (bot_service w)) = false) /\
  (forall cfg, config (bot_service w) = Some cfg ->
               event_wait (interval_seconds cfg) = Ok tt ->
               error_message (bot_service w) = None) /\
  (bot_thread (bot_service w) <> None -> config (bot_service w) <> None).
Proof.
  intros Hr. destruct (reachable_bot_ok w Hr) as (He & Hc & _).
  split; [exact He|]. split.
  - intros cfg Hcfg Hw. destruct He as [He|(cfg' & e & Hc' & Ew & _)]; [exact He|].
    rewrite Hcfg in Hc'. injection Hc' as <-. rewrite Hw in Ew. discriminate.
  - intros Ht Hn. rewrite Hn in Hc. rewrite Hc in Ht. apply Ht. reflexivity.
Qed.

(** X3: what the status query shows is consistent.  Until a [start] has
    succeeded the bot is in its initial state; afterwards the symbol and the
    wallet id of the state are those of the configuration, and a start time
    and a last price are set. *)
Theorem status_snapshot_consistent w :
  reachable w ->
  match config (bot_service w) with
  | None => bot_service w = bot_init
  | Some cfg =>
      state_symbol (bot_service w) = Some (symbol cfg) /\
      state_wallet_id (bot_service w) = Some (wallet_id cfg) /\
      start_time (bot_service w) <> None /\ last_price (bot_service w) <> None
  end.
Proof.
  intros Hr. destruct (reachable_bot_ok w Hr) as (_ & Hc & _).
  destruct (config (bot_service w)); [tauto|exact Hc].
Qed.

(** X4: whenever the history is not empty, the last price is the price of
    its newest sample. *)
Theorem last_price_is_newest_sample w :
  reachable w ->
  forall s, last (price_history (bot_service w)) = Some s ->
            last_price (bot_service w) = Some (price s).
Proof.
  intros Hr s Hs. destruct (reachable_bot_ok w Hr) as (_ & _ & Hl).
  rewrite Hs in Hl. exact Hl.
Qed.

End BotInvariant.

(** ** Stopping and starting again *)

Section StopStart.
Context `{Fernet} `{Builtins}.


(** X6: a stop whose wait timed out does not cancel the turn in flight.
    The thread was inside a turn; that turn ends after [stop] has returned:
    its iteration runs, with what it writes (the history, the last price, the
    note, which replaces the note of the stop), its wait returns, the loop is
    left, and the thread is dead.  The status stays STOPPED, the event stays
    set, and no further iteration is made, whatever environments follow. *)
Theorem late_turn_after_stop env w cfg :
  thread_is_alive (bot_thread (bot_service w)) = true ->
  config (bot_service w) = Some cfg ->
  event_wait (interval_seconds cfg) = Ok tt ->
  forall env2 envs,
    exists w2,
      _execute_strategy env2 (snd (stop env false w)) = (Ok tt, w2) /\
      thread_runs (env2 :: envs) (snd (stop env false w)) =
        (Ok true,
         set_bot (set_bot_thread (Some {| alive := false |}) (bot_service w2)) w2) /\
      status (bot_service w2) = STOPPED /\
      stop_event (bot_service w2) = true /\
      config (bot_service w2) = Some cfg.
Proof.
  intros Ha Hc Hw env2 envs. rewrite (stop_alive env false w Ha). cbn [snd].
  set (w1 := set_bot (stopped_bot false (bot_service w)) w).
  assert (Hc1 : config (bot_service w1) = Some cfg) by exact Hc.
  assert (K : exists w2,
             _execute_strategy env2 w1 = (Ok tt, w2) /\
             status (bot_service w2) = STOPPED /\
             stop_event (bot_service w2) = true /\
             config (bot_service w2) = Some cfg /\
             bot_thread (bot_service w2) = bot_thread (bot_service w)).
  { destruct (execute_strategy_cases env2 w1) as [_ X].
    destruct (X cfg Hc1) as [(e & E)|(c & op & E)]; rewrite E; eexists;
      (split; [reflexivity|]); cbn; auto. }
  destruct K as (w2 & E & Hst & Hse & Hc2 & Ht). exists w2.
  split; [exact E|]. split; [|auto].
  unfold thread_runs, thread_target, late_turn. run.
  change (thread_is_alive (bot_thread (bot_service w1)))
    with (thread_is_alive (bot_thread (bot_service w))).
  rewrite Ha. change (stop_event (bot_service w1)) with true. cbv beta iota.
  rewrite (turn_body_run env2 cfg w1 w2 Hc1 E Hc2), Hw. cbv beta iota.
  rewrite Hst. reflexivity.
Qed.

Lemma start_succeeds env cfg w o wa wb probe wc :
  thread_is_alive (bot_thread (bot_service w)) = false ->
  get_wallet (wallet_id cfg) w = (Ok o, wa) ->
  wallet_info_truthy o wa = (Ok true, wb) ->
  start_probe env cfg wb = (Ok probe, wc) ->
  start env cfg w = (Ok true, set_bot (started_bot env cfg probe) wc).
Proof.
  intros Ha E1 E2 E3. unfold start. run. rewrite Ha, E1. cbv beta iota.
  rewrite E2. cbn [negb]. cbv beta iota. rewrite E3. cbv beta iota.
  apply start_commit_run.
Qed.

(** X7: starting again after a stop.  If the thread ended within the wait
    of [stop], the next [start] is not refused: when the wallet is found and
    the probe answers, it returns [True] and the bot is that of a fresh run
    (event cleared, empty history, no error).  If the wait timed out, the
    next [start] is refused as already running. *)
Theorem start_after_stop env env2 cfg w :
  thread_is_alive (bot_thread (bot_service w)) = true ->
  start env2 cfg (snd (stop env false w)) =
    (Raise (ValueError "O bot já está em execução"), snd (stop env false w)) /\
  (forall o wa wb probe wc,
     get_wallet (wallet_id cfg) (snd (stop env true w)) = (Ok o, wa) ->
     wallet_info_truthy o wa = (Ok true, wb) ->
     start_probe env2 cfg wb = (Ok probe, wc) ->
     start env2 cfg (snd (stop env true w)) =
       (Ok true, set_bot (started_bot env2 cfg probe) wc)).
Proof.
  intros Ha. split.
  - apply start_alive. rewrite (stop_alive env false w Ha).
    cbn [snd bot_service set_bot]. unfold stopped_bot.
    cbn [bot_thread set_last_operation set_status set_stop_event]. exact Ha.
  - intros o wa wb probe wc. apply start_succeeds.
    rewrite (stop_alive env true w Ha). reflexivity.
Qed.

(** X8: the GRID strategy never announces a signal: whatever the prices
    and whatever the exchange answers, after an iteration under a GRID
    configuration the note is not a buy or sell signal. *)
Theorem grid_never_signals env cfg w :
  config (bot_service w) = Some cfg ->
  strategy cfg = GRID ->
  signal_of (last_operation (bot_service (snd (_execute_strategy env w)))) = SigNONE.
Proof.
  intros Hc Hg. unfold _execute_strategy. run. rewrite Hc. cbv beta iota.
  destruct (strategy_body_cases env cfg w Hc) as [[e E]|(c & op & E & G)]; rewrite E.
  - reflexivity.
  - cbn [snd bot_service set_bot last_operation set_last_operation]. apply G, Hg.
Qed.

End StopStart.

(** ** More on the vault *)

Section VaultMore.
Context `{Fernet} `{Builtins}.

Lemma new_record_items key env k s n t :
  new_record key env k s n t !! "api_key" = Some (PStr (fernet_encrypt key k)) /\
  new_record key env k s n t !! "api_secret" = Some (PStr (fernet_encrypt key s)) /\
  new_record key env k s n t !! "use_testnet" = Some (PBool t).
Proof. repeat split; reflexivity. Qed.

Lemma stored_world_resolved env k s n t w :
  resolved (wallet_service (stored_world env k s n t w))
    (heap (stored_world env k s n t w)) (derive_wallet_id k) =
  (vk ← decrypted (encryption_key (wallet_service w))
         (PStr (fernet_encrypt (encryption_key (wallet_service w)) k));
   vs ← decrypted (encryption_key (wallet_service w))
         (PStr (fernet_encrypt (encryption_key (wallet_service w)) s));
   Ok (vk, vs, PBool t)).
Proof.
  unfold resolved, stored_world.
  cbn [wallets wallet_service set_wallets set_heap heap encryption_key].
  rewrite !lookup_insert_eq. unfold item_of.
  destruct (new_record_items (encryption_key (wallet_service w)) env k s n t)
    as (-> & -> & ->).
  rewrite result_bind_ok.
  destruct (decrypted _ (PStr (fernet_encrypt _ k))); [|reflexivity].
  rewrite !result_bind_ok.
  destruct (decrypted _ (PStr (fernet_encrypt _ s))); reflexivity.
Qed.

(** X9: what was connected can be resolved.  With a cipher that opens its
    own tokens, after a successful [connect_wallet] the credentials resolved
    under the derived id are the key, the secret and the testnet flag that
    were given. *)
Theorem connect_then_resolve env k s n t w w1 :
  (forall key x, fernet_decrypt key (fernet_encrypt key x) = Some x) ->
  connect_wallet env k s n t w = (Ok true, w1) ->
  resolve_credentials (derive_wallet_id k) w1 = (Ok (k, s, PBool t), w1).
Proof.
  intros Hrt E. apply connect_wallet_inv in E. subst w1.
  rewrite resolve_credentials_run, stored_world_resolved.
  unfold decrypted. rewrite !Hrt. reflexivity.
Qed.

Lemma test_connection_cases env c w :
  test_connection env c w = (Ok true, w) \/
  exists e, test_connection env c w = (Raise e, w).
Proof.
  unfold test_connection, try_except_lib. run.
  destruct (ping (exchange env) c) as [[]|e]; [auto|].
  right. destruct e; eauto.
Qed.

Lemma connect_wallet_result env k s n t w :
  (exists e,
     connect_wallet env k s n t w =
       (Raise (BinanceAPIException ("Erro ao conectar à carteira: " +:+ exc_str e)), w)) \/
  connect_wallet env k s n t w = (Ok true, stored_world env k s n t w).
Proof.
  unfold connect_wallet, _encrypt, alloc. run.
  rewrite (pure_run (get_binance_client env k s (PBool t)) w)
    by (intros; apply pure_get_binance_client).
  destruct (fst (get_binance_client env k s (PBool t) w)) as [c|e]; [|eauto].
  destruct (test_connection_cases env c w) as [E|[e E]]; rewrite E; eauto.
Qed.

(** X10: [connect_wallet] never returns [False].  Either it raises a
    [BinanceAPIException] with the connection message and the process is
    what it was, or it returns [True] and the wallet is stored. *)
Theorem connect_wallet_outcomes env k s n t w :
  (exists e,
     connect_wallet env k s n t w =
       (Raise (BinanceAPIException ("Erro ao conectar à carteira: " +:+ exc_str e)), w)) \/
  connect_wallet env k s n t w = (Ok true, stored_world env k s n t w).
Proof. apply connect_wallet_result. Qed.

(** X11: connecting a wallet does not disturb the others.  In a well-formed
    vault, credential resolution for every id other than the derived one
    gives after [connect_wallet] what it gave before, whatever the call's
    outcome. *)
Theorem connect_wallet_frames_others env k s n t w id :
  vault_ok w ->
  id <> derive_wallet_id k ->
  fst (resolve_credentials id (snd (connect_wallet env k s n t w))) =
  fst (resolve_credentials id w).
Proof.
  intros Hv Hne. destruct (connect_wallet_cases env k s n t w) as [[r E]|E]; rewrite E.
  - reflexivity.
  - cbn [snd]. rewrite !resolve_credentials_run. cbn [fst].
    unfold resolved, stored_world.
    cbn [wallets wallet_service set_wallets set_heap heap encryption_key].
    rewrite lookup_insert_ne by congruence.
    destruct (wallets (wallet_service w) !! id) as [l|] eqn:Hi; [|reflexivity].
    destruct (Hv id l Hi) as (d & Hl & _).
    rewrite lookup_insert_ne by (eapply fresh_ne, Hl). reflexivity.
Qed.

(** X12: the projection that [get_wallet] returns never holds the secrets.
    For an unknown id it returns [None] and changes nothing.  For a stored
    wallet of a well-formed vault it returns a new object, not one that
    existed, whose items are those of the record without ["api_key"] and
    ["api_secret"]. *)
Theorem get_wallet_projection id w :
  vault_ok w ->
  (wallets (wallet_service w) !! id = None -> get_wallet id w = (Ok None, w)) /\
  (forall l d,
     wallets (wallet_service w) !! id = Some l -> heap w !! l = Some d ->
     exists l' w' d',
       get_wallet id w = (Ok (Some l'), w') /\
       heap w !! l' = None /\ heap w' !! l' = Some d' /\
       d' !! "api_key" = None /\ d' !! "api_secret" = None /\
       forall key, key <> "api_key" -> key <> "api_secret" -> d' !! key = d !! key).
Proof.
  intros Hv. split.
  - intros Hi. unfold get_wallet. run. rewrite Hi. reflexivity.
  - intros l d Hi Hl. destruct (Hv id l Hi) as (d0 & Hl0 & Hd).
    rewrite Hl in Hl0. injection Hl0 as <-.
    destruct (wallet_record_items d Hd) as (k & s & t & Hk & Hs & _).
    rewrite (get_wallet_found w id l d _ _ Hi Hl Hk Hs).
    eexists _, _, _. split; [reflexivity|]. split; [apply fresh_heap|].
    cbn [heap set_heap]. split; [apply lookup_insert_eq|]. split; [|split].
    + rewrite lookup_delete_ne by discriminate. apply lookup_delete_eq.
    + apply lookup_delete_eq.
    + intros key H1 H2. rewrite !lookup_delete_ne by congruence. reflexivity.
Qed.

End VaultMore.

(** ** Listing wallets and balances *)

Section Listing.
Context `{Fernet} `{Builtins}.

Lemma wallet_entry_run id l d w :
  heap w !! l = Some d -> wallet_record d ->
  exists e, wallet_entry id l w = (Ok e, w) /\ lists id d e.
Proof.
  intros Hl (k & s & name & t & at_ & ->). unfold wallet_entry.
  rewrite bind_run, ref_item_run, Hl. cbv beta iota.
  change (item_of _ "name") with (Ok (PStr name)). cbv beta iota.
  rewrite bind_run, ref_item_run, Hl.
  change (item_of _ "use_testnet") with (Ok (PBool t)). cbv beta iota.
  rewrite bind_run, ref_item_run, Hl.
  change (item_of _ "connected_at") with (Ok (PStr at_)). cbv beta iota.
  eexists. split; [reflexivity|]. repeat split; reflexivity.
Qed.

Lemma list_wallets_run items w :
  vault_ok w ->
  Forall (fun it => wallets (wallet_service w) !! it.1 = Some it.2) items ->
  exists entries,
    list_wallets items w = (Ok entries, w) /\
    Forall2 (fun it e => exists d, heap w !! it.2 = Some d /\ lists it.1 d e) items entries.
Proof.
  intros Hv. induction items as [|[id l] items IH]; intros Hall.
  - exists []. split; [reflexivity|constructor].
  - apply Forall_cons in Hall as [Hi Hall]. cbn [fst snd] in Hi.
    destruct (Hv id l Hi) as (d & Hl & Hd).
    destruct (wallet_entry_run id l d w Hl Hd) as (e & E & L).
    destruct (IH Hall) as (entries & E' & L').
    exists (e :: entries). split.
    + cbn [list_wallets]. rewrite bind_run, E. cbv beta iota.
      rewrite bind_run, E'. reflexivity.
    + constructor; [|exact L']. exists d. cbn [fst snd]. auto.
Qed.

(** X13: the listing has one entry for each stored wallet and no secrets.
    In a well-formed vault, in whatever order the dictionary yields its
    items, [list_wallets] returns, changes nothing, and its entries carry, in
    that order, the id, name, testnet flag and connection time of each stored
    record and neither of its tokens. *)
Theorem list_wallets_entries items w :
  vault_ok w ->
  items ≡ₚ map_to_list (wallets (wallet_service w)) ->
  exists entries,
    list_wallets items w = (Ok entries, w) /\
    length entries = size (wallets (wallet_service w)) /\
    Forall2 (fun it e => exists d, heap w !! it.2 = Some d /\ lists it.1 d e) items entries.
Proof.
  intros Hv Hp.
  destruct (list_wallets_run items w Hv) as (entries & E & L).
  - apply Forall_forall. intros [id l] Hin. cbn [fst snd].
    apply elem_of_map_to_list. rewrite <- Hp. exact Hin.
  - exists entries. split; [exact E|]. split; [|exact L].
    rewrite <- (Forall2_length _ _ _ L), Hp. apply length_map_to_list.
Qed.

Lemma collect_balances_run raw w :
  exists r, collect_balances raw w = (r, w) /\
            forall bs, r = Ok bs -> Forall (fun b => has_funds b = true) bs /\
                                    (length bs <= length raw)%nat.
Proof.
  induction raw as [|balance raw (r & E & IH)].
  - exists (Ok []). split; [reflexivity|]. intros bs [= <-]. split; [constructor|reflexivity].
  - cbn [collect_balances]. unfold dict_item. run.
    destruct (balance !! "free") as [f|]; [|eexists; split; [reflexivity|discriminate]].
    destruct (py_float f) as [free|]; [|eexists; split; [reflexivity|discriminate]].
    destruct (balance !! "locked") as [l|]; [|eexists; split; [reflexivity|discriminate]].
    destruct (py_float l) as [locked|]; [|eexists; split; [reflexivity|discriminate]].
    cbv beta iota.
    destruct (PrimFloat.ltb 0 free || PrimFloat.ltb 0 locked) eqn:Hf.
    + destruct (balance !! "asset") as [a|]; [|eexists; split; [reflexivity|discriminate]].
      destruct a; try (eexists; split; [reflexivity|discriminate]).
      cbv beta iota. rewrite E. destruct r as [tl|e].
      * eexists. split; [reflexivity|]. intros bs [= <-].
        destruct (IH tl eq_refl) as [A B]. split; [constructor; [exact Hf|exact A]|].
        simpl. lia.
      * eexists. split; [reflexivity|discriminate].
    + rewrite E. exists r. split; [reflexivity|]. intros bs Hr.
      destruct (IH bs Hr) as [A B]. split; [exact A|]. simpl. lia.
Qed.

Lemma get_wallet_balance_run env id w :
  exists r,
    get_wallet_balance env id w = (r, w) /\
    (wallets (wallet_service w) !! id = None ->
     r = Raise (ValueError "Carteira não encontrada ou não conectada")) /\
    (wallets (wallet_service w) !! id <> None ->
     forall e, r = Raise e -> exists e0,
       e = BinanceAPIException ("Erro ao obter saldo da carteira: " +:+ exc_str e0)) /\
    (forall bs, r = Ok bs -> Forall (fun b => has_funds b = true) bs).
Proof.
  unfold get_wallet_balance. run.
  destruct (wallets (wallet_service w) !! id) as [l|] eqn:Hi.
  2: { eexists. split; [reflexivity|]. split; [reflexivity|].
       split; [congruence|discriminate]. }
  cbv beta iota.
  rewrite (pure_run (resolve_credentials id) w) by (intros; apply pure_resolve_credentials).
  destruct (fst (resolve_credentials id w)) as [[[k s] t]|e0].
  2: { eexists. split; [reflexivity|]. split; [discriminate|].
       split; [|discriminate]. intros _ e [= <-]. eauto. }
  rewrite (pure_run (get_binance_client env k s t) w)
    by (intros; apply pure_get_binance_client).
  destruct (fst (get_binance_client env k s t w)) as [c|e0].
  2: { eexists. split; [reflexivity|]. split; [discriminate|].
       split; [|discriminate]. intros _ e [= <-]. eauto. }
  destruct (get_account_balances (exchange env) c) as [raw|e0].
  2: { eexists. split; [reflexivity|]. split; [discriminate|].
       split; [|discriminate]. intros _ e [= <-]. eauto. }
  destruct (collect_balances_run raw w) as (r & E & B). rewrite E.
  destruct r as [bs|e0].
  - eexists. split; [reflexivity|]. split; [discriminate|].
    split; [discriminate|]. intros bs' [= <-]. apply (B bs eq_refl).
  - eexists. split; [reflexivity|]. split; [discriminate|].
    split; [|discriminate]. intros _ e [= <-]. eauto.
Qed.

(** X14: the balance lookup only reads.  Whatever its outcome the process
    is what it was.  For an id that is not stored it raises the [ValueError]
    of an unknown wallet; every other failure is a [BinanceAPIException]; and
    every balance it returns has a positive free or locked amount, their
    number being at most that of the account's entries. *)
Theorem get_wallet_balance_outcomes env id w :
  exists r,
    get_wallet_balance env id w = (r, w) /\
    (wallets (wallet_service w) !! id = None ->
     r = Raise (ValueError "Carteira não encontrada ou não conectada")) /\
    (wallets (wallet_service w) !! id <> None ->
     forall e, r = Raise e -> exists e0,
       e = BinanceAPIException ("Erro ao obter saldo da carteira: " +:+ exc_str e0)) /\
    (forall bs, r = Ok bs -> Forall (fun b => has_funds b = true) bs).
Proof. apply get_wallet_balance_run. Qed.

End Listing.

(** ** Wallet ids *)

Section WalletIds.

Lemma b64_digit_index n :
  (n < 64)%N ->
  Text.b64_digit n <> "="%char /\
  forall m, (m < 64)%N -> Text.b64_digit m = Text.b64_digit n -> m = n.
Proof.
  intros Hn.
  assert (Hall : forallb (fun a =>
            negb (Ascii.eqb (Text.b64_digit a) "=") &&
            forallb (fun b => implb (Ascii.eqb (Text.b64_digit b) (Text.b64_digit a))
                                    (N.eqb b a))
                    (map N.of_nat (seq 0 64)))
          (map N.of_nat (seq 0 64)) = true) by (vm_compute; reflexivity).
  assert (Hin : forall k, (k < 64)%N -> In k (map N.of_nat (seq 0 64))).
  { intros k Hk. apply in_map_iff. exists (N.to_nat k). split; [lia|].
    apply in_seq. lia. }
  rewrite forallb_forall in Hall. specialize (Hall n (Hin n Hn)).
  apply andb_true_iff in Hall as [Hp Hq]. split.
  - intros E. rewrite E in Hp. discriminate.
  - intros m Hm E. rewrite forallb_forall in Hq. specialize (Hq m (Hin m Hm)).
    rewrite E, Ascii.eqb_refl in Hq. apply N.eqb_eq. exact Hq.
Qed.

Lemma N_of_ascii_bound a : (N_of_ascii a < 256)%N.
Proof. destruct a as [[] [] [] [] [] [] [] []]; vm_compute; reflexivity. Qed.

Lemma N_of_ascii_inj a b : N_of_ascii a = N_of_ascii b -> a = b.
Proof. intros E. rewrite <- (ascii_N_embedding a), <- (ascii_N_embedding b), E. reflexivity. Qed.

Lemma b64_digit_eq m n :
  (m < 64)%N -> (n < 64)%N -> Text.b64_digit m = Text.b64_digit n -> m = n.
Proof. intros Hm Hn. apply (b64_digit_index n Hn); exact Hm. Qed.

Lemma b64_digit_pad n : (n < 64)%N -> Text.b64_digit n <> "="%char.
Proof. intros Hn. apply (b64_digit_index n Hn). Qed.

Lemma b64_group (x y : N) :
  (x < 16777216)%N -> (y < 16777216)%N ->
  (x / 262144 = y / 262144)%N ->
  ((x / 4096) mod 64 = (y / 4096) mod 64)%N ->
  ((x / 64) mod 64 = (y / 64) mod 64)%N ->
  (x mod 64 = y mod 64)%N -> x = y.
Proof.
  intros _ _ E1 E2 E3 E4.
  assert (D : forall z, (z = 64 * (64 * (64 * (z / 262144) + (z / 4096) mod 64)
                            + (z / 64) mod 64) + z mod 64)%N).
  { intros z.
    rewrite (N.div_mod z 64) at 1 by discriminate.
    rewrite (N.div_mod (z / 64) 64) at 1 by discriminate.
    rewrite (N.div_mod (z / 64 / 64) 64) at 1 by discriminate.
    rewrite !N.Div0.div_div. reflexivity. }
  rewrite (D x), (D y), E1, E2, E3, E4. reflexivity.
Qed.

Lemma b64_bytes (a b c a' b' c' : ascii) :
  let x := (N_of_ascii a * 65536 + N_of_ascii b * 256 + N_of_ascii c)%N in
  let y := (N_of_ascii a' * 65536 + N_of_ascii b' * 256 + N_of_ascii c')%N in
  Text.b64_digit (x / 262144) = Text.b64_digit (y / 262144) ->
  Text.b64_digit ((x / 4096) mod 64) = Text.b64_digit ((y / 4096) mod 64) ->
  Text.b64_digit ((x / 64) mod 64) = Text.b64_digit ((y / 64) mod 64) ->
  Text.b64_digit (x mod 64) = Text.b64_digit (y mod 64) ->
  a = a' /\ b = b' /\ c = c'.
Proof.
  intros x y E1 E2 E3 E4.
  pose proof (N_of_ascii_bound a). pose proof (N_of_ascii_bound b).
  pose proof (N_of_ascii_bound c). pose proof (N_of_ascii_bound a').
  pose proof (N_of_ascii_bound b'). pose proof (N_of_ascii_bound c').
  assert (Hx : (x < 16777216)%N) by (subst x; lia).
  assert (Hy : (y < 16777216)%N) by (subst y; lia).
  assert (Hd : forall z, (z < 16777216)%N -> (z / 262144 < 64)%N).
  { intros z Hz. apply N.Div0.div_lt_upper_bound. exact Hz. }
  assert (Hm : forall z, (z mod 64 < 64)%N) by (intros z; apply N.mod_lt; discriminate).
  apply b64_digit_eq in E1; [|apply Hd; assumption|apply Hd; assumption].
  apply b64_digit_eq in E2; [|apply Hm|apply Hm].
  apply b64_digit_eq in E3; [|apply Hm|apply Hm].
  apply b64_digit_eq in E4; [|apply Hm|apply Hm].
  pose proof (b64_group x y Hx Hy E1 E2 E3 E4) as E. subst x y.
  assert (N_of_ascii a = N_of_ascii a' /\ N_of_ascii b = N_of_ascii b' /\
          N_of_ascii c = N_of_ascii c') as (Ea & Eb & Ec) by lia.
  auto using N_of_ascii_inj.
Qed.

Lemma b64_pad3 (a : N) : (((a * 65536) / 64) mod 64 = 0)%N.
Proof.
  replace (a * 65536)%N with (a * 1024 * 64)%N by lia.
  rewrite N.div_mul by discriminate.
  replace (a * 1024)%N with (a * 16 * 64)%N by lia. apply N.Div0.mod_mul.
Qed.

Lemma b64_pad4 (a b : N) : ((a * 65536 + b * 256) mod 64 = 0)%N.
Proof.
  replace (a * 65536 + b * 256)%N with ((a * 1024 + b * 4) * 64)%N by lia.
  apply N.Div0.mod_mul.
Qed.

Lemma b64encode_inj_bounded n s1 s2 :
  (String.length s1 <= n)%nat ->
  Text.b64encode s1 = Text.b64encode s2 -> s1 = s2.
Proof.
  revert s1 s2. induction n as [n IH] using lt_wf_ind. intros s1 s2 Hn E.
  assert (Q : forall z, Text.b64_digit (z mod 64) <> "="%char).
  { intros z. apply b64_digit_pad, N.mod_lt. discriminate. }
  destruct s1 as [|a [|b [|c r]]]; destruct s2 as [|a' [|b' [|c' r']]];
    cbn [Text.b64encode] in E; cbv zeta in E; try discriminate; try reflexivity.
  - injection E as E1 E2.
    destruct (b64_bytes a "000"%char "000"%char a' "000"%char "000"%char)
      as (-> & _); [rewrite !N.add_0_r; try assumption..|reflexivity].
    + rewrite !b64_pad3. reflexivity.
    + pose proof (b64_pad4 (N_of_ascii a) 0) as Ea.
      pose proof (b64_pad4 (N_of_ascii a') 0) as Ea'.
      rewrite N.add_0_r in Ea, Ea'. rewrite Ea, Ea'. reflexivity.
  - injection E as _ _ E3. exfalso. symmetry in E3. revert E3. apply Q.
  - injection E as _ _ E3 _. exfalso. symmetry in E3. revert E3. apply Q.
  - injection E as _ _ E3. exfalso. revert E3. apply Q.
  - injection E as E1 E2 E3.
    destruct (b64_bytes a b "000"%char a' b' "000"%char)
      as (-> & -> & _); [rewrite !N.add_0_r; try assumption..|reflexivity].
    rewrite !b64_pad4. reflexivity.
  - injection E as _ _ _ E4 _. exfalso. symmetry in E4. revert E4. apply Q.
  - injection E as _ _ E3 _. exfalso. revert E3. apply Q.
  - injection E as _ _ _ E4 _. exfalso. revert E4. apply Q.
  - injection E as E1 E2 E3 E4 Er.
    destruct (b64_bytes a b c a' b' c' E1 E2 E3 E4) as (-> & -> & ->).
    f_equal. f_equal. f_equal.
    apply (IH (String.length r)); [simpl in Hn; lia|reflexivity|exact Er].
Qed.

Lemma b64encode_inj s1 s2 : Text.b64encode s1 = Text.b64encode s2 -> s1 = s2.
Proof. apply (b64encode_inj_bounded (String.length s1)). reflexivity. Qed.

(** X15: two API keys get the same wallet id exactly when their last eight
    characters agree (characters, of one byte or of several), so the id
    identifies the fragment and nothing else of the key. *)
Theorem wallet_id_collision (api_key1 api_key2 : string) :
  derive_wallet_id api_key1 = derive_wallet_id api_key2 <->
  Text.suffix 8 api_key1 = Text.suffix 8 api_key2.
Proof.
  unfold derive_wallet_id. split.
  - apply b64encode_inj.
  - intros ->. reflexivity.
Qed.

End WalletIds.

(** ** The order ledger *)

Section HeapOnly.
Context `{Fernet} `{Builtins}.
Variable P : World -> Prop.
Hypothesis P_heap : forall h w, P w -> P (set_heap h w).

Lemma heap_only_client_from_wallet env id :
  preserves P (_get_binance_client_from_wallet env id).
Proof.
  unfold _get_binance_client_from_wallet, get_wallet, dict_copy, dict_pop, alloc.
  repeat first
    [ apply pure_preserves; intros;
      solve [eauto using pure_resolve_credentials, pure_get_binance_client,
               pure_wallet_info_truthy, pure_dict_item, pure_deref]
    | apply preserves_modify; intros ? Hs; apply P_heap; exact Hs
    | intros w Hs; apply P_heap; exact Hs
    | preserves_step ].
Qed.

Lemma heap_only_get_wallet id : preserves P (get_wallet id).
Proof.
  unfold get_wallet, dict_copy, dict_pop, alloc.
  repeat first
    [ apply pure_preserves; intros; solve [eauto using pure_dict_item, pure_deref]
    | apply preserves_modify; intros ? Hs; apply P_heap; exact Hs
    | intros w Hs; apply P_heap; exact Hs
    | preserves_step ].
Qed.

End HeapOnly.

Section Ledger.
Context `{Fernet} `{Builtins}.

Lemma client_from_wallet_ledger env id w :
  trading_orders (snd (_get_binance_client_from_wallet env id w)) = trading_orders w /\
  wallet_service (snd (_get_binance_client_from_wallet env id w)) = wallet_service w.
Proof.
  apply (heap_only_client_from_wallet
           (fun w' => trading_orders w' = trading_orders w /\
                      wallet_service w' = wallet_service w)); [|auto].
  intros h w' Hw'. exact Hw'.
Qed.

Lemma client_from_wallet_unknown env id w :
  wallets (wallet_service w) !! id = None ->
  _get_binance_client_from_wallet env id w =
    (Raise (NotFoundException ("Carteira com ID " +:+ id +:+ " não encontrada")), w).
Proof.
  intros Hi. unfold _get_binance_client_from_wallet, get_wallet. run.
  rewrite Hi. reflexivity.
Qed.

Lemma decode_order_fields env d r :
  decode_order env d = Ok r ->
  order_id r = py_str (dict_get d "orderId") /\
  str_field "symbol" (dict_get d "symbol") = Ok (or_symbol r) /\
  py_float (dict_get d "origQty") = Ok (or_quantity r) /\
  OrderSide_of (dict_get d "side") = Ok (or_side r) /\
  OrderType_of (dict_get d "type") = Ok (or_type r) /\
  OrderStatus_of (dict_get d "status") = Ok (or_status r).
Proof.
  unfold decode_order. intros E.
  destruct (OrderSide_of _) as [side|]; [|discriminate].
  destruct (OrderType_of _) as [type|]; [|discriminate].
  destruct (OrderStatus_of _) as [status|]; [|discriminate].
  destruct (py_float (dict_get d "origQty")) as [quantity|]; [|discriminate].
  rewrite !result_bind_ok in E.
  destruct (if truthy (dict_get d "price") then _ else _) as [pr|]; [|discriminate].
  rewrite !result_bind_ok in E.
  destruct (py_float (dict_get_or d "executedQty" (PInt 0))) as [ex|]; [|discriminate].
  destruct (py_float (dict_get_or d "cummulativeQuoteQty" (PInt 0))) as [cu|]; [|discriminate].
  rewrite !result_bind_ok in E.
  destruct (if truthy (dict_get d "time") then _ else _) as [cr|]; [|discriminate].
  rewrite result_bind_ok in E.
  destruct (if truthy (dict_get d "updateTime") then _ else _) as [up|]; [|discriminate].
  rewrite result_bind_ok in E.
  destruct (str_field "symbol" _) as [sym|]; [|discriminate].
  rewrite result_bind_ok in E. injection E as <-. simpl. auto 10.
Qed.

Lemma basic_order_fields env d r :
  basic_order env d = Ok r ->
  order_id r = py_str (dict_get_or d "orderId" (PStr "unknown")) /\
  str_field "symbol" (dict_get_or d "symbol" (PStr "unknown")) = Ok (or_symbol r) /\
  py_float (dict_get_or d "origQty" (PInt 0)) = Ok (or_quantity r) /\
  or_status r = NEW /\ created_at r = utcnow env.
Proof.
  unfold basic_order. intros E.
  destruct (py_float _) as [quantity|]; [|discriminate]. rewrite result_bind_ok in E.
  destruct (str_field _ _) as [sym|]; [|discriminate]. rewrite result_bind_ok in E.
  injection E as <-. auto.
Qed.

Lemma create_order_response_id env d oid r :
  d !! "orderId" = Some oid ->
  _create_order_response env d = Ok r -> order_id r = py_str oid.
Proof.
  intros Hid. unfold _create_order_response.
  destruct (decode_order env d) as [r0|e] eqn:D.
  - intros [= <-]. destruct (decode_order_fields env d r0 D) as (-> & _).
    unfold dict_get. rewrite Hid. reflexivity.
  - intros E. destruct (basic_order_fields env d r E) as (-> & _).
    unfold dict_get_or. rewrite Hid. reflexivity.
Qed.

(** X16: a placement that fails raises a [BinanceAPIException] whose detail
    starts with the method's own message, also where the wallet is unknown
    (never a [NotFoundException]); it leaves the vault service as it was, and
    the ledger too unless the answer was already stored when building the
    record failed; for an unknown wallet it leaves the whole process as it
    was. *)
Theorem place_order_failure env side failure sym q id price w e w' :
  place_order env side failure sym q id price w = (Raise e, w') ->
  (exists e0, e = BinanceAPIException (failure +:+ exc_str e0)) /\
  (trading_orders w' = trading_orders w \/
   exists d oid e1, d !! "orderId" = Some oid /\
     _create_order_response env d = Raise e1 /\
     trading_orders w' = <[py_str oid := d]> (trading_orders w)) /\
  wallet_service w' = wallet_service w /\
  (wallets (wallet_service w) !! id = None ->
   e = BinanceAPIException
         (failure +:+ exc_str (NotFoundException
                                 ("Carteira com ID " +:+ id +:+ " não encontrada"))) /\
   w' = w).
Proof.
  unfold place_order, send_order, dict_item. intros E. run_in E.
  pose proof (client_from_wallet_ledger env id w) as [Ft Fw].
  pose proof (client_from_wallet_unknown env id w) as U.
  destruct (_get_binance_client_from_wallet env id w) as [[c|e0] w1]; cbn [snd] in Ft, Fw.
  - assert (N : wallets (wallet_service w) !! id = None -> False).
    { intros Hi. specialize (U Hi). discriminate. }
    destruct (create_order (exchange env) c _) as [d|e0].
    + destruct (d !! "orderId") as [oid|] eqn:Hid.
      * cbv beta iota in E.
        destruct (_create_order_response env d) as [r0|e0] eqn:D; [discriminate|].
        injection E as <- <-. cbn [trading_orders wallet_service set_trading_orders set_submitted].
        split; [eauto|]. split; [right; exists d, oid, e0; rewrite Ft; auto|].
        split; [exact Fw|]. intros Hi. destruct (N Hi).
      * injection E as <- <-. cbn [trading_orders wallet_service set_submitted].
        split; [exists (KeyError "orderId"); reflexivity|]. split; [left; exact Ft|]. split; [exact Fw|].
        intros Hi. destruct (N Hi).
    + injection E as <- <-. cbn [trading_orders wallet_service set_submitted].
      split; [eauto|]. split; [left; exact Ft|]. split; [exact Fw|].
      intros Hi. destruct (N Hi).
  - injection E as <- <-. split; [eauto|]. split; [left; exact Ft|]. split; [exact Fw|].
    intros Hi. specialize (U Hi). injection U as -> ->. auto.
Qed.

(** X17: a placement that returns has sent its one request and stored the
    exchange's answer to it: the answer of [create_order] to the arguments of
    the call, for a client of the wallet, is in the ledger under the id of the
    record that is returned, which is [str] of the answer's [orderId] and is
    built from that same answer; the request heads the list of those sent;
    the other entries of the ledger and the vault service are as they
    were. *)
Theorem placed_order_in_ledger env side failure sym q id price w r w' :
  place_order env side failure sym q id price w = (Ok r, w') ->
  exists client w1 d oid,
    _get_binance_client_from_wallet env id w = (Ok client, w1) /\
    create_order (exchange env) client (order_args side sym q price) = Ok d /\
    d !! "orderId" = Some oid /\ order_id r = py_str oid /\
    _create_order_response env d = Ok r /\
    trading_orders w' = <[order_id r := d]> (trading_orders w) /\
    trading_orders w' !! order_id r = Some d /\
    submitted w' = order_args side sym q price :: submitted w /\
    wallet_service w' = wallet_service w.
Proof.
  unfold place_order, send_order, dict_item. intros E. run_in E.
  pose proof (client_from_wallet_ledger env id w) as [Ft Fw].
  pose proof (client_from_wallet_sends_nothing env id (submitted w) w eq_refl) as Fs.
  destruct (_get_binance_client_from_wallet env id w) as [[c|e0] w1];
    cbn [snd] in Ft, Fw, Fs; [|discriminate].
  destruct (create_order (exchange env) c _) as [d|e0] eqn:C; [|discriminate].
  destruct (d !! "orderId") as [oid|] eqn:Hid; [|discriminate].
  cbv beta iota in E. destruct (_create_order_response env d) as [r0|e0] eqn:D; [|discriminate].
  injection E as <- <-. exists c, w1, d, oid.
  pose proof (create_order_response_id env d oid r0 Hid D) as Eid.
  cbn [trading_orders wallet_service submitted set_trading_orders set_submitted].
  rewrite Eid, Ft, Fw, Fs, lookup_insert_eq. auto 10.
Qed.

Lemma create_order_response_total env d s v q :
  d !! "symbol" = Some (PStr s) ->
  d !! "origQty" = Some v -> py_float v = Ok q ->
  exists r,
    _create_order_response env d = Ok r /\ or_symbol r = s /\ or_quantity r = q /\
    ((exists e, decode_order env d = Raise e) ->
     or_side r = BUY /\ or_type r = MARKET /\ or_status r = NEW /\
     or_price r = None /\ created_at r = utcnow env).
Proof.
  intros Hs Hv Hq. unfold _create_order_response.
  destruct (decode_order env d) as [r|e] eqn:D.
  - exists r. split; [reflexivity|].
    destruct (decode_order_fields env d r D) as (_ & S & Q & _).
    unfold dict_get in S, Q. rewrite Hs in S. rewrite Hv in Q. cbn [default from_option id] in S, Q.
    rewrite Hq in Q. injection S as <-. injection Q as <-.
    split; [reflexivity|]. split; [reflexivity|]. intros [e0 He0]. discriminate.
  - unfold basic_order, dict_get_or. rewrite Hv, Hs. cbn [default from_option id]. rewrite Hq.
    eexists. split; [reflexivity|]. cbn. auto 10.
Qed.

(** X18: the decoder falls back instead of failing.  On an answer whose
    symbol is a string and whose quantity converts to a float,
    [_create_order_response] returns a record with that symbol and that
    quantity, whatever the other fields hold; when the full decoding fails
    the record is a new market buy stamped with the current time. *)
Theorem create_order_response_returns env d s v q :
  d !! "symbol" = Some (PStr s) ->
  d !! "origQty" = Some v -> py_float v = Ok q ->
  exists r,
    _create_order_response env d = Ok r /\ or_symbol r = s /\ or_quantity r = q /\
    ((exists e, decode_order env d = Raise e) ->
     or_side r = BUY /\ or_type r = MARKET /\ or_status r = NEW /\
     or_price r = None /\ created_at r = utcnow env).
Proof. apply create_order_response_total. Qed.

End Ledger.

(** ** Order queries *)

Section QueryFacts.
Context `{Fernet} `{Builtins} `{QueryBuiltins}.

Lemma insert_by_time_perm x k l : insert_by_time x k l ≡ₚ x :: l.
Proof.
  induction l as [|y r IH]; [reflexivity|]. cbn [insert_by_time].
  destruct (int_time y) as [k'|]; [|reflexivity].
  destruct (k <? k')%Z; [|reflexivity].
  rewrite IH. apply Permutation_swap.
Qed.

Lemma sort_by_time_perm l : sort_by_time l ≡ₚ l.
Proof.
  induction l as [|x r IH]; [reflexivity|]. cbn [sort_by_time].
  destruct (int_time x) as [k|].
  - rewrite insert_by_time_perm, IH. reflexivity.
  - rewrite IH. reflexivity.
Qed.

Lemma insert_newest_first x k l :
  int_time x = Some k ->
  Forall (fun y => is_Some (int_time y)) l ->
  newest_first l -> newest_first (insert_by_time x k l).
Proof.
  intros Hx. induction l as [|y r IH]; intros Hall Hs.
  - cbn. auto.
  - apply Forall_cons in Hall as [[k' Hy] Hall]. destruct Hs as [Hy_r Hs].
    cbn [insert_by_time]. rewrite Hy. destruct (k <? k')%Z eqn:Hlt.
    + cbn [newest_first]. split; [|apply IH; assumption].
      rewrite insert_by_time_perm. constructor; [|exact Hy_r].
      exists k', k. split; [exact Hy|]. split; [exact Hx|]. lia.
    + cbn [newest_first]. split; [|split; assumption].
      constructor.
      * exists k, k'. split; [exact Hx|]. split; [exact Hy|]. lia.
      * eapply Forall_impl; [exact Hy_r|].
        intros z (k1 & kz & Hk1 & Hz & Hle). rewrite Hy in Hk1. injection Hk1 as <-.
        exists k, kz. split; [exact Hx|]. split; [exact Hz|]. lia.
Qed.

Lemma sort_newest_first l :
  Forall (fun y => is_Some (int_time y)) l -> newest_first (sort_by_time l).
Proof.
  induction l as [|x r IH]; intros Hall; [exact I|].
  apply Forall_cons in Hall as [[k Hx] Hall]. cbn [sort_by_time]. rewrite Hx.
  apply insert_newest_first; [exact Hx| |apply IH, Hall].
  rewrite sort_by_time_perm. exact Hall.
Qed.

Lemma sorted_by_time_ints l :
  Forall (fun y => is_Some (int_time y)) l -> sorted_by_time l = Ok (sort_by_time l).
Proof.
  intros Hall. unfold sorted_by_time.
  replace (forallb _ l) with true; [reflexivity|].
  symmetry. apply forallb_forall. intros x Hin. apply bool_decide_eq_true.
  rewrite Forall_forall in Hall. apply Hall. apply list_elem_of_In, Hin.
Qed.

Lemma store_orders_run l w :
  Forall (fun d => is_Some (d !! "orderId")) l ->
  exists t,
    store_orders l w = (Ok tt, set_trading_orders t w) /\
    (forall k, is_Some (trading_orders w !! k) -> is_Some (t !! k)) /\
    Forall (fun d => exists oid, d !! "orderId" = Some oid /\ is_Some (t !! py_str oid)) l.
Proof.
  revert w. induction l as [|d r IH]; intros w Hall.
  - exists (trading_orders w). split; [destruct w; reflexivity|]. split; [auto|constructor].
  - apply Forall_cons in Hall as [[oid Hid] Hall].
    destruct (IH (set_trading_orders (<[py_str oid := d]> (trading_orders w)) w) Hall)
      as (t & E & Hkeep & Hin).
    exists t. split; [|split].
    + cbn [store_orders]. unfold dict_item. rewrite Hid. run. rewrite E. reflexivity.
    + intros k Hk. apply Hkeep. cbn [trading_orders set_trading_orders].
      destruct (decide (py_str oid = k)) as [->|Hne].
      * rewrite lookup_insert_eq. eauto.
      * rewrite lookup_insert_ne by exact Hne. exact Hk.
    + constructor; [|exact Hin]. exists oid. split; [exact Hid|].
      apply Hkeep. cbn [trading_orders set_trading_orders]. rewrite lookup_insert_eq. eauto.
Qed.

Lemma order_responses_run env l :
  Forall filed l ->
  exists rs, order_responses env l = Ok rs /\
             Forall2 (fun d r => _create_order_response env d = Ok r) l rs.
Proof.
  induction l as [|d r IH]; intros Hall.
  - exists []. split; [reflexivity|constructor].
  - apply Forall_cons in Hall as [(_ & [s Hs] & (v & q & Hv & Hq)) Hall].
    destruct (create_order_response_total env d s v q Hs Hv Hq) as (r0 & E & _).
    destruct (IH Hall) as (rs & Ers & F).
    exists (r0 :: rs). split; [|constructor; assumption].
    cbn [order_responses]. rewrite E, result_bind_ok, Ers. reflexivity.
Qed.

(** X19: [get_order] and [cancel_order] send no order.  Whatever the
    outcome, the list of submitted orders and the vault service are as they
    were; a failure is a [BinanceAPIException] whose detail starts with the
    method's message (never a [NotFoundException]); and on a return the
    exchange's answer, from which the record is built, is in the ledger under
    the order id as the caller wrote it. *)
Theorem order_call_outcomes env call failure order_id id sym w :
  submitted (snd (order_call env call failure order_id id sym w)) = submitted w /\
  wallet_service (snd (order_call env call failure order_id id sym w)) = wallet_service w /\
  (forall e, fst (order_call env call failure order_id id sym w) = Raise e ->
             exists e0, e = BinanceAPIException (failure +:+ exc_str e0)) /\
  (forall r, fst (order_call env call failure order_id id sym w) = Ok r ->
   exists client n order_info,
     int_of_str order_id = Ok n /\ call client sym n = Ok order_info /\
     _create_order_response env order_info = Ok r /\
     trading_orders (snd (order_call env call failure order_id id sym w)) =
       <[order_id := order_info]> (trading_orders w)).
Proof.
  unfold order_call. run.
  pose proof (client_from_wallet_ledger env id w) as [Ft Fw].
  pose proof (client_from_wallet_sends_nothing env id (submitted w) w eq_refl) as Fs.
  destruct (_get_binance_client_from_wallet env id w) as [[c|e0] w1];
    cbn [snd] in Ft, Fw, Fs.
  2: { cbn [fst snd]. split; [exact Fs|]. split; [exact Fw|].
       split; [intros e [= <-]; eauto|discriminate]. }
  destruct (int_of_str order_id) as [n|e0] eqn:En.
  2: { cbn [fst snd]. split; [exact Fs|]. split; [exact Fw|].
       split; [intros e [= <-]; eauto|discriminate]. }
  cbv beta iota. destruct (call c sym n) as [info|e0] eqn:Ec.
  2: { cbn [fst snd]. split; [exact Fs|]. split; [exact Fw|].
       split; [intros e [= <-]; eauto|discriminate]. }
  cbv beta iota. destruct (_create_order_response env info) as [r0|e0] eqn:D.
  - cbn [fst snd submitted wallet_service trading_orders set_trading_orders].
    split; [exact Fs|]. split; [exact Fw|]. split; [discriminate|].
    intros r [= <-]. exists c, n, info. rewrite Ft. auto.
  - cbn [fst snd submitted wallet_service trading_orders set_trading_orders].
    split; [exact Fs|]. split; [exact Fw|].
    split; [intros e [= <-]; eauto|discriminate].
Qed.

(** X20: without a symbol, or with an empty one, [get_orders] asks for the
    three common pairs and skips those whose query fails.  When the wallet
    resolves and every order the exchange returns for them has an integer
    time and the fields of a record, it returns one record for each order,
    newest first, each built from its answer and filed in the ledger under
    its [orderId]; no entry leaves the ledger, and nothing is sent. *)
Theorem get_orders_newest_first env book id sym w client w1 :
  sym = None \/ sym = Some "" ->
  _get_binance_client_from_wallet env id w = (Ok client, w1) ->
  Forall (fun d => is_Some (int_time d) /\ filed d)
         (gather_orders book client ["BTCUSDT"; "ETHUSDT"; "BNBUSDT"]) ->
  exists orders rs w',
    get_orders env book id sym w = (Ok rs, w') /\
    orders ≡ₚ gather_orders book client ["BTCUSDT"; "ETHUSDT"; "BNBUSDT"] /\
    newest_first orders /\
    Forall2 (fun d r => _create_order_response env d = Ok r) orders rs /\
    Forall (fun d => exists oid, d !! "orderId" = Some oid /\
                                 is_Some (trading_orders w' !! py_str oid)) orders /\
    (forall k, is_Some (trading_orders w !! k) -> is_Some (trading_orders w' !! k)) /\
    submitted w' = submitted w.
Proof.
  intros Hsym Hc Hall.
  set (raw := gather_orders book client ["BTCUSDT"; "ETHUSDT"; "BNBUSDT"]) in *.
  assert (Hint : Forall (fun d => is_Some (int_time d)) raw).
  { eapply Forall_impl; [exact Hall|]. intros d [Hd _]. exact Hd. }
  assert (Hfiled : Forall filed (sort_by_time raw)).
  { rewrite sort_by_time_perm. eapply Forall_impl; [exact Hall|]. intros d [_ Hd]. exact Hd. }
  assert (Hids : Forall (fun d => is_Some (d !! "orderId")) (sort_by_time raw)).
  { eapply Forall_impl; [exact Hfiled|]. intros d ([oid Hd] & _). eauto. }
  pose proof (client_from_wallet_ledger env id w) as [Ft _].
  pose proof (client_from_wallet_sends_nothing env id (submitted w) w eq_refl) as Fs.
  rewrite Hc in Ft, Fs. cbn [snd] in Ft, Fs.
  destruct (store_orders_run (sort_by_time raw) w1 Hids) as (t & Es & Hkeep & Hin).
  destruct (order_responses_run env (sort_by_time raw) Hfiled) as (rs & Er & F2).
  exists (sort_by_time raw), rs, (set_trading_orders t w1).
  split; [|split; [apply sort_by_time_perm|split; [apply sort_newest_first, Hint|]]].
  - assert (E : forall k : list dict -> M (list OrderResponse),
               (orders ← match sym with
                         | Some s =>
                             if String.eqb s ""
                             then ret (gather_orders book client
                                         ["BTCUSDT"; "ETHUSDT"; "BNBUSDT"])
                             else lift (client_get_all_orders book client s)
                         | None => ret (gather_orders book client
                                          ["BTCUSDT"; "ETHUSDT"; "BNBUSDT"])
                         end; k orders) w1 = k raw w1).
    { intros k. destruct Hsym as [->| ->]; reflexivity. }
    unfold get_orders, try_except. rewrite bind_run, Hc. cbv beta iota.
    rewrite E, bind_run. unfold lift at 1. rewrite (sorted_by_time_ints raw Hint).
    cbv beta iota. unfold mbind at 1, M_bind, bind. rewrite Es. cbv beta iota.
    unfold lift. rewrite Er. reflexivity.
  - split; [exact F2|]. split; [exact Hin|]. split.
    + intros k Hk. apply Hkeep. rewrite Ft. exact Hk.
    + exact Fs.
Qed.

End QueryFacts.

(** ** The client wrapper and the configuration validators *)

Section GatewayFacts.
Context `{Fernet} `{Builtins}.

Lemma upper_ascii_idem c : Text.upper_ascii (Text.upper_ascii c) = Text.upper_ascii c.
Proof. destruct c as [[] [] [] [] [] [] [] []]; vm_compute; reflexivity. Qed.

Lemma upper_ascii_low c :
  (nat_of_ascii c <? 128)%nat = true ->
  (nat_of_ascii (Text.upper_ascii c) <? 128)%nat = true.
Proof. destruct c as [[] [] [] [] [] [] [] []]; vm_compute; auto. Qed.

Lemma upper_bytes_idem s : Text.upper_bytes (Text.upper_bytes s) = Text.upper_bytes s.
Proof.
  induction s as [|c s IH]; [reflexivity|].
  cbn [Text.upper_bytes]. rewrite upper_ascii_idem, IH. reflexivity.
Qed.

Lemma upper_bytes_ascii s :
  Text.is_ascii s = true -> Text.is_ascii (Text.upper_bytes s) = true.
Proof.
  induction s as [|c s IH]; [reflexivity|]. cbn [Text.is_ascii Text.upper_bytes].
  intros Hs. apply andb_true_iff in Hs as [Hc Hs].
  rewrite (upper_ascii_low c Hc), (IH Hs). reflexivity.
Qed.

Lemma upper_idem s :
  Text.is_ascii s = true -> Text.upper (Text.upper s) = Text.upper s.
Proof.
  intros Hs. unfold Text.upper. rewrite Hs, (upper_bytes_ascii s Hs).
  apply upper_bytes_idem.
Qed.

(** X21: what the validators of [BotConfig] let through.  A configuration
    is accepted exactly when its interval is at least 5 seconds and its
    maximum amount is not at most zero; the accepted configuration differs
    from the given one only by its symbol in upper case; and when the symbol
    is ASCII text, validating the accepted configuration again returns it
    unchanged. *)
Theorem validate_config_accepts c :
  ((exists c', validate_config c = Ok c') <->
   (5 <= interval_seconds c)%Z /\ PrimFloat.leb (max_amount c) 0 = false) /\
  (forall c', validate_config c = Ok c' ->
     symbol c' = Text.upper (symbol c) /\
     interval_seconds c' = interval_seconds c /\ max_amount c' = max_amount c /\
     wallet_id c' = wallet_id c /\ strategy c' = strategy c /\
     buy_threshold c' = buy_threshold c /\ sell_threshold c' = sell_threshold c /\
     (Text.is_ascii (symbol c) = true -> validate_config c' = Ok c')).
Proof.
  unfold validate_config. split.
  - destruct (interval_seconds c <? 5)%Z eqn:Hi.
    + split; [intros [c' E]; discriminate|]. intros [Hle _]. lia.
    + destruct (PrimFloat.leb (max_amount c) 0) eqn:Hm.
      * split; [intros [c' E]; discriminate|]. intros [_ Hf]. discriminate.
      * split; [|eauto]. intros _. split; [lia|reflexivity].
  - intros c'. destruct (interval_seconds c <? 5)%Z eqn:Hi; [discriminate|].
    destruct (PrimFloat.leb (max_amount c) 0) eqn:Hm; [discriminate|].
    intros [= <-]. cbn [symbol interval_seconds max_amount wallet_id strategy
                         buy_threshold sell_threshold].
    rewrite Hi, Hm. repeat (split; [reflexivity|]).
    intros Ha. rewrite (upper_idem _ Ha). reflexivity.
Qed.

Lemma test_connection_run env c w :
  test_connection env c w =
    (match ping (exchange env) c with
     | Ok _ => Ok true
     | Raise (BinanceLibException msg) =>
         Raise (BinanceAPIException ("Erro ao conectar com a Binance: " +:+ msg))
     | Raise e => Raise e
     end, w).
Proof.
  unfold test_connection, try_except_lib. run.
  destruct (ping (exchange env) c) as [[]|e]; [reflexivity|]. destruct e; reflexivity.
Qed.

(** X22: [test_connection] never returns [False].  It returns [True] when
    the ping answers, turns the library's exception into a
    [BinanceAPIException] with the connection message, lets every other
    exception through as it is, and changes nothing. *)
Theorem test_connection_true_or_raises env c w :
  snd (test_connection env c w) = w /\
  fst (test_connection env c w) <> Ok false /\
  (forall u, ping (exchange env) c = Ok u -> fst (test_connection env c w) = Ok true) /\
  (forall msg, ping (exchange env) c = Raise (BinanceLibException msg) ->
     fst (test_connection env c w) =
       Raise (BinanceAPIException ("Erro ao conectar com a Binance: " +:+ msg))) /\
  (forall e, ping (exchange env) c = Raise e ->
     (forall msg, e <> BinanceLibException msg) ->
     fst (test_connection env c w) = Raise e).
Proof.
  rewrite test_connection_run. cbn [fst snd]. split; [reflexivity|].
  destruct (ping (exchange env) c) as [u|e].
  - split; [discriminate|]. split; [reflexivity|]. split; discriminate.
  - split; [destruct e; discriminate|]. split; [discriminate|]. split.
    + intros msg [= ->]. reflexivity.
    + intros e' [= <-] Hn. destruct e; try reflexivity. destruct (Hn msg eq_refl).
Qed.

(** X23: no client is built on an empty key or secret.  A client that
    [get_binance_client] returns has the given key and secret where they are
    not empty and those of the settings where they are, neither empty; its
    testnet flag is that of the settings when none is given; the library
    accepted it; and nothing changed. *)
Theorem client_credentials env api_key api_secret testnet w c w' :
  get_binance_client env api_key api_secret testnet w = (Ok c, w') ->
  w' = w /\
  cred_api_key c <> "" /\ cred_api_secret c <> "" /\
  cred_api_key c = (if String.eqb api_key "" then BINANCE_API_KEY (settings env)
                    else api_key) /\
  cred_api_secret c = (if String.eqb api_secret "" then BINANCE_API_SECRET (settings env)
                       else api_secret) /\
  (testnet = PNone -> cred_testnet c = BINANCE_TESTNET (settings env)) /\
  (forall b, testnet = PBool b -> cred_testnet c = b) /\
  client_init (exchange env) c = Ok tt.
Proof.
  unfold get_binance_client, try_except_lib. cbv zeta. run.
  cbn [cred_api_key cred_api_secret str_or].
  destruct (String.eqb (if String.eqb api_key "" then _ else _) "") eqn:Ek;
    [discriminate|].
  destruct (String.eqb (if String.eqb api_secret "" then _ else _) "") eqn:Es;
    [discriminate|].
  cbn [orb]. destruct (client_init (exchange env) _) as [[]|e] eqn:Ei.
  2: { destruct e; discriminate. }
  intros [= <- <-]. cbn [cred_api_key cred_api_secret cred_testnet].
  split; [reflexivity|].
  split; [apply String.eqb_neq, Ek|]. split; [apply String.eqb_neq, Es|].
  split; [reflexivity|]. split; [reflexivity|]. split; [intros ->; reflexivity|].
  split; [intros b ->; reflexivity|]. exact Ei.
Qed.

End GatewayFacts.

(** ** The routes *)

Section Routes.
Context `{Fernet} `{Builtins} `{QueryBuiltins}.

Lemma endpoint_run {A} (body : M A) handlers w :
  endpoint body handlers w =
    match body w with
    | (Ok a, w') => (Reply a, w')
    | (Raise e, w') => (HttpError (fst (handlers e)) (snd (handlers e)), w')
    end.
Proof. reflexivity. Qed.

Lemma try_except_wraps {A} (m : M A) (f : Exc -> Exc) w e w' :
  try_except m (fun e => raise (f e)) w = (Raise e, w') -> exists e0, e = f e0.
Proof.
  unfold try_except, raise. destruct (m w) as [[a|e0] w1]; [discriminate|].
  intros [= <- <-]. eauto.
Qed.

Lemma wrapped_route_400 {A} (m : M A) (f : Exc -> string) failure :
  fails_with_400
    (endpoint (try_except m (fun e => raise (BinanceAPIException (f e))))
       (TradingApi.handlers failure)).
Proof.
  intros w code detail. rewrite endpoint_run.
  destruct (try_except m _ w) as [[a|e] w1] eqn:E; [discriminate|].
  apply (try_except_wraps m (fun e => BinanceAPIException (f e))) in E as [e0 ->].
  cbn. intros [= <- <-]. eauto.
Qed.

Lemma wrapped_list_route_400 {A B} (m : M A) (f : Exc -> string) (g : A -> B) failure :
  fails_with_400
    (endpoint (a ← try_except m (fun e => raise (BinanceAPIException (f e))); ret (g a))
       (TradingApi.handlers failure)).
Proof.
  intros w code detail. rewrite endpoint_run, bind_run.
  destruct (try_except m _ w) as [[a|e] w1] eqn:E; [discriminate|].
  apply (try_except_wraps m (fun e => BinanceAPIException (f e))) in E as [e0 ->].
  cbn. intros [= <- <-]. eauto.
Qed.

(** X24: the trading routes answer every failure with status 400.  The
    service methods turn every exception, the unknown wallet included, into a
    [BinanceAPIException], so the 404 and 500 clauses of the five handlers
    are never taken. *)
Theorem trading_routes_fail_with_400 env book :
  (forall order, fails_with_400 (TradingApi.place_buy_order env order)) /\
  (forall order, fails_with_400 (TradingApi.place_sell_order env order)) /\
  (forall wallet_id sym, fails_with_400 (TradingApi.get_orders env book wallet_id sym)) /\
  (forall order_id wallet_id sym,
     fails_with_400 (TradingApi.get_order env book order_id wallet_id sym)) /\
  (forall order_id wallet_id sym,
     fails_with_400 (TradingApi.cancel_order env book order_id wallet_id sym)).
Proof.
  split; [|split; [|split; [|split]]]; intros.
  - apply wrapped_route_400.
  - apply wrapped_route_400.
  - apply wrapped_list_route_400.
  - apply wrapped_route_400.
  - apply wrapped_route_400.
Qed.

Lemma get_wallet_service id w :
  wallet_service (snd (get_wallet id w)) = wallet_service w.
Proof.
  apply (heap_only_get_wallet (fun w' => wallet_service w' = wallet_service w)); [|auto].
  intros h w' Hw'. exact Hw'.
Qed.

Lemma get_wallet_unknown id w :
  wallets (wallet_service w) !! id = None -> get_wallet id w = (Ok None, w).
Proof. intros Hi. unfold get_wallet. run. rewrite Hi. reflexivity. Qed.

Lemma get_wallet_raises id w e w' :
  get_wallet id w = (Raise e, w') ->
  (exists k, e = KeyError k) \/ (exists m, e = OtherException m).
Proof.
  unfold get_wallet, dict_copy, dict_pop, deref, dict_item, alloc. run.
  destruct (wallets (wallet_service w) !! id) as [l|]; [|discriminate].
  cbv beta iota. destruct (heap w !! l) as [d|]; [|intros [= <- <-]; eauto].
  cbn [heap set_heap]. rewrite lookup_insert_eq.
  destruct (d !! "api_key"); [|intros [= <- <-]; eauto].
  cbv beta iota. cbn [heap set_heap]. rewrite lookup_insert_eq.
  destruct (delete "api_key" d !! "api_secret"); [discriminate|].
  intros [= <- <-]. eauto.
Qed.

(** X25: the balance route never answers 404.  For a wallet that is not
    stored the handler raises a 404 inside its own [try], where only the
    last clause catches it: the answer is a 500 whose detail quotes the 404;
    for a stored wallet the only failure left is the 400 of the service. *)
Theorem balance_route_never_404 env id w :
  error_code (fst (WalletApi.get_wallet_balance env id w)) <> 404%Z /\
  (wallets (wallet_service w) !! id = None ->
   WalletApi.get_wallet_balance env id w =
     (HttpError 500
        ("Erro ao obter saldo da carteira: " +:+
         str_of_http_exception 404 ("Carteira com ID " +:+ id +:+ " não encontrada")),
      w)) /\
  (wallets (wallet_service w) !! id <> None ->
   error_code (fst (WalletApi.get_wallet_balance env id w)) = 0%Z \/
   error_code (fst (WalletApi.get_wallet_balance env id w)) = 400%Z \/
   error_code (fst (WalletApi.get_wallet_balance env id w)) = 500%Z).
Proof.
  assert (U : wallets (wallet_service w) !! id = None ->
              WalletApi.get_wallet_balance env id w =
                (HttpError 500
                   ("Erro ao obter saldo da carteira: " +:+
                    str_of_http_exception 404
                      ("Carteira com ID " +:+ id +:+ " não encontrada")), w)).
  { intros Hi. unfold WalletApi.get_wallet_balance. rewrite endpoint_run, bind_run.
    rewrite (get_wallet_unknown id w Hi). reflexivity. }
  assert (K : wallets (wallet_service w) !! id <> None ->
              error_code (fst (WalletApi.get_wallet_balance env id w)) = 0%Z \/
              error_code (fst (WalletApi.get_wallet_balance env id w)) = 400%Z \/
              error_code (fst (WalletApi.get_wallet_balance env id w)) = 500%Z).
  { intros Hi. unfold WalletApi.get_wallet_balance. rewrite endpoint_run, bind_run.
    pose proof (get_wallet_service id w) as Fw.
    destruct (get_wallet id w) as [[[l|]|e] w1] eqn:G; cbn [snd] in Fw.
    - rewrite bind_run.
      destruct (get_wallet_balance_run env id w1) as (r & E & _ & R & _).
      rewrite E. destruct r as [bs|e]; [left; reflexivity|].
      destruct (R ltac:(rewrite Fw; exact Hi) e eq_refl) as [e0 ->].
      right. left. reflexivity.
    - right. right. reflexivity.
    - destruct (get_wallet_raises id w e w1 G) as [[k ->]|[m ->]];
        right; right; reflexivity. }
  split; [|split; [exact U|exact K]].
  destruct (wallets (wallet_service w) !! id) as [l|] eqn:Hi.
  - destruct (K ltac:(discriminate)) as [E|[E|E]]; rewrite E; discriminate.
  - rewrite (U eq_refl). discriminate.
Qed.

Lemma get_wallet_cases id w :
  vault_ok w ->
  get_wallet id w = (Ok None, w) \/
  exists d, get_wallet id w =
              (Ok (Some (fresh (dom (heap w)))),
               set_heap (<[fresh (dom (heap w)) := d]> (heap w)) w).
Proof.
  intros Hv. destruct (wallets (wallet_service w) !! id) as [l|] eqn:Hi.
  - destruct (Hv id l Hi) as (d & Hl & Hd).
    destruct (wallet_record_items d Hd) as (k & s & t & Hk & Hs & _).
    right. eexists. apply (get_wallet_found w id l d _ _ Hi Hl Hk Hs).
  - left. apply get_wallet_unknown, Hi.
Qed.

Lemma start_raises env cfg w e w' :
  vault_ok w -> start env cfg w = (Raise e, w') -> exists m, e = ValueError m.
Proof.
  intros Hv. unfold start. run.
  destruct (thread_is_alive (bot_thread (bot_service w))); [intros [= <- _]; eauto|].
  destruct (get_wallet_cases (wallet_id cfg) w Hv) as [G|[d G]]; rewrite G; cbv beta iota.
  - unfold wallet_info_truthy. run. cbn [negb]. intros [= <- _]. eauto.
  - unfold wallet_info_truthy, deref. run. cbn [heap set_heap].
    rewrite lookup_insert_eq. cbv beta iota.
    destruct (negb (negb (bool_decide (dom d = ∅)))); [intros [= <- _]; eauto|].
    destruct (start_probe env cfg _) as [[probe|e0] wc]; [|intros [= <- _]; eauto].
    rewrite start_commit_run. discriminate.
Qed.

(** X26: in a well-formed vault the start route answers 201 or 400.  When
    it answers 201 the body carries the configuration it was given and the
    start time of this very call, and the bot is running; when it fails the
    status is 400, the detail is the text of the service's [ValueError], and
    the bot is what it was. *)
Theorem start_route_outcomes env cfg w :
  vault_ok w ->
  (exists w' probe,
     BotApi.start_bot env cfg w =
       (Reply {| BotApi.started_config := cfg;
                 BotApi.started_start_time := Some (utcnow env);
                 BotApi.started_symbol := symbol cfg;
                 BotApi.started_wallet_id := wallet_id cfg;
                 BotApi.started_timestamp := utcnow env |}, w') /\
     bot_service w' = started_bot env cfg probe) \/
  (exists w' m,
     start env cfg w = (Raise (ValueError m), w') /\
     BotApi.start_bot env cfg w = (HttpError 400 m, w') /\
     bot_service w' = bot_service w).
Proof.
  intros Hv. unfold BotApi.start_bot. rewrite endpoint_run, bind_run.
  destruct (start env cfg w) as [[r|e] w1] eqn:E.
  - left. destruct (start_ok_inv env cfg w r w1 E) as (probe & _ & Hb).
    assert (r = true) as ->.
    { revert E. unfold start. run.
      destruct (thread_is_alive _); [discriminate|].
      destruct (get_wallet _ w) as [[o|e] wa]; [|discriminate]. cbv beta iota.
      destruct (wallet_info_truthy o wa) as [[[]|e] wb]; try discriminate.
      cbn [negb]. cbv beta iota.
      destruct (start_probe env cfg wb) as [[p|e] wc]; [|discriminate].
      rewrite start_commit_run. intros [= <- _]. reflexivity. }
    exists w1, probe. split; [|exact Hb].
    unfold get_status. run. rewrite Hb. reflexivity.
  - right. destruct (start_raises env cfg w e w1 Hv E) as [m ->].
    exists w1, m. split; [reflexivity|]. split; [reflexivity|].
    apply (start_raise_frame env cfg w _ w1 E).
Qed.

(** X27: the connect route answers 201 or 400, never 500 and never
    [is_connected] false.  On success the wallet is stored and the name in
    the body is the one that was stored: the given name, or ["Wallet-"] and
    the first six characters of the id when none or an empty one was given.
    On failure the process is what it was. *)
Theorem connect_route_outcomes env api_key api_secret use_testnet name w :
  (exists e,
     WalletApi.connect_wallet env api_key api_secret use_testnet name w =
       (HttpError 400
          (str_of_http_exception 400 ("Erro ao conectar à carteira: " +:+ exc_str e)), w)) \/
  (exists w',
     WalletApi.connect_wallet env api_key api_secret use_testnet name w =
       (Reply {| WalletApi.is_connected := true;
                 WalletApi.wallet_name :=
                   Some (str_or name ("Wallet-" +:+
                                      Text.prefix 6 (derive_wallet_id api_key)));
                 WalletApi.connection_timestamp := utcnow env |}, w') /\
     wallet_service w' =
       wallet_service (stored_world env api_key api_secret name use_testnet w)).
Proof.
  unfold WalletApi.connect_wallet. rewrite endpoint_run, bind_run.
  destruct (connect_wallet_result env api_key api_secret name use_testnet w) as [[e E]|E];
    rewrite E.
  - left. exists e. reflexivity.
  - right. cbv beta iota.
    set (ws := stored_world env api_key api_secret name use_testnet w).
    assert (Hi : wallets (wallet_service ws) !! derive_wallet_id api_key
                 = Some (fresh (dom (heap w)))).
    { unfold ws, stored_world. cbn [wallets wallet_service set_wallets set_heap].
      apply lookup_insert_eq. }
    assert (Hl : heap ws !! fresh (dom (heap w)) =
                 Some (new_record (encryption_key (wallet_service w)) env api_key
                         api_secret name use_testnet)).
    { unfold ws, stored_world. cbn [heap set_wallets set_heap]. apply lookup_insert_eq. }
    change (Text.b64encode (Text.suffix 8 api_key)) with (derive_wallet_id api_key).
    rewrite bind_run.
    rewrite (get_wallet_found ws _ _ _ _ _ Hi Hl eq_refl eq_refl).
    rewrite bind_run. unfold ref_item, deref, dict_item. run.
    cbn [heap set_heap]. rewrite lookup_insert_eq. cbv beta iota.
    eexists. split; [reflexivity|]. reflexivity.
Qed.


End Routes.

(** ** The routes of the exchange *)

Section BinanceRoutes.
Context `{Builtins}.

Lemma get_binance_client_run env k s t w :
  get_binance_client env k s t w = (fst (get_binance_client env k s t w), w).
Proof. apply pure_run. intros. apply pure_get_binance_client. Qed.

Lemma get_price_run env c sym w :
  get_price env c sym w = (fst (get_price env c sym w), w).
Proof. apply pure_run. intros. apply pure_get_price. Qed.

Lemma get_price_library_error env c sym msg w :
  get_symbol_ticker (exchange env) c sym = Raise (BinanceLibException msg) ->
  get_price env c sym w =
    (Raise (BinanceAPIException ("Erro ao obter preço para " +:+ sym +:+ ": " +:+ msg)), w).
Proof. intros E. unfold get_price, try_except_lib. run. rewrite E. reflexivity. Qed.

(** X29: the two routes on the exchange only read.  The connection test
    never answers [is_connected] false and answers every failure, the
    service's 400 included, with status 500.  The price route answers a
    refusal of the exchange with status 400 and the text of the service's
    exception, quoting the symbol, and any failure with 400 or 500. *)
Theorem binance_routes_outcomes env api_key api_secret use_testnet w :
  (snd (BinanceApi.test_connection env api_key api_secret use_testnet w) = w /\
   (forall body,
      fst (BinanceApi.test_connection env api_key api_secret use_testnet w) = Reply body ->
      BinanceApi.test_is_connected body = true) /\
   (forall code detail,
      fst (BinanceApi.test_connection env api_key api_secret use_testnet w) =
        HttpError code detail -> code = 500%Z)) /\
  (forall sym,
     snd (BinanceApi.get_price env sym api_key api_secret use_testnet w) = w /\
     (forall code detail,
        fst (BinanceApi.get_price env sym api_key api_secret use_testnet w) =
          HttpError code detail -> code = 400%Z \/ code = 500%Z) /\
     (forall client msg,
        fst (get_binance_client env api_key api_secret (PBool use_testnet) w) = Ok client ->
        get_symbol_ticker (exchange env) client sym = Raise (BinanceLibException msg) ->
        fst (BinanceApi.get_price env sym api_key api_secret use_testnet w) =
          HttpError 400
            (str_of_http_exception 400
               ("Erro ao obter preço para " +:+ sym +:+ ": " +:+ msg)))).
Proof.
  split.
  - unfold BinanceApi.test_connection. rewrite endpoint_run, bind_run.
    rewrite get_binance_client_run.
    destruct (fst (get_binance_client env api_key api_secret (PBool use_testnet) w))
      as [c|e].
    + rewrite bind_run, test_connection_run.
      destruct (ping (exchange env) c) as [u|e].
      * cbn. split; [reflexivity|]. split; [|discriminate]. intros body [= <-]. reflexivity.
      * destruct e; cbn; (split; [reflexivity|]); (split; [discriminate|]);
          intros code0 detail0 [= <- _]; reflexivity.
    + cbn. split; [reflexivity|]. split; [discriminate|].
      intros code0 detail0 [= <- _]. reflexivity.
  - intros sym. unfold BinanceApi.get_price. rewrite endpoint_run, bind_run.
    rewrite get_binance_client_run.
    destruct (fst (get_binance_client env api_key api_secret (PBool use_testnet) w))
      as [c|e].
    + rewrite bind_run, get_price_run.
      destruct (fst (get_price env c sym w)) as [p|e] eqn:E.
      * cbn. split; [reflexivity|]. split; [discriminate|].
        intros client msg [= <-] T. rewrite (get_price_library_error env c sym msg w T) in E.
        discriminate.
      * cbn [fst snd]. split; [reflexivity|]. split.
        -- intros code0 detail0 [= <- _]. destruct e; cbn; auto.
        -- intros client msg [= <-] T.
           rewrite (get_price_library_error env c sym msg w T) in E.
           injection E as <-. reflexivity.
    + cbn [fst snd]. split; [reflexivity|]. split.
      * intros code0 detail0 [= <- _]. destruct e; cbn; auto.
      * intros client msg Hc. discriminate.
Qed.

End BinanceRoutes.

(** * The properties on concrete runs *)

Import Sample.
Import Fixtures.

(** The three price moves of the specification, from a probe price of 100
    and with unset thresholds. *)
Lemma simple_strategy_examples :
  signal_of (last_operation (bot_service
     (run_events [ThreadRuns [env_quote "t1" "99"]] world_started))) = SigBUY /\
  signal_of (last_operation (bot_service
     (run_events [ThreadRuns [env_quote "t1" "101"]] world_started))) = SigSELL /\
  signal_of (last_operation (bot_service
     (run_events [ThreadRuns [env_quote "t1" "100.3"]] world_started))) = SigNONE /\
  spec_change_pct 100 99 = (-1)%float /\ spec_change_pct 100 101 = 1%float.
Proof. vm_compute. repeat split; reflexivity. Qed.

(** C1: a price request that fails inside an iteration.  The bot was
    started; the exchange refuses the request of the first turn and answers
    the one of the second.  After the first turn the status is still RUNNING,
    no error message is set, the thread is alive and the failure is only a
    note; the second turn runs and records its price.  The claim has the
    status at ERROR, the message set and the loop over. *)
Theorem loop_survives_gateway_failure :
  let w1 := run_events [ThreadRuns [env_down "t1"]] world_started in
  let w2 := run_events [ThreadRuns [env_down "t1"; env_quote "t2" "99.00"]] world_started in
  status (bot_service w1) = RUNNING /\
  error_message (bot_service w1) = None /\
  thread_is_alive (bot_thread (bot_service w1)) = true /\
  last_operation (bot_service w1) =
    Some (OpStrategyError
            "400: Erro ao obter preço para BTCUSDT: APIError(code=-1003): Too many requests") /\
  price_history (bot_service w2) = [{| price := 99; timestamp := "t2" |}] /\
  status (bot_service w2) = RUNNING.
Proof. vm_compute. repeat split; reflexivity. Qed.

(** C6: a buy threshold set to zero.  From 100 to 99.75 the change is
    -0.25 percent: at or below minus the configured threshold, so the
    specification's rule says BUY; the code takes the default 0.5 for the
    zero and leaves the analysis note, no signal. *)
Theorem zero_threshold_takes_default :
  let w1 := run_events [ThreadRuns [env_quote "t1" "99.75"]] world_zero_threshold in
  config (bot_service world_zero_threshold) = Some zero_threshold_config /\
  last_price (bot_service world_zero_threshold) = Some 100%float /\
  last_operation (bot_service w1) =
    Some (OpAnalysis 99.75 (spec_change_pct 100 99.75)) /\
  signal_of (last_operation (bot_service w1)) = SigNONE /\
  spec_simple_signal zero_threshold_config 100 99.75 = SigBUY.
Proof. vm_compute. repeat split; reflexivity. Qed.


(** C7 as stated fails: a LIMIT order whose answer carries a status outside
    [OrderStatus] (the exchange's EXPIRED_IN_MATCH) is returned as the basic
    record, a MARKET order whose price is [None], although a price was
    given and a LIMIT order was sent. *)
Lemma limit_order_without_price :
  ~ (forall (env : Env) (sym : string) (q : float) (id : string) (price : option float)
            (w : World) (r : OrderResponse) (w' : World),
       place_buy_order env sym q id price w = (Ok r, w') ->
       or_price r = None -> price = None).
Proof.
  intros C.
  pose (res := place_buy_order (env_orders "t" "EXPIRED_IN_MATCH") "BTCUSDT" 0.5
                 sample_id (Some 50000%float) world_connected).
  assert (E : exists r, res = (Ok r, snd res) /\ or_price r = None /\ or_type r = MARKET /\
                        hd_error (submitted (snd res)) =
                          Some (order_args "BUY" "BTCUSDT" 0.5 (Some 50000%float))).
  { eexists. vm_compute. repeat split; reflexivity. }
  destruct E as (r & E & Hp & _).
  specialize (C _ _ _ _ _ _ _ _ E Hp). discriminate.
Qed.

Lemma world_connected_reachable : reachable world_connected.
Proof. eexists _, _. reflexivity. Qed.








(** C3 on a run: a start, two turns of the loop and a status query, then a
    second start. *)
Lemma second_start_rejected_witness :
  start (env_quote "2024-01-01T00:01:00" "100.00") sample_config world_connected =
    (Ok true, world_started) /\
  (let w2 := run_events [ThreadRuns [env_quote "t1" "99.00"; env_down "t2"]; CallStatus]
               world_started in
   thread_is_alive (bot_thread (bot_service w2)) = true /\
   start (env_quote "2024-01-01T00:05:00" "98.00") zero_threshold_config w2 =
     (Raise (ValueError "O bot já está em execução"), w2) /\
   start_time (bot_service w2) = Some "2024-01-01T00:01:00").
Proof.
  assert (E : start (env_quote "2024-01-01T00:01:00" "100.00") sample_config
                world_connected = (Ok true, world_started)) by (vm_compute; reflexivity).
  split; [exact E|]. intros w2.
  assert (A : thread_is_alive (bot_thread (bot_service w2)) = true)
    by (vm_compute; reflexivity).
  split; [exact A|].
  destruct (second_start_rejected _ _ _ _ E
              [ThreadRuns [env_quote "t1" "99.00"; env_down "t2"]; CallStatus]
              eq_refl A (env_quote "2024-01-01T00:05:00" "98.00") zero_threshold_config)
    as (R & T1 & T2).
  split; [exact R|]. fold w2 in T1. rewrite T1. exact T2.
Defined.

(** C4 on a run: the wallet is there, the exchange refuses the price
    request of the probe. *)
Lemma rejected_start_writes_nothing_witness :
  thread_is_alive (bot_thread (bot_service world_connected)) = false /\
  get_wallet sample_id world_connected = (Ok (Some 2%positive), world_looked_up) /\
  wallet_info_truthy (Some 2%positive) world_looked_up = (Ok true, world_looked_up) /\
  resolve_credentials sample_id world_looked_up =
    (Ok (sample_key, sample_secret, PBool true), world_looked_up) /\
  get_binance_client (env_down "t") sample_key sample_secret (PBool true) world_looked_up =
    (Ok sample_client, world_looked_up) /\
  get_price (env_down "t") sample_client "BTCUSDT" world_looked_up =
    (Raise (BinanceAPIException
              "Erro ao obter preço para BTCUSDT: APIError(code=-1003): Too many requests"),
     world_looked_up) /\
  fst (start (env_down "t") sample_config world_connected) =
    Raise (ValueError
             "Símbolo inválido ou erro de conexão: 400: Erro ao obter preço para BTCUSDT: APIError(code=-1003): Too many requests") /\
  bot_service (snd (start (env_down "t") sample_config world_connected)) = bot_init.
Proof.
  assert (H1 : thread_is_alive (bot_thread (bot_service world_connected)) = false)
    by reflexivity.
  assert (H2 : get_wallet sample_id world_connected = (Ok (Some 2%positive), world_looked_up))
    by (vm_compute; reflexivity).
  assert (H3 : wallet_info_truthy (Some 2%positive) world_looked_up = (Ok true, world_looked_up))
    by (vm_compute; reflexivity).
  assert (H4 : resolve_credentials sample_id world_looked_up =
               (Ok (sample_key, sample_secret, PBool true), world_looked_up))
    by (vm_compute; reflexivity).
  assert (H5 : get_binance_client (env_down "t") sample_key sample_secret (PBool true)
                 world_looked_up = (Ok sample_client, world_looked_up))
    by (vm_compute; reflexivity).
  assert (H6 : get_price (env_down "t") sample_client "BTCUSDT" world_looked_up =
               (Raise (BinanceAPIException
                  "Erro ao obter preço para BTCUSDT: APIError(code=-1003): Too many requests"),
                world_looked_up))
    by (vm_compute; reflexivity).
  repeat (split; [assumption|]).
  destruct (rejected_start_writes_nothing (env_down "t") sample_config) as [R _].
  destruct (R _ _ _ _ _ _ _ _ _ _ _ _ H1 H2 H3 H4 H5 H6) as (E & B).
  rewrite E. split; [reflexivity|]. cbn [snd]. rewrite B. reflexivity.
Defined.

(** C5 on a run and on a full history. *)
Lemma price_history_fifo_100_witness :
  reachable (run_events [ThreadRuns [env_quote "t1" "99.00"]] world_started) /\
  (length (price_history (bot_service
     (run_events [ThreadRuns [env_quote "t1" "99.00"]] world_started))) <= 100)%nat /\
  length ({| price := 1; timestamp := "t0" |}
          :: repeat {| price := 2; timestamp := "t" |} 99) = 100%nat /\
  push_history {| price := 3; timestamp := "t100" |}
    ({| price := 1; timestamp := "t0" |} :: repeat {| price := 2; timestamp := "t" |} 99) =
  (repeat {| price := 2; timestamp := "t" |} 99 ++ [{| price := 3; timestamp := "t100" |}])%list.
Proof.
  destruct (@price_history_fifo_100 toy_fernet sample_builtins) as (A & _ & C).
  assert (R : reachable (run_events [ThreadRuns [env_quote "t1" "99.00"]] world_started)).
  { exists "k1".
    exists [CallConnect (env_quote "2024-01-01T00:00:00" "100.00") sample_key
              sample_secret None true;
            CallStart (env_quote "2024-01-01T00:01:00" "100.00") sample_config;
            ThreadRuns [env_quote "t1" "99.00"]].
    vm_compute. reflexivity. }
  split; [exact R|]. split; [exact (A _ R)|]. split; [reflexivity|].
  apply C. reflexivity.
Defined.

(** C7 on a run: a LIMIT order that the exchange accepts. *)
Lemma order_request_and_record_witness :
  let res := place_order (env_orders "t" "NEW") "BUY" "Erro ao executar ordem de compra: "
               "BTCUSDT" 0.5 sample_id (Some 50000%float) world_connected in
  (exists r, res = (Ok r, snd res) /\ or_price r = Some 50000%float /\ or_type r = LIMIT) /\
  hd_error (submitted (snd res)) =
    Some {| oa_symbol := "BTCUSDT"; oa_side := "BUY"; oa_type := "LIMIT";
            oa_timeInForce := Some "GTC"; oa_quantity := 0.5;
            oa_price := Some 50000%float |}.
Proof.
  intros res.
  assert (E : exists r, res = (Ok r, snd res) /\ or_price r = Some 50000%float /\
                        or_type r = LIMIT).
  { eexists. vm_compute. repeat split; reflexivity. }
  split; [exact E|]. destruct E as (r & E & _).
  destruct (order_request_and_record (env_orders "t" "NEW") "BUY"
              "Erro ao executar ordem de compra: " "BTCUSDT" 0.5 sample_id
              (Some 50000%float) world_connected) as (_ & _ & _ & R).
  destruct (R r (snd res) E) as (c & d & S & _).
  fold res. rewrite S. reflexivity.
Defined.

(** C8 on a run: two keys that end in ["6789abcd"]. *)
Lemma same_fragment_overwrites_witness :
  Text.suffix 8 sample_key = Text.suffix 8 other_key /\
  derive_wallet_id other_key = "Njc4OWFiY2Q=" /\
  (let w2 := run_events [CallConnect (env_quote "t2" "100.00") other_key "secret2"
                           (Some "second") false] world_connected in
   dom (wallets (wallet_service w2)) = dom (wallets (wallet_service world_connected)) /\
   fst (resolve_credentials sample_id w2) = Ok (other_key, "secret2", PBool false)).
Proof.
  assert (S : Text.suffix 8 sample_key = Text.suffix 8 other_key) by reflexivity.
  assert (E1 : connect_wallet (env_quote "2024-01-01T00:00:00" "100.00") sample_key
                 sample_secret None true (world_init "k1") = (Ok true, world_connected))
    by (vm_compute; reflexivity).
  assert (Ec : get_binance_client (env_quote "t2" "100.00") other_key "secret2" (PBool false)
                 world_connected =
               (Ok {| cred_api_key := other_key; cred_api_secret := "secret2";
                      cred_testnet := false |}, world_connected))
    by (vm_compute; reflexivity).
  assert (Et : test_connection (env_quote "t2" "100.00")
                 {| cred_api_key := other_key; cred_api_secret := "secret2";
                    cred_testnet := false |} world_connected = (Ok true, world_connected))
    by (vm_compute; reflexivity).
  destruct (same_fragment_overwrites _ (env_quote "t2" "100.00") _ _ None true
              other_key "secret2" (Some "second") false _ _ _ S E1 Ec Et)
    as (_ & Hid & l1 & l2 & w2 & _ & E2 & _ & _ & D).
  split; [exact S|]. split; [rewrite Hid; vm_compute; reflexivity|].
  intros w2'. assert (W : w2' = w2).
  { unfold w2', run_events. cbn [fold_left run_event]. rewrite E2. reflexivity. }
  rewrite W. split; [exact D|].
  rewrite <- W. vm_compute. reflexivity.
Defined.

(** C9 on a run: a previous price of zero, then the first-observation
    note. *)
Lemma previous_price_guards_division_witness :
  let w := set_bot (set_last_price (Some 0%float) (bot_service world_started)) world_started in
  config (bot_service w) = Some sample_config /\
  last_operation (bot_service (snd (record_price (env_quote "t1" "99.00") sample_config
                                      99 w))) = Some (OpMonitoring 99) /\
  fst (record_price (env_quote "t1" "99.00") sample_config 99 w) = Ok tt.
Proof.
  intros w.
  assert (C : config (bot_service w) = Some sample_config) by reflexivity.
  destruct (previous_price_guards_division (env_quote "t1" "99.00") sample_config 99 w C)
    as (Z & _ & R).
  split; [exact C|]. split; [|exact R].
  rewrite Z; [reflexivity|]. right. exists 0%float. split; reflexivity.
Defined.

(** C10 on a run: three projections, one of them of an unknown id. *)
Lemma get_wallet_leaves_vault_witness :
  reachable world_started /\
  fst (resolve_credentials sample_id
         (snd (get_wallets [sample_id; "unknown"; sample_id] world_started))) =
  Ok (sample_key, sample_secret, PBool true).
Proof.
  assert (R : reachable world_started).
  { exists "k1".
    exists [CallConnect (env_quote "2024-01-01T00:00:00" "100.00") sample_key
              sample_secret None true;
            CallStart (env_quote "2024-01-01T00:01:00" "100.00") sample_config].
    reflexivity. }
  split; [exact R|].
  destruct (get_wallet_leaves_vault world_started [sample_id; "unknown"; sample_id] R)
    as (_ & _ & _ & E).
  rewrite E. vm_compute. reflexivity.
Defined.

(** * The further properties on concrete runs *)


Lemma toy_round_trip (key x : string) :
  fernet_decrypt key (fernet_encrypt key x) = Some x.
Proof.
  change (toy_decrypt key (toy_encrypt key x) = Some x).
  unfold toy_decrypt, toy_encrypt. induction key as [|c key IH].
  - reflexivity.
  - change (strip_prefix (String c (key +:+ ":")) (String c (key +:+ ":" +:+ x)) = Some x).
    cbn [strip_prefix]. rewrite Ascii.eqb_refl. exact IH.
Qed.

Lemma world_connected_vault : vault_ok world_connected.
Proof. apply reachable_vault_ok, world_connected_reachable. Qed.

Lemma world_one_turn_reachable : reachable world_one_turn.
Proof.
  exists "k1".
  exists [CallConnect (env_quote "2024-01-01T00:00:00" "100.00") sample_key
            sample_secret None true;
          CallStart (env_quote "2024-01-01T00:01:00" "100.00") sample_config;
          ThreadRuns [env_quote "t1" "99.00"]].
  vm_compute. reflexivity.
Qed.

Lemma world_overflow_reachable : reachable world_overflow.
Proof.
  exists "k1".
  exists [CallConnect (env_quote "2024-01-01T00:00:00" "100.00") sample_key
            sample_secret None true;
          CallStart (env_quote "2024-01-01T00:01:00" "100.00") overflow_config;
          ThreadRuns [env_quote "t1" "99.00"]].
  vm_compute. reflexivity.
Qed.

(** X2 on two runs: a start with an interval of a minute and one turn of the
    loop; and a start with an interval of ten thousand million seconds, which
    the validators accept and on which the wait of the first turn raises. *)
Lemma error_message_only_from_wait_witness :
  reachable world_one_turn /\
  error_message (bot_service world_one_turn) = None /\
  config (bot_service world_one_turn) <> None /\
  reachable world_overflow /\
  validate_config overflow_config = Ok overflow_config /\
  error_message (bot_service world_overflow) =
    Some "Erro durante a execução do bot: timeout value is too large" /\
  status (bot_service world_overflow) = ERROR /\
  thread_is_alive (bot_thread (bot_service world_overflow)) = false /\
  price_history (bot_service world_overflow) = [{| price := 99; timestamp := "t1" |}].
Proof.
  destruct (error_message_only_from_wait world_one_turn world_one_turn_reachable)
    as (_ & E & C).
  destruct (error_message_only_from_wait world_overflow world_overflow_reachable)
    as ([N|(cfg & e & Hc & Hw & Hm & Hs & Ha)] & _).
  { vm_compute in N. discriminate. }
  split; [exact world_one_turn_reachable|]. split.
  { apply (E sample_config); vm_compute; reflexivity. }
  split; [apply C; vm_compute; discriminate|].
  split; [exact world_overflow_reachable|].
  split; [vm_compute; reflexivity|].
  split; [vm_compute; reflexivity|].
  split; [exact Hs|]. split; [exact Ha|]. vm_compute. reflexivity.
Defined.

(** X3 on the same run. *)
Lemma status_snapshot_consistent_witness :
  reachable world_one_turn /\
  state_symbol (bot_service world_one_turn) = Some "BTCUSDT" /\
  state_wallet_id (bot_service world_one_turn) = Some sample_id /\
  start_time (bot_service world_one_turn) <> None /\
  last_price (bot_service world_one_turn) <> None.
Proof.
  split; [exact world_one_turn_reachable|].
  pose proof (status_snapshot_consistent world_one_turn world_one_turn_reachable) as S.
  assert (C : config (bot_service world_one_turn) = Some sample_config)
    by (vm_compute; reflexivity).
  rewrite C in S. exact S.
Defined.

(** X4 on the same run: the newest sample is the price 99. *)
Lemma last_price_is_newest_sample_witness :
  reachable world_one_turn /\
  last (price_history (bot_service world_one_turn)) =
    Some {| price := 99; timestamp := "t1" |} /\
  last_price (bot_service world_one_turn) = Some 99%float.
Proof.
  assert (L : last (price_history (bot_service world_one_turn)) =
              Some {| price := 99; timestamp := "t1" |}) by (vm_compute; reflexivity).
  split; [exact world_one_turn_reachable|]. split; [exact L|].
  apply (last_price_is_newest_sample world_one_turn world_one_turn_reachable _ L).
Defined.

(** X6 on a run: a stop that timed out on a turn in flight, which then
    meets the price 99. *)
Lemma late_turn_after_stop_witness :
  thread_is_alive (bot_thread (bot_service world_started)) = true /\
  config (bot_service world_started) = Some sample_config /\
  event_wait (interval_seconds sample_config) = Ok tt /\
  exists w2,
    thread_runs [env_quote "t1" "99.00"; env_quote "t2" "98.00"]
      (snd (stop (env_quote "t0" "100.00") false world_started)) = (Ok true, w2) /\
    status (bot_service w2) = STOPPED /\
    thread_is_alive (bot_thread (bot_service w2)) = false /\
    price_history (bot_service w2) = [{| price := 99; timestamp := "t1" |}] /\
    last_price (bot_service w2) = Some 99%float /\
    last_operation (bot_service w2) <> Some OpStopped.
Proof.
  assert (A : thread_is_alive (bot_thread (bot_service world_started)) = true)
    by reflexivity.
  assert (C : config (bot_service world_started) = Some sample_config)
    by (vm_compute; reflexivity).
  assert (W : event_wait (interval_seconds sample_config) = Ok tt)
    by (vm_compute; reflexivity).
  split; [exact A|]. split; [exact C|]. split; [exact W|].
  destruct (late_turn_after_stop (env_quote "t0" "100.00") world_started sample_config
              A C W (env_quote "t1" "99.00") [env_quote "t2" "98.00"])
    as (w2 & E & R & St & _).
  eexists. split; [exact R|]. cbn [bot_service set_bot].
  split; [exact St|]. split; [reflexivity|].
  vm_compute in E. injection E as <-. vm_compute. repeat split; try reflexivity.
  discriminate.
Defined.

(** X7 on a run: the wait timed out, the next start is refused. *)
Lemma start_after_stop_witness :
  thread_is_alive (bot_thread (bot_service world_started)) = true /\
  fst (start (env_quote "t2" "98.00") sample_config
         (snd (stop (env_quote "t0" "100.00") false world_started))) =
    Raise (ValueError "O bot já está em execução").
Proof.
  assert (A : thread_is_alive (bot_thread (bot_service world_started)) = true)
    by reflexivity.
  split; [exact A|].
  destruct (start_after_stop (env_quote "t0" "100.00") (env_quote "t2" "98.00")
              sample_config world_started A) as [E _].
  rewrite E. reflexivity.
Defined.

(** X8 on a run: a drop of ten percent under a GRID configuration. *)
Lemma grid_never_signals_witness :
  config (bot_service world_grid) = Some grid_config /\
  strategy grid_config = GRID /\
  signal_of (last_operation (bot_service
     (snd (_execute_strategy (env_quote "t1" "90.00") world_grid)))) = SigNONE.
Proof.
  assert (C : config (bot_service world_grid) = Some grid_config)
    by (vm_compute; reflexivity).
  split; [exact C|]. split; [reflexivity|].
  apply (grid_never_signals (env_quote "t1" "90.00") grid_config world_grid C eq_refl).
Defined.

(** X9 on a run, with the stand-in cipher. *)
Lemma connect_then_resolve_witness :
  (forall key x, fernet_decrypt key (fernet_encrypt key x) = Some x) /\
  connect_wallet (env_quote "2024-01-01T00:00:00" "100.00") sample_key sample_secret
    None true (world_init "k1") = (Ok true, world_connected) /\
  resolve_credentials sample_id world_connected =
    (Ok (sample_key, sample_secret, PBool true), world_connected).
Proof.
  assert (E : connect_wallet (env_quote "2024-01-01T00:00:00" "100.00") sample_key
                sample_secret None true (world_init "k1") = (Ok true, world_connected))
    by (vm_compute; reflexivity).
  split; [exact toy_round_trip|]. split; [exact E|].
  apply (connect_then_resolve _ _ _ _ _ _ _ toy_round_trip E).
Defined.

(** X11 on a run: a second key with another fragment. *)
Lemma connect_wallet_frames_others_witness :
  vault_ok world_connected /\
  sample_id <> derive_wallet_id "AnotherKeyAnotherKeyAnotherKey12345678" /\
  fst (resolve_credentials sample_id
         (snd (connect_wallet (env_quote "t2" "100.00")
                 "AnotherKeyAnotherKeyAnotherKey12345678" "secret2" None false
                 world_connected))) =
    Ok (sample_key, sample_secret, PBool true).
Proof.
  assert (N : sample_id <> derive_wallet_id "AnotherKeyAnotherKeyAnotherKey12345678")
    by (vm_compute; discriminate).
  split; [exact world_connected_vault|]. split; [exact N|].
  rewrite (connect_wallet_frames_others (env_quote "t2" "100.00")
             "AnotherKeyAnotherKeyAnotherKey12345678" "secret2" None false
             world_connected sample_id world_connected_vault N).
  vm_compute. reflexivity.
Defined.

(** X12 on a run: an unknown id. *)
Lemma get_wallet_projection_witness :
  vault_ok world_connected /\
  get_wallet "unknown" world_connected = (Ok None, world_connected).
Proof.
  split; [exact world_connected_vault|].
  destruct (get_wallet_projection "unknown" world_connected world_connected_vault) as [U _].
  apply U. vm_compute. reflexivity.
Defined.

(** X13 on a run: the vault with the sample wallet. *)
Lemma list_wallets_entries_witness :
  vault_ok world_connected /\
  [(sample_id, 1%positive)] ≡ₚ map_to_list (wallets (wallet_service world_connected)) /\
  exists entries,
    list_wallets [(sample_id, 1%positive)] world_connected = (Ok entries, world_connected) /\
    length entries = 1%nat.
Proof.
  assert (P : [(sample_id, 1%positive)] ≡ₚ
              map_to_list (wallets (wallet_service world_connected))).
  { assert (E : map_to_list (wallets (wallet_service world_connected)) =
                [(sample_id, 1%positive)]) by (vm_compute; reflexivity).
    rewrite E. reflexivity. }
  split; [exact world_connected_vault|]. split; [exact P|].
  destruct (list_wallets_entries _ world_connected world_connected_vault P)
    as (entries & E & L & _).
  exists entries. split; [exact E|]. rewrite L. vm_compute. reflexivity.
Defined.

(** X15 on keys: the two sample keys end alike and share their id; two
    keys of eight characters, one of them of two bytes, that differ in their
    first character do not. *)
Lemma wallet_id_collision_witness :
  derive_wallet_id sample_key = derive_wallet_id other_key /\
  Text.suffix 8 "key-aé234567" = "aé234567" /\
  derive_wallet_id "key-aé234567" <> derive_wallet_id "key-bé234567".
Proof.
  split; [apply (proj2 (wallet_id_collision sample_key other_key)); reflexivity|].
  split; [reflexivity|].
  intros E. apply (proj1 (wallet_id_collision _ _)) in E. vm_compute in E. discriminate.
Defined.

(** X16 on a run: the exchange refuses the order. *)
Lemma place_order_failure_witness :
  exists e w',
    place_order (env_quote "t" "100.00") "BUY" "Erro ao executar ordem de compra: "
      "BTCUSDT" 0.5 sample_id None world_connected = (Raise e, w') /\
    e = BinanceAPIException
          "Erro ao executar ordem de compra: APIError(code=-2010): insufficient balance" /\
    wallet_service w' = wallet_service world_connected.
Proof.
  eexists _, _.
  assert (E : place_order (env_quote "t" "100.00") "BUY" "Erro ao executar ordem de compra: "
                "BTCUSDT" 0.5 sample_id None world_connected =
              (Raise (BinanceAPIException
                 "Erro ao executar ordem de compra: APIError(code=-2010): insufficient balance"),
               snd (place_order (env_quote "t" "100.00") "BUY"
                      "Erro ao executar ordem de compra: " "BTCUSDT" 0.5 sample_id None
                      world_connected)))
    by (vm_compute; reflexivity).
  split; [exact E|]. split; [reflexivity|].
  apply (place_order_failure _ _ _ _ _ _ _ _ _ _ E).
Defined.

(** X17 on a run: the exchange accepts the order as number 28. *)
Lemma placed_order_in_ledger_witness :
  exists r w',
    place_order (env_orders "t" "NEW") "BUY" "Erro ao executar ordem de compra: "
      "BTCUSDT" 0.5 sample_id (Some 50000%float) world_connected = (Ok r, w') /\
    order_id r = "28" /\
    is_Some (trading_orders w' !! "28").
Proof.
  assert (E : exists r,
             place_order (env_orders "t" "NEW") "BUY" "Erro ao executar ordem de compra: "
               "BTCUSDT" 0.5 sample_id (Some 50000%float) world_connected =
             (Ok r, snd (place_order (env_orders "t" "NEW") "BUY"
                           "Erro ao executar ordem de compra: " "BTCUSDT" 0.5 sample_id
                           (Some 50000%float) world_connected)) /\
             order_id r = "28").
  { eexists. vm_compute. split; reflexivity. }
  destruct E as (r & E & I). eexists r, _. split; [exact E|]. split; [exact I|].
  destruct (placed_order_in_ledger _ _ _ _ _ _ _ _ _ _ E)
    as (c & w1 & d & oid & _ & _ & _ & _ & _ & _ & T & _).
  rewrite <- I, T. eauto.
Defined.

(** X18 on an answer whose status is not one of [OrderStatus]. *)
Lemma create_order_response_returns_witness :
  let d := <["status" := PStr "EXPIRED_IN_MATCH"]> (listed_order "BTCUSDT" 28 1507725176595) in
  d !! "symbol" = Some (PStr "BTCUSDT") /\
  d !! "origQty" = Some (PStr "0.50000000") /\
  py_float (PStr "0.50000000") = Ok 0.5%float /\
  exists r,
    _create_order_response (env_quote "t" "100.00") d = Ok r /\
    or_symbol r = "BTCUSDT" /\ or_quantity r = 0.5%float /\
    or_type r = MARKET /\ or_status r = NEW.
Proof.
  intros d.
  assert (S : d !! "symbol" = Some (PStr "BTCUSDT")) by (vm_compute; reflexivity).
  assert (Q : d !! "origQty" = Some (PStr "0.50000000")) by (vm_compute; reflexivity).
  assert (F : py_float (PStr "0.50000000") = Ok 0.5%float) by (vm_compute; reflexivity).
  split; [exact S|]. split; [exact Q|]. split; [exact F|].
  destruct (create_order_response_returns (env_quote "t" "100.00") d _ _ _ S Q F)
    as (r & E & Hs & Hq & B).
  exists r. split; [exact E|]. split; [exact Hs|]. split; [exact Hq|].
  destruct B as (_ & T & N & _); [|auto].
  eexists. vm_compute. reflexivity.
Defined.

(** X20 on a run: three orders on two pairs, the query on the third pair
    refused. *)
Lemma get_orders_newest_first_witness :
  _get_binance_client_from_wallet (env_quote "t" "100.00") sample_id world_connected =
    (Ok sample_client, world_looked_up) /\
  gather_orders sample_book sample_client ["BTCUSDT"; "ETHUSDT"; "BNBUSDT"] =
    [listed_order "BTCUSDT" 28 1507725176595; listed_order "BTCUSDT" 31 1507725179000;
     listed_order "BNBUSDT" 30 1507725178000] /\
  (exists orders rs w',
     get_orders (env_quote "t" "100.00") sample_book sample_id None world_connected =
       (Ok rs, w') /\
     newest_first orders /\
     Forall2 (fun d r => _create_order_response (env_quote "t" "100.00") d = Ok r)
       orders rs) /\
  match fst (get_orders (env_quote "t" "100.00") sample_book sample_id None
               world_connected) with
  | Ok rs => map order_id rs = ["31"; "30"; "28"]
  | Raise _ => False
  end.
Proof.
  assert (C : _get_binance_client_from_wallet (env_quote "t" "100.00") sample_id
                world_connected = (Ok sample_client, world_looked_up))
    by (vm_compute; reflexivity).
  assert (G : gather_orders sample_book sample_client ["BTCUSDT"; "ETHUSDT"; "BNBUSDT"] =
              [listed_order "BTCUSDT" 28 1507725176595;
               listed_order "BTCUSDT" 31 1507725179000;
               listed_order "BNBUSDT" 30 1507725178000]) by reflexivity.
  assert (W : forall sym id time,
             is_Some (int_time (listed_order sym id time)) /\ filed (listed_order sym id time)).
  { intros sym id time. split; [eexists; reflexivity|].
    split; [eexists; reflexivity|]. split; [eexists; reflexivity|].
    eexists _, _. split; [reflexivity|]. vm_compute. reflexivity. }
  split; [exact C|]. split; [exact G|]. split.
  - destruct (get_orders_newest_first (env_quote "t" "100.00") sample_book sample_id None
                world_connected sample_client world_looked_up (or_introl eq_refl) C)
      as (orders & rs & w' & E & _ & N & F & _).
    { rewrite G. repeat constructor; apply W. }
    exists orders, rs, w'. auto.
  - vm_compute. reflexivity.
Defined.

(** X23 on the sample key. *)
Lemma client_credentials_witness :
  get_binance_client (env_quote "t" "100.00") sample_key sample_secret (PBool true)
    world_connected = (Ok sample_client, world_connected) /\
  cred_api_key sample_client <> "" /\ cred_api_secret sample_client <> "".
Proof.
  assert (E : get_binance_client (env_quote "t" "100.00") sample_key sample_secret
                (PBool true) world_connected = (Ok sample_client, world_connected))
    by (vm_compute; reflexivity).
  split; [exact E|].
  destruct (client_credentials _ _ _ _ _ _ _ E) as (_ & K & S & _).
  split; [exact K|exact S].
Defined.

(** X25 on a run: the balance of a wallet that was never connected. *)
Lemma balance_route_never_404_witness :
  WalletApi.get_wallet_balance (env_quote "t" "100.00") "unknown" world_connected =
    (HttpError 500
       "Erro ao obter saldo da carteira: 404: Carteira com ID unknown não encontrada",
     world_connected).
Proof.
  destruct (balance_route_never_404 (env_quote "t" "100.00") "unknown" world_connected)
    as (_ & U & _).
  rewrite U; [reflexivity|]. vm_compute. reflexivity.
Defined.

(** X26 on a run: the sample wallet, a quote of 100. *)
Lemma start_route_outcomes_witness :
  vault_ok world_connected /\
  error_code (fst (BotApi.start_bot (env_quote "2024-01-01T00:01:00" "100.00")
                     sample_config world_connected)) = 0%Z /\
  error_code (fst (BotApi.start_bot (env_down "t") sample_config world_connected)) = 400%Z.
Proof.
  split; [exact world_connected_vault|]. split.
  - destruct (start_route_outcomes (env_quote "2024-01-01T00:01:00" "100.00")
                sample_config world_connected world_connected_vault)
      as [(w' & probe & E & _)|(w' & m & S & _)].
    + rewrite E. reflexivity.
    + vm_compute in S. discriminate.
  - destruct (start_route_outcomes (env_down "t") sample_config world_connected
                world_connected_vault)
      as [(w' & probe & E & _)|(w' & m & _ & E & _)].
    + vm_compute in E. discriminate.
    + rewrite E. reflexivity.
Defined.
